(** * Purchase-order debt report: the row-enrichment pipeline of [venezuela.py]

    A shallow embedding of the transformation stages of [src/venezuela.py]
    (schema validation, closed-order filter, fiscal year, rate lookup, area
    lookup, order / associated amounts and the net debt), of the detection of
    the header row and of the directory of areas built from the sheet,
    together with the properties the specification states about them and
    further properties the code has.

    Conventions of the embedding.
    - A pandas cell is a value of [cell]: a missing value (Python [None],
      float [nan] or [NaT], all of which satisfy [pd.isna]), a number, a text
      or a timestamp.  Numbers are exact rationals ([Qc]); the rounding of
      IEEE doubles and the wrap-around of 64-bit integers are outside the
      model.
    - A [DataFrame] is its ordered column names and its ordered rows; a row
      gives a cell to every column name, and a stage reads it only at names it
      has found in [columns] (where the code reads a column without that
      check, the stage raises [KeyError] when the column is absent).  The
      index labels of the rows are not modelled.
    - Python exceptions are values of [py_exn]; a computation that may raise
      lives in [Exc], and a stage that also prints lives in [M], which
      collects the lines written to standard output.  Standard output is
      modelled at stage granularity: the line that announces every enrichment
      stage, the summary of the filter and the report of the schema check;
      the lines that name a file, count results or warn about one row are
      left out.
    - A text is the string of the bytes of its UTF-8 encoding, on which
      equality and [in] are those of the text.
    - What Python and pandas decide by tables and heuristics of their own is
      the interface [Pandas]: the upper case and the white space of Unicode
      ([str.upper], [str.strip]), whether a text is a number or a date, how
      the texts of a whole column are read as dates, and in which order
      [sort_values] leaves rows of equal key.  Every definition is parametric
      in it, and the theorems use of it only the laws [PandasLaws], which hold
      of Python and pandas.
    - The labels of a table are distinct: a row gives one cell to a name.
      A sheet in which two headers are the same name once normalized is
      outside the model, and the theorems on sheets exclude it. *)

From Stdlib Require Import Ascii QArith Qcanon.
From stdpp Require Import sorting functions pretty gmap strings option list.

Local Open Scope Z_scope.

(** ** Python values *)

(** The three missing values of pandas; [pd.isna] holds of each. *)
Inductive na_kind : Type := PyNone | NaN | NaT.

(** [pd.Timestamp] without time zone: the calendar date and the time elapsed
    since midnight, in nanoseconds. *)
Record Timestamp : Type := mkTimestamp {
  year : Z;
  month : Z;
  day : Z;
  nanos : Z
}.

Inductive cell : Type :=
  | Na (k : na_kind)
  | Num (x : Qc)
  | Str (s : string)
  | Date (t : Timestamp).

(** [return None] of a Python function. *)
Definition None_ : cell := Na PyNone.

(** [pd.isna(x)] on a scalar. *)
Definition isna (c : cell) : bool :=
  match c with
  | Na _ => true
  | _ => false
  end.

(** A printed or raised message: a fixed text, possibly followed by the
    rendering of a list or of a set of names (an f-string with one field). *)
Inductive message : Type :=
  | Text (s : string)
  | TextList (s : string) (names : list string)
  | TextSet (s : string) (names : gset string).

Inductive py_exn : Type :=
  | ValueError (msg : message)
  | KeyError (key : string)
  | IndexError
  | TypeError
  | ZeroDivisionError.

(** ** Computations that may raise *)

Definition Exc (A : Type) : Type := py_exn + A.

Definition eret {A} (a : A) : Exc A := inr a.
Definition eraise {A} (e : py_exn) : Exc A := inl e.
Definition ebind {A B} (c : Exc A) (k : A → Exc B) : Exc B :=
  match c with
  | inl e => inl e
  | inr a => k a
  end.

Notation "x ←? c ; k" := (ebind c (λ x, k))
  (at level 20, c at level 100, k at level 200, right associativity,
   format "x  ←?  c ;  '/' k").

(** [try: body except Exception: return None]. *)
Definition try_except (body : Exc cell) : cell :=
  match body with
  | inl _ => None_
  | inr v => v
  end.

(** ** Stages: computations that print and may raise *)

Definition M (A : Type) : Type := list message * Exc A.

Global Instance M_ret : MRet M := λ A a, ([], inr a).
Global Instance M_bind : MBind M := λ A B k c,
  match c with
  | (out, inl e) => (out, inl e)
  | (out, inr a) => let '(out', b) := k a in (out ++ out', b)
  end.

Definition print (m : message) : M unit := ([m], inr tt).
Definition raise {A} (e : py_exn) : M A := ([], inl e).

(** What a run wrote, and how it ended. *)
Definition stdout {A} (c : M A) : list message := c.1.
Definition outcome {A} (c : M A) : Exc A := c.2.

(** ** Text *)

Definition ascii_upper (c : ascii) : ascii :=
  let n := nat_of_ascii c in
  if (97 <=? n)%nat && (n <=? 122)%nat then ascii_of_nat (n - 32) else c.

(** [s.upper()] on an ASCII text; on other texts [str.upper] is the
    operation [upper] of the interface [Pandas]. *)
Fixpoint upper_ascii (s : string) : string :=
  match s with
  | "" => ""
  | String c s' => String (ascii_upper c) (upper_ascii s')
  end.

(** The ASCII characters on which [str.isspace] holds: tab to carriage
    return, the four separators 28 to 31, and the blank. *)
Definition isspace (c : ascii) : bool :=
  let n := nat_of_ascii c in
  ((9 <=? n)%nat && (n <=? 13)%nat) || ((28 <=? n)%nat && (n <=? 32)%nat).

Fixpoint lstrip (s : string) : string :=
  match s with
  | "" => ""
  | String c s' => if isspace c then lstrip s' else s
  end.

Fixpoint rstrip (s : string) : string :=
  match s with
  | "" => ""
  | String c s' =>
      match rstrip s' with
      | "" => if isspace c then "" else String c ""
      | r => String c r
      end
  end.

(** [s.strip()] on an ASCII text; on other texts [str.strip] is the
    operation [strip] of the interface [Pandas]. *)
Definition strip_ascii (s : string) : string := lstrip (rstrip s).

(** A text of ASCII characters. *)
Fixpoint es_ascii (s : string) : bool :=
  match s with
  | "" => true
  | String c s' => (nat_of_ascii c <? 128)%nat && es_ascii s'
  end.

Fixpoint startswith (p s : string) : bool :=
  match p, s with
  | "", _ => true
  | String a p', String b s' => bool_decide (a = b) && startswith p' s'
  | String _ _, "" => false
  end.

(** [p in s] on text. *)
Fixpoint contains (p s : string) : bool :=
  startswith p s ||
  match s with
  | "" => false
  | String _ s' => contains p s'
  end.

(** A number padded with zeros on the left to [width] characters, as the
    fields [%Y], [%m] and [%d] of [strftime] are. *)
Definition zfill (width : nat) (s : string) : string :=
  String.string_of_list_ascii (replicate (width - String.length s) "0"%char) +:+ s.

(** ** Timestamps *)

(** [t.strftime('%Y-%m-%d')]. *)
Definition strftime_Ymd (t : Timestamp) : string :=
  zfill 4 (pretty (year t)) +:+ "-" +:+ zfill 2 (pretty (month t))
  +:+ "-" +:+ zfill 2 (pretty (day t)).

(** [a <= b] on timestamps. *)
Definition Timestamp_le (a b : Timestamp) : Prop :=
  year a < year b ∨ (year a = year b ∧
  (month a < month b ∨ (month a = month b ∧
  (day a < day b ∨ (day a = day b ∧ nanos a ≤ nanos b))))).

Global Instance Timestamp_le_dec : RelDecision Timestamp_le.
Proof. intros a b. unfold Timestamp_le. apply _. Defined.

(** ** Tables *)

Abbreviation Row := (string → cell).

Record DataFrame : Type := mkDataFrame {
  columns : list string;
  rows : list Row
}.

(** [col in df.columns]. *)
Definition has_column (col : string) (df : DataFrame) : bool :=
  bool_decide (col ∈ columns df).

(** [df[col] = df.apply(f, axis=1)]: the column takes the place of one of
    the same name, or is added after the last one. *)
Definition assign (col : string) (f : Row → cell) (df : DataFrame) : DataFrame :=
  {| columns := if has_column col df then columns df else columns df ++ [col];
     rows := (λ r, <[col := f r]> r) <$> rows df |}.

(** [df[col] = valores], a column given by its cells from the first row
    on. *)
Definition asignar (col : string) (valores : list cell) (df : DataFrame) : DataFrame :=
  {| columns := if has_column col df then columns df else columns df ++ [col];
     rows := zip_with (λ (r : Row) (v : cell), <[col := v]> r) (rows df) valores |}.

(** ** What Python and pandas decide *)

Class Pandas : Type := {
  (** [s.upper()] and [s.strip()], on every text. *)
  upper : string → string;
  strip : string → string;
  (** [pd.to_numeric(s, errors='coerce')] on a text: the number read, or
      nothing when the text is not a number (the result is then [nan]). *)
  str_to_numeric : string → option Qc;
  (** [pd.to_datetime(s)] on a text: raises on a text that is not a date,
      and gives [NaT] (here [None]) or a timestamp otherwise. *)
  str_to_datetime : string → Exc (option Timestamp);
  (** [pd.to_datetime(x)] on a number (an offset from the epoch). *)
  num_to_datetime : Qc → Exc (option Timestamp);
  (** [str(x)] of a number and of a timestamp. *)
  str_of_num : Qc → string;
  str_of_timestamp : Timestamp → string;
  (** [pd.to_datetime(serie, errors='coerce')] on the cells of a column:
      cell for cell a timestamp or [NaT].  pandas reads the texts of a column
      together, by the format it finds in the first of them. *)
  to_datetime_serie : list cell → list cell;
  (** [df.sort_values(by=by_)]: the rows in ascending order of the column,
      those of equal key in an order pandas leaves open. *)
  sort_values : string → DataFrame → DataFrame
}.

Section Pipeline.

Context `{Pandas}.

(** [str(x)]; also what [Series.astype(str)] puts in place of [x]. *)
Definition py_str (c : cell) : string :=
  match c with
  | Na PyNone => "None"
  | Na NaN => "nan"
  | Na NaT => "NaT"
  | Num x => str_of_num x
  | Str s => s
  | Date t => str_of_timestamp t
  end.

(** [pd.to_numeric(x, errors='coerce')] on a scalar. *)
Definition to_numeric (c : cell) : cell :=
  match c with
  | Na _ => Na NaN
  | Num x => Num x
  | Str s => match str_to_numeric s with
             | Some x => Num x
             | None => Na NaN
             end
  | Date _ => Na NaN
  end.

(** [pd.to_datetime(x)] on a scalar; [None] stands for [NaT]. *)
Definition to_datetime (c : cell) : Exc (option Timestamp) :=
  match c with
  | Na _ => eret None
  | Num x => num_to_datetime x
  | Str s => str_to_datetime s
  | Date t => eret (Some t)
  end.

(** [x == 0] and [x != 0]: a text or a timestamp is not equal to zero. *)
Definition eq_zero (c : cell) : bool :=
  match c with
  | Num x => bool_decide (x = 0%Qc)
  | _ => false
  end.

(** [a * b] of two cells on which [to_numeric] has been applied. *)
Definition py_mul (a b : cell) : Exc cell :=
  match a, b with
  | Num x, Num y => eret (Num (x * y))
  | _, _ => eraise TypeError
  end.

(** [a - b]. *)
Definition py_sub (a b : cell) : Exc cell :=
  match a, b with
  | Num x, Num y => eret (Num (x - y))
  | _, _ => eraise TypeError
  end.

(** [a / b]: a zero divisor raises, and so does a dividend that is no
    number. *)
Definition py_truediv (a b : cell) : Exc cell :=
  match a, b with
  | Num x, Num y =>
      if bool_decide (y = 0%Qc) then eraise ZeroDivisionError
      else eret (Num (x / y))
  | _, _ => eraise TypeError
  end.

(** [str(x).upper().strip() if not pd.isna(x) else ""]. *)
Definition normalizar_divisa (divisa : cell) : string :=
  if isna divisa then "" else strip (upper (py_str divisa)).

(** [df.columns = df.columns.str.upper().str.strip()]: every column keeps
    its cells under its new name.  When two headers become the same name
    pandas keeps both columns under that label, which a [Row] cannot hold:
    such a sheet is outside the model (see [nombres_distintos]), and the
    choice of the first of the two columns made here stands for nothing in
    the code. *)
Definition normalizar_columnas (df : DataFrame) : DataFrame :=
  {| columns := (λ col, strip (upper col)) <$> columns df;
     rows := (λ (r : Row) col',
                match list_find (λ col, strip (upper col) = col') (columns df) with
                | Some (_, col) => r col
                | None => r col'
                end) <$> rows df |}.

(** ** Schema validation *)

Definition COLUMNAS_ESPERADAS : list string :=
  [ "NUMERO_OC"; "PROVEEDOR"; "SUCURSAL"; "DIVISA"; "PRICE_OVERRIDE"; "IMPORTE";
    "IMPORTE_RECIBIDO"; "IMPORTE_ASOCIADO"; "FECHA_ORDEN"; "UNIDAD_MEDIDA";
    "DESCRIPCION"; "CUENTA_CARGO"; "SOLICITANTE"; "ESTADO_CIERRE"; "APROBADOR";
    "FECHA_CIERRE" ].

(** [set(col.upper().strip() for col in cols)]. *)
Definition conjunto_normalizado (cols : list string) : gset string :=
  list_to_set ((λ col, strip (upper col)) <$> cols).

Definition verificar_columnas (df : DataFrame) : M bool :=
  let columnas_df := conjunto_normalizado (columns df) in
  let columnas_esperadas := conjunto_normalizado COLUMNAS_ESPERADAS in
  if decide (columnas_df = columnas_esperadas) then
    _ ← print (Text "✓ Todas las columnas están presentes y correctas");
    mret true
  else
    let faltantes := columnas_esperadas ∖ columnas_df in
    let extras := columnas_df ∖ columnas_esperadas in
    _ ← (if decide (faltantes = ∅) then mret ()
         else print (TextSet "✗ Columnas faltantes: " faltantes));
    _ ← (if decide (extras = ∅) then mret ()
         else print (TextSet "⚠ Columnas extras encontradas: " extras));
    mret false.

(** [leer_ordenes_compra] from the point where the sheet has been read at
    its header row: [df_leido] is [pd.read_excel(ruta_archivo,
    header=fila_cabezales)]. *)
Definition leer_ordenes_compra (df_leido : DataFrame) : M DataFrame :=
  let df := normalizar_columnas df_leido in
  ok ← verificar_columnas df;
  if negb ok then raise (ValueError (Text "El archivo no tiene las columnas esperadas"))
  else mret df.

(** ** Stage 1: the closed orders are dropped *)

(** [df['ESTADO_CIERRE'].astype(str).str.upper().str.strip()], on one row. *)
Definition estado_normalizado (r : Row) : string :=
  strip (upper (py_str (r "ESTADO_CIERRE"))).

Definition filtrar_cerrados (df : DataFrame) : M DataFrame :=
  if has_column "ESTADO_CIERRE" df then
    let filas_antes := length (rows df) in
    let df_filtrado :=
      {| columns := columns df;
         rows := filter (λ r, estado_normalizado r ≠ "CERRADO") (rows df) |} in
    let filas_despues := length (rows df_filtrado) in
    let filas_eliminadas := (filas_antes - filas_despues)%nat in
    _ ← print (Text ("✓ Filtrado completado. Filas eliminadas: "
                     +:+ pretty filas_eliminadas +:+ ", Filas restantes: "
                     +:+ pretty filas_despues));
    mret df_filtrado
  else raise (ValueError (Text "La columna ESTADO_CIERRE no existe en el DataFrame")).

(** ** Stage 2: AÑO FISCAL *)

Definition calcular_ano_fiscal_body (fecha_orden : cell) : Exc cell :=
  fecha_dt ←? to_datetime fecha_orden;
  match fecha_dt with
  | Some fecha_dt =>
      let año := year fecha_dt in
      let mes := month fecha_dt in
      if bool_decide (mes > 8) then
        let año_siguiente := año + 1 in
        eret (Str (pretty año +:+ "-" +:+ pretty año_siguiente))
      else
        let año_anterior := año - 1 in
        eret (Str (pretty año_anterior +:+ "-" +:+ pretty año))
  | None =>
      (* [NaT.year] and [NaT.month] are [nan]: [nan > 8] is false and
         [nan - 1] is [nan] *)
      eret (Str "nan-nan")
  end.

Definition calcular_ano_fiscal (fecha_orden : cell) : cell :=
  if isna fecha_orden then None_
  else try_except (calcular_ano_fiscal_body fecha_orden).

Definition agregar_ano_fiscal (df : DataFrame) : M DataFrame :=
  _ ← print (Text "Agregando columna AÑO FISCAL...");
  if has_column "FECHA_ORDEN" df then
    mret (assign "AÑO FISCAL" (λ r, calcular_ano_fiscal (r "FECHA_ORDEN")) df)
  else raise (ValueError (Text "La columna FECHA_ORDEN no existe en el DataFrame")).

(** ** Stage 3: TASA, the rate of the order date *)

(** One entry of [tasas_lookup]: the dictionary [{'fecha': ..., 'fecha_str':
    ..., 'tasa_VES': ..., ...}], the rates in the order of their insertion. *)
Record TasaRow : Type := mkTasaRow {
  fecha : Timestamp;
  fecha_str : string;
  tasas : list (string * cell)
}.

(** The columns of [pd.DataFrame(tasas_lookup)]: the keys of the
    dictionaries, in the order of their first occurrence. *)
Definition lookup_columns (df_lookup : list TasaRow) : list string :=
  remove_dups (df_lookup ≫= λ r, "fecha" :: "fecha_str" :: (tasas r).*1).

(** [fila[col_tasa_key]] on a row of the lookup frame; a dictionary without
    the key left [nan] in the frame. *)
Definition tasa_de (col_tasa_key : string) (fila : TasaRow) : cell :=
  default (Na NaN)
          ((λ found, found.2.2) <$> list_find (λ kv, kv.1 = col_tasa_key) (tasas fila)).

Definition posibles_fechas : list string :=
  ["FECHA"; "DATE"; "FECHA_CAMBIO"; "FECHA_TASA"].

Definition tasas_buscadas : list (string * list string) :=
  [ ("VES", ["VES/USD"; "VES_USD"]);
    ("COP", ["COP/USD"; "COP_USD"]);
    ("EUR", ["EUR/USD"; "EUR_USD"]) ].

(** The first column whose upper-cased name contains one of the patterns;
    the patterns of the code are in upper case already, whether it applies
    [upper] to them or not. *)
Definition buscar_columna (patrones : list string) (cols : list string)
  : option string :=
  snd <$> list_find
            (λ col, existsb (λ patron, contains (upper patron) (upper col)) patrones = true)
            cols.

(** The dictionary [columnas_tasa]: which column of the rate table holds the
    rate of which currency. *)
Definition buscar_columnas_tasa (cols : list string) : list (string * string) :=
  let columnas_tasa :=
    omap (λ '(divisa, patrones), (λ col, (divisa, col)) <$> buscar_columna patrones cols)
         tasas_buscadas in
  match columnas_tasa with
  | [] =>
      match buscar_columna ["USD"; "TASA"; "CAMBIO"] cols with
      | Some col => [("DEFAULT", col)]
      | None => []
      end
  | _ => columnas_tasa
  end.

(** [pd.to_datetime(x, errors='coerce')] on one cell taken alone. *)
Definition to_datetime_coerce (c : cell) : cell :=
  match to_datetime c with
  | inr (Some t) => Date t
  | _ => Na NaT
  end.

(** The order of [sort_values] on a date column: [NaT] goes last. *)
Definition fecha_le (a b : cell) : Prop :=
  match a, b with
  | Date t, Date u => Timestamp_le t u
  | _, Date _ => False
  | _, _ => True
  end.

Global Instance fecha_le_dec : RelDecision fecha_le.
Proof. intros [] []; simpl; apply _. Defined.

(** [df.dropna(subset=[col])]. *)
Definition dropna (col : string) (df : DataFrame) : DataFrame :=
  {| columns := columns df;
     rows := filter (λ r : Row, isna (r col) = false) (rows df) |}.

(** The list [tasas_lookup] built from the cleaned rate table. *)
Definition construir_tasas_lookup (columna_fecha_tasa : string)
    (columnas_tasa : list (string * string)) (df_tasa_clean : DataFrame)
  : list TasaRow :=
  omap (λ row : Row,
          match row columna_fecha_tasa with
          | Date fecha =>
              Some {| fecha := fecha;
                      fecha_str := strftime_Ymd fecha;
                      tasas := omap (λ '(divisa, col_tasa),
                                       if has_column col_tasa df_tasa_clean
                                       then Some ("tasa_" +:+ divisa, row col_tasa)
                                       else None)
                                    columnas_tasa |}
          | _ => None
          end)
       (rows df_tasa_clean).

(** The rate table as the lookup is built from it: the date column parsed,
    the rows sorted by date, the rows without a date dropped. *)
Definition limpiar_tasa (columna_fecha_tasa : string) (df_tasa : DataFrame)
  : DataFrame :=
  let df_tasa_clean :=
    asignar columna_fecha_tasa
            (to_datetime_serie ((λ r : Row, r columna_fecha_tasa) <$> rows df_tasa))
            df_tasa in
  let df_tasa_clean := sort_values columna_fecha_tasa df_tasa_clean in
  dropna columna_fecha_tasa df_tasa_clean.

(** Which column of the lookup frame answers for a currency. *)
Definition elegir_col_tasa_key (df_lookup : list TasaRow) (divisa_upper : string)
  : option string :=
  if decide (divisa_upper = "VES") then Some "tasa_VES"
  else if decide (divisa_upper = "COP") then Some "tasa_COP"
  else if decide (divisa_upper = "EUR") then Some "tasa_EUR"
  else if decide ("tasa_VES" ∈ lookup_columns df_lookup) then Some "tasa_VES"
  else if decide ("tasa_COP" ∈ lookup_columns df_lookup) then Some "tasa_COP"
  else if decide ("tasa_EUR" ∈ lookup_columns df_lookup) then Some "tasa_EUR"
  else if decide ("tasa_DEFAULT" ∈ lookup_columns df_lookup) then Some "tasa_DEFAULT"
  else None.

(** The search in the lookup frame once the order date is a timestamp and
    the column is chosen: the first row of the same day, and failing that
    the last row that is not later than the order. *)
Definition buscar_en_lookup (df_lookup : list TasaRow) (col_tasa_key : string)
    (fecha_dt : Timestamp) : Exc cell :=
  let fecha_str_orden := strftime_Ymd fecha_dt in
  if decide ("fecha_str" ∈ lookup_columns df_lookup) then
    let fila_exacta := filter (λ r, fecha_str r = fecha_str_orden) df_lookup in
    let exacta :=
      match fila_exacta with
      | fila :: _ =>
          if decide (col_tasa_key ∈ lookup_columns df_lookup) then
            let tasa := tasa_de col_tasa_key fila in
            if negb (isna tasa) then Some tasa else None
          else None
      | [] => None
      end in
    match exacta with
    | Some tasa => eret tasa
    | None =>
        let filas_anteriores := filter (λ r, Timestamp_le (fecha r) fecha_dt) df_lookup in
        match last filas_anteriores with
        | Some fila_anterior =>
            if decide (col_tasa_key ∈ lookup_columns df_lookup) then
              let tasa := tasa_de col_tasa_key fila_anterior in
              if negb (isna tasa) then eret tasa else eret None_
            else eret None_
        | None => eret None_
        end
    end
  else eraise (KeyError "fecha_str").

Definition buscar_tasa_con_fallback_body (df_lookup : list TasaRow)
    (fecha_orden divisa : cell) : Exc cell :=
  fecha_dt ←? to_datetime fecha_orden;
  match fecha_dt with
  | None => eraise (ValueError (Text "NaTType does not support strftime"))
  | Some fecha_dt =>
      let divisa_upper := normalizar_divisa divisa in
      match elegir_col_tasa_key df_lookup divisa_upper with
      | None => eret None_
      | Some col_tasa_key => buscar_en_lookup df_lookup col_tasa_key fecha_dt
      end
  end.

Definition buscar_tasa_con_fallback (df_lookup : list TasaRow)
    (fecha_orden divisa : cell) : cell :=
  if isna fecha_orden then None_
  else try_except (buscar_tasa_con_fallback_body df_lookup fecha_orden divisa).

(** The column the dates of the rate table are taken from: the first one
    whose name looks like a date, else [df_tasa.columns[0]]. *)
Definition elegir_columna_fecha (df_tasa : DataFrame) : Exc string :=
  match buscar_columna posibles_fechas (columns df_tasa) with
  | Some col => eret col
  | None =>
      match columns df_tasa with
      | col :: _ => eret col
      | [] => eraise IndexError
      end
  end.

(** The lookup frame [df_lookup] of a rate table. *)
Definition construir_lookup (df_tasa : DataFrame) : Exc (list TasaRow) :=
  columna_fecha_tasa ←? elegir_columna_fecha df_tasa;
  let columnas_tasa := buscar_columnas_tasa (columns df_tasa) in
  let df_tasa_clean := limpiar_tasa columna_fecha_tasa df_tasa in
  eret (construir_tasas_lookup columna_fecha_tasa columnas_tasa df_tasa_clean).

Definition agregar_columna_tasa (df_ordenes df_tasa : DataFrame) : M DataFrame :=
  _ ← print (Text "Agregando columna TASA...");
  match construir_lookup df_tasa with
  | inl e => raise e
  | inr df_lookup =>
      if has_column "DIVISA" df_ordenes then
        if has_column "FECHA_ORDEN" df_ordenes then
          mret (assign "TASA"
                  (λ row, buscar_tasa_con_fallback df_lookup
                            (row "FECHA_ORDEN") (row "DIVISA"))
                  df_ordenes)
        else raise (KeyError "FECHA_ORDEN")
      else
        _ ← print (Text "⚠ Advertencia: No existe columna DIVISA, no se puede determinar la tasa correcta");
        mret (assign "TASA" (λ _, None_) df_ordenes)
  end.

(** ** Stage 4: AREA *)

Definition buscar_area (areas_dict : gmap string string) (solicitante : cell) : cell :=
  if isna solicitante then None_
  else
    let solicitante_str := strip (upper (py_str solicitante)) in
    match areas_dict !! solicitante_str with
    | Some area => Str area
    | None => None_
    end.

(** [agregar_columna_area] with the directory read from the sheet given as
    [areas_dict], the result of [leer_areas_desde_sheets]; the empty
    dictionary is what a failed read returns. *)
Definition agregar_columna_area (df : DataFrame) (areas_dict : gmap string string)
  : M DataFrame :=
  _ ← print (Text "Agregando columna AREA...");
  if has_column "SOLICITANTE" df then
    if decide (areas_dict = ∅) then
      _ ← print (Text "⚠ Advertencia: No se pudieron leer áreas desde Google Sheets");
      mret (assign "AREA" (λ _, None_) df)
    else mret (assign "AREA" (λ r, buscar_area areas_dict (r "SOLICITANTE")) df)
  else raise (ValueError (Text "La columna SOLICITANTE no existe en el DataFrame")).

(** ** Stage 5: MONTO OC and MONTO OC USD *)

(** [[col for col in columnas_requeridas if col not in df.columns]]. *)
Definition columnas_faltantes (columnas_requeridas : list string) (df : DataFrame)
  : list string :=
  filter (λ col, col ∉ columns df) columnas_requeridas.

Definition calcular_monto_oc_body (row : Row) : Exc cell :=
  let price_override := row "PRICE_OVERRIDE" in
  let importe := row "IMPORTE" in
  if isna price_override || isna importe then eret None_
  else
    let price_override := to_numeric price_override in
    let importe := to_numeric importe in
    if isna price_override || isna importe then eret None_
    else py_mul price_override importe.

Definition calcular_monto_oc (row : Row) : cell :=
  try_except (calcular_monto_oc_body row).

(** The conversion of a local amount to USD.  [calcular_monto_oc_usd] and
    [calcular_monto_oc_asociado_usd] have the same text but for the column
    the amount is read from, which is the argument [monto_col]. *)
Definition calcular_monto_usd_body (monto_col : string) (row : Row) : Exc cell :=
  let monto := row monto_col in
  let divisa := row "DIVISA" in
  let tasa := row "TASA" in
  if isna monto then eret None_
  else
    let divisa_str := normalizar_divisa divisa in
    if decide (divisa_str = "USD") then eret monto
    else if decide (divisa_str ∈ ["VES"; "COP"; "EUR"]) then
      if isna tasa || eq_zero tasa then eret None_
      else
        let tasa_num := to_numeric tasa in
        if isna tasa_num || eq_zero tasa_num then eret None_
        else py_truediv monto tasa_num
    else
      if negb (isna tasa) && negb (eq_zero tasa) then
        let tasa_num := to_numeric tasa in
        if negb (isna tasa_num) && negb (eq_zero tasa_num)
        then py_truediv monto tasa_num
        else eret None_
      else eret None_.

Definition calcular_monto_oc_usd_body : Row → Exc cell :=
  calcular_monto_usd_body "MONTO OC".

Definition calcular_monto_oc_usd (row : Row) : cell :=
  try_except (calcular_monto_oc_usd_body row).

Definition agregar_montos_oc (df : DataFrame) : M DataFrame :=
  _ ← print (Text "Agregando columnas MONTO OC y MONTO OC USD...");
  let faltantes :=
    columnas_faltantes ["PRICE_OVERRIDE"; "IMPORTE"; "DIVISA"; "TASA"] df in
  if bool_decide (faltantes = []) then
    let df_con_montos := assign "MONTO OC" calcular_monto_oc df in
    let df_con_montos := assign "MONTO OC USD" calcular_monto_oc_usd df_con_montos in
    mret df_con_montos
  else raise (ValueError (TextList "Faltan las siguientes columnas: " faltantes)).

(** ** Stage 6: MONTO OC ASOCIADO and MONTO OC ASOCIADO USD *)

Definition calcular_monto_oc_asociado_body (row : Row) : Exc cell :=
  let price_override := row "PRICE_OVERRIDE" in
  let importe_asociado := row "IMPORTE_ASOCIADO" in
  if isna price_override || isna importe_asociado then eret None_
  else
    let price_override := to_numeric price_override in
    let importe_asociado := to_numeric importe_asociado in
    if isna price_override || isna importe_asociado then eret None_
    else py_mul importe_asociado price_override.

Definition calcular_monto_oc_asociado (row : Row) : cell :=
  try_except (calcular_monto_oc_asociado_body row).

Definition calcular_monto_oc_asociado_usd_body : Row → Exc cell :=
  calcular_monto_usd_body "MONTO OC ASOCIADO".

Definition calcular_monto_oc_asociado_usd (row : Row) : cell :=
  try_except (calcular_monto_oc_asociado_usd_body row).

Definition agregar_montos_oc_asociado (df : DataFrame) : M DataFrame :=
  _ ← print (Text "Agregando columnas MONTO OC ASOCIADO y MONTO OC ASOCIADO USD...");
  let faltantes :=
    columnas_faltantes ["PRICE_OVERRIDE"; "IMPORTE_ASOCIADO"; "DIVISA"; "TASA"] df in
  if bool_decide (faltantes = []) then
    let df_con_montos_asociado :=
      assign "MONTO OC ASOCIADO" calcular_monto_oc_asociado df in
    let df_con_montos_asociado :=
      assign "MONTO OC ASOCIADO USD" calcular_monto_oc_asociado_usd
             df_con_montos_asociado in
    mret df_con_montos_asociado
  else raise (ValueError (TextList "Faltan las siguientes columnas: " faltantes)).

(** ** Stage 7: MONTO REAL DEUDA *)

Definition calcular_monto_real_deuda_body (row : Row) : Exc cell :=
  let monto_oc_usd := row "MONTO OC USD" in
  let monto_oc_asociado_usd := row "MONTO OC ASOCIADO USD" in
  if isna monto_oc_usd && isna monto_oc_asociado_usd then eret None_
  else
    let monto_oc_usd :=
      if negb (isna monto_oc_usd) then to_numeric monto_oc_usd else Num 0 in
    let monto_oc_asociado_usd :=
      if negb (isna monto_oc_asociado_usd)
      then to_numeric monto_oc_asociado_usd else Num 0 in
    let monto_oc_usd := if isna monto_oc_usd then Num 0 else monto_oc_usd in
    let monto_oc_asociado_usd :=
      if isna monto_oc_asociado_usd then Num 0 else monto_oc_asociado_usd in
    py_sub monto_oc_usd monto_oc_asociado_usd.

Definition calcular_monto_real_deuda (row : Row) : cell :=
  try_except (calcular_monto_real_deuda_body row).

Definition agregar_monto_real_deuda (df : DataFrame) : M DataFrame :=
  _ ← print (Text "Agregando columna MONTO REAL DEUDA...");
  let faltantes := columnas_faltantes ["MONTO OC USD"; "MONTO OC ASOCIADO USD"] df in
  if bool_decide (faltantes = []) then
    mret (assign "MONTO REAL DEUDA" calcular_monto_real_deuda df)
  else raise (ValueError (TextList "Faltan las siguientes columnas: " faltantes)).

(** ** The pipeline *)

(** [procesar_archivos] on the two tables as read from their files and the
    area directory, without an output path. *)
Definition procesar_archivos (df_leido df_tasa : DataFrame)
    (areas_dict : gmap string string) : M (DataFrame * DataFrame) :=
  df_ordenes ← leer_ordenes_compra df_leido;
  df_ordenes_filtrado ← filtrar_cerrados df_ordenes;
  df_ordenes_con_ano_fiscal ← agregar_ano_fiscal df_ordenes_filtrado;
  df_ordenes_con_tasa ← agregar_columna_tasa df_ordenes_con_ano_fiscal df_tasa;
  df_ordenes_con_area ← agregar_columna_area df_ordenes_con_tasa areas_dict;
  df_ordenes_con_montos ← agregar_montos_oc df_ordenes_con_area;
  df_ordenes_con_montos_asociado ← agregar_montos_oc_asociado df_ordenes_con_montos;
  df_ordenes_final ← agregar_monto_real_deuda df_ordenes_con_montos_asociado;
  mret (df_ordenes_final, df_tasa).

(** ** Header detection *)

(** [set(df.iloc[i].astype(str).str.upper().str.strip().values)]: the
    normalized texts of the cells of one row of the raw sheet. *)
Definition valores_fila (fila : list cell) : gset string :=
  list_to_set ((λ c, strip (upper (py_str c))) <$> fila).

(** [detectar_cabezales] on the sheet read without header, a list of rows
    of cells; [num_filas_revisar] is 5 when the caller does not give it. *)
Definition detectar_cabezales (df : list (list cell)) (num_filas_revisar : nat) : M nat :=
  match list_find
          (λ fila, conjunto_normalizado COLUMNAS_ESPERADAS ⊆ valores_fila fila)
          (take num_filas_revisar df) with
  | Some (i, _) =>
      _ ← print (Text ("Cabezales detectados en la fila " +:+ pretty (S i)));
      mret i
  | None =>
      _ ← print (Text "⚠ No se detectaron cabezales automáticamente, usando la primera fila");
      mret 0%nat
  end.

Definition columnas_esperadas_tasa : list string :=
  ["FECHA"; "VES/USD"; "VES/EUR"; "COP/USD"; "EUR/USD"; "COP/VES"; "VES/COF"].

(** [detectar_cabezales_tasa]; [num_filas_revisar] is 10 when the caller
    does not give it. *)
Definition detectar_cabezales_tasa (df : list (list cell)) (num_filas_revisar : nat)
  : M nat :=
  match list_find
          (λ fila, (3 ≤ size (conjunto_normalizado columnas_esperadas_tasa
                              ∩ valores_fila fila))%nat)
          (take num_filas_revisar df) with
  | Some (i, fila) =>
      _ ← print (Text ("Cabezales de Tasa detectados en la fila " +:+ pretty (S i)));
      _ ← print (TextSet "  Columnas encontradas: "
                   (conjunto_normalizado columnas_esperadas_tasa ∩ valores_fila fila));
      mret i
  | None =>
      _ ← print (Text "⚠ No se detectaron cabezales de Tasa automáticamente, usando la primera fila");
      mret 0%nat
  end.

(** ** The area directory *)

(** The two loop variables [col_solicitante_idx] and [col_area_idx] after
    the loop over the headers: the last header that contains each word. *)
Definition buscar_indices (headers : list string) : option nat * option nat :=
  foldl (λ '(col_solicitante_idx, col_area_idx) '(idx, header),
           (if contains "SOLICITANTE" header then Some idx else col_solicitante_idx,
            if contains "AREA" header then Some idx else col_area_idx))
        (None, None) (imap pair headers).

(** [str(x).strip() if x else ""] on a cell of the sheet. *)
Definition celda_limpia (x : string) : string :=
  if decide (x = "") then "" else strip x.

(** One turn of the loop over the rows of the sheet. *)
Definition agregar_area (col_solicitante_idx col_area_idx : nat)
    (areas_dict : gmap string string) (row : list string) : gmap string string :=
  if decide (col_solicitante_idx `max` col_area_idx < length row)%nat then
    let solicitante := celda_limpia (default "" (row !! col_solicitante_idx)) in
    let area := celda_limpia (default "" (row !! col_area_idx)) in
    if decide (solicitante ≠ "" ∧ area ≠ "")
    then <[upper solicitante := area]> areas_dict
    else areas_dict
  else areas_dict.

(** [leer_areas_desde_sheets] from the point where the sheet has been
    fetched: [datos] is [worksheet.get_all_values()].  Every failure before
    that point makes the function return the empty dictionary. *)
Definition leer_areas_desde_sheets (datos : list (list string)) : gmap string string :=
  if decide (length datos < 2)%nat then ∅
  else
    let headers := (λ h, strip (upper h)) <$> default [] (head datos) in
    match buscar_indices headers with
    | (Some col_solicitante_idx, Some col_area_idx) =>
        foldl (agregar_area col_solicitante_idx col_area_idx) ∅ (tail datos)
    | _ => ∅
    end.

(** ** Notions used in the statements *)

(** The rate as the conversion uses it: the number [pd.to_numeric] reads in
    the cell, when there is one and it is not zero. *)
Definition tasa_utilizable (tasa : cell) : option Qc :=
  match to_numeric tasa with
  | Num x => if decide (x = 0%Qc) then None else Some x
  | _ => None
  end.

(** A text made of ASCII white space only. *)
Fixpoint todo_espacios (s : string) : bool :=
  match s with
  | "" => true
  | String c s' => isspace c && todo_espacios s'
  end.

(** A message names a column when the column is in the names it renders or
    occurs in its text. *)
Definition nombra (m : message) (col : string) : Prop :=
  match m with
  | Text s => contains col s = true
  | TextList s names => contains col s = true ∨ col ∈ names
  | TextSet s names => contains col s = true ∨ col ∈ names
  end.

(** The report of a failed schema check on the columns [cols]: the missing
    columns when there are any, then the unexpected ones when there are
    any. *)
Definition reporte_columnas (cols : list string) : list message :=
  let faltantes := conjunto_normalizado COLUMNAS_ESPERADAS ∖ conjunto_normalizado cols in
  let extras := conjunto_normalizado cols ∖ conjunto_normalizado COLUMNAS_ESPERADAS in
  (if decide (faltantes = ∅) then []
   else [TextSet "✗ Columnas faltantes: " faltantes]) ++
  (if decide (extras = ∅) then []
   else [TextSet "⚠ Columnas extras encontradas: " extras]).

(** The timestamp in a cell of a parsed date column. *)
Definition fecha_de_celda (c : cell) : option Timestamp :=
  match c with
  | Date t => Some t
  | _ => None
  end.

(** A cell of a column of dates: a timestamp or [NaT]. *)
Definition es_fecha_o_NaT (c : cell) : Prop :=
  match c with
  | Date _ | Na NaT => True
  | _ => False
  end.

(** A date cell that [pd.to_datetime] reads the same way alone and in a
    column: a timestamp, or a cell in which it reads no date. *)
Definition celda_suelta (c : cell) : Prop :=
  (∃ t, c = Date t) ∨ to_datetime_coerce c = Na NaT.

(** The cells of a column. *)
Definition columna (col : string) (df : DataFrame) : list cell :=
  (λ r : Row, r col) <$> rows df.

(** A sheet whose headers are distinct names once normalized. *)
Definition nombres_distintos (df_leido : DataFrame) : Prop :=
  NoDup ((λ col, strip (upper col)) <$> columns df_leido).

(** A lookup frame in ascending order of its dates. *)
Definition ordenada_por_fecha (df_lookup : list TasaRow) : Prop :=
  StronglySorted (λ a b, Timestamp_le (fecha a) (fecha b)) df_lookup.

(** Two timestamps of the same calendar day. *)
Definition mismo_dia (t u : Timestamp) : Prop :=
  year t = year u ∧ month t = month u ∧ day t = day u.

(** The dates a [pd.Timestamp] can hold, by their fields: its years run
    from 1677 to 2262. *)
Definition fecha_valida (t : Timestamp) : Prop :=
  1677 ≤ year t ≤ 2262 ∧ 1 ≤ month t ≤ 12 ∧ 1 ≤ day t ≤ 31.

(** The eight columns the enrichment adds, in the order it adds them. *)
Definition columnas_derivadas : list string :=
  [ "AÑO FISCAL"; "TASA"; "AREA"; "MONTO OC"; "MONTO OC USD";
    "MONTO OC ASOCIADO"; "MONTO OC ASOCIADO USD"; "MONTO REAL DEUDA" ].

(** A row whose derived cells are what the row functions of the stages give
    on it. *)
Definition derivados (df_lookup : list TasaRow) (areas_dict : gmap string string)
    (r : Row) : Prop :=
  r "AÑO FISCAL" = calcular_ano_fiscal (r "FECHA_ORDEN") ∧
  r "TASA" = buscar_tasa_con_fallback df_lookup (r "FECHA_ORDEN") (r "DIVISA") ∧
  r "AREA" = (if decide (areas_dict = ∅) then None_
              else buscar_area areas_dict (r "SOLICITANTE")) ∧
  r "MONTO OC" = calcular_monto_oc r ∧
  r "MONTO OC USD" = calcular_monto_oc_usd r ∧
  r "MONTO OC ASOCIADO" = calcular_monto_oc_asociado r ∧
  r "MONTO OC ASOCIADO USD" = calcular_monto_oc_asociado_usd r ∧
  r "MONTO REAL DEUDA" = calcular_monto_real_deuda r.


(** The table stages 2 to 7 make of a table when none of them raises:
    the eight derived columns assigned one after the other. *)
Definition enriquecer (df_lookup : list TasaRow) (areas_dict : gmap string string)
    (df : DataFrame) : DataFrame :=
  let df := assign "AÑO FISCAL" (λ r, calcular_ano_fiscal (r "FECHA_ORDEN")) df in
  let df :=
    assign "TASA"
           (λ row, buscar_tasa_con_fallback df_lookup (row "FECHA_ORDEN") (row "DIVISA"))
           df in
  let df :=
    assign "AREA"
           (λ r, if decide (areas_dict = ∅) then None_
                 else buscar_area areas_dict (r "SOLICITANTE"))
           df in
  let df := assign "MONTO OC" calcular_monto_oc df in
  let df := assign "MONTO OC USD" calcular_monto_oc_usd df in
  let df := assign "MONTO OC ASOCIADO" calcular_monto_oc_asociado df in
  let df := assign "MONTO OC ASOCIADO USD" calcular_monto_oc_asociado_usd df in
  assign "MONTO REAL DEUDA" calcular_monto_real_deuda df.

End Pipeline.

(** ** The laws of the interface *)

(** What the theorems use of Python and pandas.  On ASCII text [str.upper]
    and [str.strip] are the functions above; on every text, upper case is
    left as it is by [str.upper], a stripped text by [str.strip], the two
    commute (a white space has no upper case and no upper case is a white
    space), only the empty text has an empty upper case, and white space
    around a text, which is a text that strips to nothing, is left in place
    by [str.upper] and taken away by [str.strip].  A column in
    which every cell is a timestamp or a cell that [pd.to_datetime] cannot
    read alone is read cell by cell; the cells read are timestamps or [NaT].
    [sort_values] on a column of timestamps and [NaT] keeps the columns,
    permutes the rows and leaves them in ascending order, [NaT] last. *)
Class PandasLaws `{Pandas} : Prop := {
  upper_ascii_ok : ∀ s, es_ascii s = true → upper s = upper_ascii s;
  strip_ascii_ok : ∀ s, es_ascii s = true → strip s = strip_ascii s;
  upper_idemp : ∀ s, upper (upper s) = upper s;
  strip_idemp : ∀ s, strip (strip s) = strip s;
  strip_upper : ∀ s, strip (upper s) = upper (strip s);
  upper_eq_nil : ∀ s, upper s = "" → s = "";
  upper_blancos : ∀ ws1 s ws2,
    strip ws1 = "" → strip ws2 = "" →
    upper (ws1 +:+ s +:+ ws2) = ws1 +:+ upper s +:+ ws2;
  strip_blancos : ∀ ws1 s ws2,
    strip ws1 = "" → strip ws2 = "" → strip (ws1 +:+ s +:+ ws2) = strip s;
  to_datetime_serie_length : ∀ cs, length (to_datetime_serie cs) = length cs;
  to_datetime_serie_fechas : ∀ cs, Forall es_fecha_o_NaT (to_datetime_serie cs);
  to_datetime_serie_coerce : ∀ cs,
    Forall celda_suelta cs →
    to_datetime_serie cs = to_datetime_coerce <$> cs;
  sort_values_columns : ∀ by_ df,
    Forall (λ r : Row, es_fecha_o_NaT (r by_)) (rows df) →
    columns (sort_values by_ df) = columns df;
  sort_values_perm : ∀ by_ df,
    Forall (λ r : Row, es_fecha_o_NaT (r by_)) (rows df) →
    rows (sort_values by_ df) ≡ₚ rows df;
  sort_values_sorted : ∀ by_ df,
    Forall (λ r : Row, es_fecha_o_NaT (r by_)) (rows df) →
    StronglySorted (λ a b : Row, fecha_le (a by_) (b by_)) (rows (sort_values by_ df))
}.

(** ** Data for the examples *)

(** The value of a text made of decimal digits. *)
Fixpoint leer_digitos (acc : Z) (s : string) : option Z :=
  match s with
  | "" => Some acc
  | String c s' =>
      match Ascii.is_nat c with
      | Some d => leer_digitos (10 * acc + Z.of_nat d) s'
      | None => None
      end
  end.

Fixpoint insertar_ordenado (by_ : string) (r : Row) (l : list Row) : list Row :=
  match l with
  | [] => [r]
  | r' :: l' =>
      if decide (fecha_le (r' by_) (r by_)) then r' :: insertar_ordenado by_ r l'
      else r :: l
  end.

(** A sort by insertion, in which rows of equal date keep the order they
    came in, as they do under [sort_values] on a table of few rows. *)
Definition sort_values_estable (by_ : string) (df : DataFrame) : DataFrame :=
  {| columns := columns df;
     rows := foldl (λ l r, insertar_ordenado by_ r l) [] (rows df) |}.

(** Python and pandas as far as the examples need them.  The texts of the
    examples are ASCII, on which [upper_ascii] and [strip_ascii] are
    [str.upper] and [str.strip]; a text is a number when it is a non-empty
    run of digits; the texts ["NaT"] and [""] are the missing date and every
    other text is refused as a date; no number is read as a date, so that a
    column is read as dates cell by cell; and the sort is the sort by
    insertion. *)
Definition pandas_ejemplo : Pandas :=
  {| upper := upper_ascii;
     strip := strip_ascii;
     to_datetime_serie := fmap (λ c, match c with Date t => Date t | _ => Na NaT end);
     sort_values := sort_values_estable;
     str_to_numeric := λ s,
       if decide (s = "") then None
       else (λ z, Q2Qc (inject_Z z)) <$> leer_digitos 0 s;
     str_to_datetime := λ s,
       if decide (s = "NaT" ∨ s = "") then eret None
       else eraise (ValueError (Text "Unknown datetime string format"));
     num_to_datetime := λ _, eraise (ValueError (Text "Out of bounds nanosecond timestamp"));
     str_of_num := λ x, pretty (Qnum x) +:+ "/" +:+ pretty (Zpos (Qden x));
     str_of_timestamp := strftime_Ymd |}.

(** A row given by its cells; a name without a cell reads [nan]. *)
Definition fila_de (celdas : list (string * cell)) : Row :=
  λ col, default (Na NaN) ((λ found, found.2.2) <$> list_find (λ kv, kv.1 = col) celdas).

Definition numero (z : Z) : cell := Num (Q2Qc (inject_Z z)).
Definition dia (y m d : Z) : cell := Date (mkTimestamp y m d 0).

(** An order of 10 units at price 3, in bolivars at 50 per dollar, of which
    20 are associated. *)
Definition fila_ves : Row :=
  fila_de [ ("PRICE_OVERRIDE", numero 3); ("IMPORTE", numero 10);
            ("IMPORTE_ASOCIADO", numero 20); ("DIVISA", Str " ves");
            ("TASA", numero 50); ("MONTO OC", numero 30);
            ("MONTO OC ASOCIADO", numero 60) ].

(** An order in dollars whose rate is zero. *)
Definition fila_usd : Row :=
  fila_de [ ("PRICE_OVERRIDE", numero 3); ("IMPORTE", numero 10);
            ("DIVISA", Str "usd "); ("TASA", numero 0); ("MONTO OC", numero 30) ].

(** A row with the order amount in dollars only. *)
Definition fila_solo_oc : Row := fila_de [ ("MONTO OC USD", numero 7) ].
(** A row with the associated amount in dollars only. *)
Definition fila_solo_asociado : Row := fila_de [ ("MONTO OC ASOCIADO USD", numero 7) ].
(** A row with both amounts. *)
Definition fila_ambos : Row :=
  fila_de [ ("MONTO OC USD", numero 7); ("MONTO OC ASOCIADO USD", numero 2) ].

(** The header of an orders sheet as a person types it: the sixteen names in
    mixed case, some with blanks around them. *)
Definition cabezales_ejemplo : list string :=
  [ "numero_oc"; "Proveedor"; "SUCURSAL "; " divisa"; "PRICE_OVERRIDE"; "IMPORTE";
    "IMPORTE_RECIBIDO"; "IMPORTE_ASOCIADO"; "Fecha_Orden"; "UNIDAD_MEDIDA";
    "DESCRIPCION"; "CUENTA_CARGO"; "Solicitante"; "estado_cierre"; "APROBADOR";
    "FECHA_CIERRE" ].

(** Three orders: one in bolivars, one closed, one in dollars whose closure
    state is missing. *)
Definition ordenes_ejemplo : DataFrame :=
  {| columns := cabezales_ejemplo;
     rows :=
       [ fila_de [ ("numero_oc", Str "OC-1"); (" divisa", Str "VES");
                   ("PRICE_OVERRIDE", numero 2); ("IMPORTE", numero 100);
                   ("IMPORTE_ASOCIADO", numero 50); ("Fecha_Orden", dia 2026 1 5);
                   ("Solicitante", Str "ana perez "); ("estado_cierre", Str "ABIERTO") ];
         fila_de [ ("numero_oc", Str "OC-2"); (" divisa", Str "VES");
                   ("PRICE_OVERRIDE", numero 1); ("IMPORTE", numero 10);
                   ("IMPORTE_ASOCIADO", numero 10); ("Fecha_Orden", dia 2026 1 10);
                   ("Solicitante", Str "ANA PEREZ"); ("estado_cierre", Str " Cerrado ") ];
         fila_de [ ("numero_oc", Str "OC-3"); (" divisa", Str "usd");
                   ("PRICE_OVERRIDE", numero 3); ("IMPORTE", numero 7);
                   ("Fecha_Orden", dia 2026 9 1);
                   ("Solicitante", Str "luis") ] ] |}.


(** A sheet that lacks FECHA_CIERRE and has a column NOTA nobody expects. *)
Definition ordenes_sin_fecha_cierre : DataFrame :=
  {| columns := filter (λ col, col ≠ "FECHA_CIERRE") cabezales_ejemplo ++ ["Nota"];
     rows := [] |}.


(** The rates of the bolivar on two days, the later one first. *)
Definition tasa_ejemplo : DataFrame :=
  {| columns := ["FECHA"; "VES/USD"];
     rows := [ fila_de [ ("FECHA", dia 2026 1 10); ("VES/USD", numero 55) ];
               fila_de [ ("FECHA", dia 2026 1 1); ("VES/USD", numero 50) ] ] |}.

(** A rate table without any column. *)
Definition tasa_vacia : DataFrame := {| columns := []; rows := [] |}.

Definition areas_ejemplo : gmap string string := {[ "ANA PEREZ" := "FINANZAS" ]}.

(** The 10th of January 2026 three times, with a rate on the second row
    only. *)
Definition tasa_repetida : DataFrame :=
  {| columns := ["FECHA"; "VES/USD"];
     rows := [ fila_de [ ("FECHA", dia 2026 1 10) ];
               fila_de [ ("FECHA", dia 2026 1 10); ("VES/USD", numero 55) ];
               fila_de [ ("FECHA", dia 2026 1 10) ] ] |}.

(** The 10th of January 2026 at midnight without a rate, and at eight in
    the morning with one. *)
Definition tasa_con_hora : DataFrame :=
  {| columns := ["FECHA"; "VES/USD"];
     rows := [ fila_de [ ("FECHA", dia 2026 1 10) ];
               fila_de [ ("FECHA", Date (mkTimestamp 2026 1 10 28800000000000));
                         ("VES/USD", numero 55) ] ] |}.

(** The number in a cell, as a fraction in lowest terms. *)
Definition valor (c : cell) : option Q :=
  match c with
  | Num x => Some (this x)
  | _ => None
  end.

(** An orders sheet as it is read without header: a title, then the
    header, then one order. *)
Definition hoja_ejemplo : list (list cell) :=
  [ [Str "Reporte de deuda"; Na NaN];
    Str <$> cabezales_ejemplo;
    [Str "OC-1"; Str "ACME"] ].

(** A rate sheet of two columns as it is read without header. *)
Definition hoja_tasa_ejemplo : list (list cell) :=
  [ [Str "Fecha"; Str "VES/USD"];
    [dia 2026 1 1; numero 50];
    [dia 2026 1 10; numero 55] ].

(** The sheet of the areas: the same requester twice, and a requester
    without area. *)
Definition datos_areas_ejemplo : list (list string) :=
  [ ["Solicitante"; "Area"];
    [" ana perez "; " Finanzas "];
    ["Ana Perez"; "Compras"];
    ["LUIS"; ""] ].

(** A sheet of areas whose header does not name the requester. *)
Definition datos_sin_solicitante : list (list string) :=
  [ ["Nombre"; "Area"]; ["ANA PEREZ"; "FINANZAS"] ].


(** The rows of [tasa_ejemplo] in ascending order of their dates. *)
Definition tasa_ejemplo_ascendente : DataFrame :=
  {| columns := ["FECHA"; "VES/USD"];
     rows := [ fila_de [ ("FECHA", dia 2026 1 1); ("VES/USD", numero 50) ];
               fila_de [ ("FECHA", dia 2026 1 10); ("VES/USD", numero 55) ] ] |}.

(** A table with the five columns the amounts are computed from, and the
    order [fila_ves] in it. *)
Definition montos_ejemplo : DataFrame :=
  {| columns := ["PRICE_OVERRIDE"; "IMPORTE"; "IMPORTE_ASOCIADO"; "DIVISA"; "TASA"];
     rows := [fila_ves] |}.

(** * Properties *)

Section Properties.

Context `{Pandas} `{!PandasLaws}.

(** ** The monad of stages *)

Lemma outcome_bind {A B} (c : M A) (k : A → M B) :
  outcome (c ≫= k) =
  match outcome c with
  | inl e => inl e
  | inr a => outcome (k a)
  end.
Proof.
  destruct c as [out [e|a]]; [done|].
  unfold outcome, mbind, M_bind; simpl. by destruct (k a).
Qed.

Lemma stdout_bind {A B} (c : M A) (k : A → M B) :
  stdout (c ≫= k) =
  stdout c ++ match outcome c with
              | inl _ => []
              | inr a => stdout (k a)
              end.
Proof.
  destruct c as [out [e|a]]; unfold stdout, outcome, mbind, M_bind; simpl.
  - by rewrite app_nil_r.
  - by destruct (k a).
Qed.

(** ** Tables *)

Lemma rows_assign col f df :
  rows (assign col f df) = (λ r, <[col := f r]> r) <$> rows df.
Proof. done. Qed.

Lemma elem_of_columns_assign col f df c :
  c ∈ columns (assign col f df) ↔ c ∈ columns df ∨ c = col.
Proof.
  unfold assign, has_column; simpl. case_bool_decide.
  - split; [auto|]. by intros [?| ->].
  - rewrite elem_of_app, list_elem_of_singleton. done.
Qed.

Lemma has_column_true col df : col ∈ columns df → has_column col df = true.
Proof. intros. unfold has_column. by apply bool_decide_eq_true. Qed.


Lemma columnas_faltantes_nil req df :
  Forall (λ col, col ∈ columns df) req → columnas_faltantes req df = [].
Proof.
  unfold columnas_faltantes. induction 1 as [|col req Hcol _ IH]; [done|].
  rewrite filter_cons. by case_decide.
Qed.


(** ** Stage 7: the net debt *)

Lemma Qc_minus_0_r (x : Qc) : (x - 0 = x)%Qc.
Proof. ring. Qed.

Lemma Qc_minus_0_l (y : Qc) : (0 - y = - y)%Qc.
Proof. ring. Qed.

(** C1.  The net debt of a row: null when both USD amounts are null; the
    order amount when only the associated amount is null and the negated
    associated amount when only the order amount is null (the null operand
    counts as zero); the difference order minus associated when both are
    present. *)
Theorem calcular_monto_real_deuda_null_rule (row : Row) :
  (isna (row "MONTO OC USD") = true →
   isna (row "MONTO OC ASOCIADO USD") = true →
   calcular_monto_real_deuda row = None_) ∧
  (∀ x, row "MONTO OC USD" = Num x →
        isna (row "MONTO OC ASOCIADO USD") = true →
        calcular_monto_real_deuda row = Num (x - 0) ∧
        calcular_monto_real_deuda row = Num x) ∧
  (∀ y, isna (row "MONTO OC USD") = true →
        row "MONTO OC ASOCIADO USD" = Num y →
        calcular_monto_real_deuda row = Num (0 - y) ∧
        calcular_monto_real_deuda row = Num (- y)) ∧
  (∀ x y, row "MONTO OC USD" = Num x →
          row "MONTO OC ASOCIADO USD" = Num y →
          calcular_monto_real_deuda row = Num (x - y)).
Proof.
  unfold calcular_monto_real_deuda, calcular_monto_real_deuda_body.
  split; [|split; [|split]].
  - intros Hoc Hasoc. by rewrite Hoc, Hasoc.
  - intros x -> Hasoc. rewrite Hasoc; simpl.
    split; [done|]. by rewrite Qc_minus_0_r.
  - intros y Hoc ->. rewrite Hoc; simpl.
    split; [done|]. by rewrite Qc_minus_0_l.
  - by intros x y -> ->.
Qed.

(** ** Stages 5 and 6: the amounts and their conversion *)

Lemma agregar_montos_oc_ok df :
  Forall (λ col, col ∈ columns df) ["PRICE_OVERRIDE"; "IMPORTE"; "DIVISA"; "TASA"] →
  outcome (agregar_montos_oc df) =
  inr (assign "MONTO OC USD" calcular_monto_oc_usd
         (assign "MONTO OC" calcular_monto_oc df)).
Proof.
  intros Hcols. unfold agregar_montos_oc.
  rewrite outcome_bind; simpl. by rewrite (columnas_faltantes_nil _ _ Hcols).
Qed.

Lemma agregar_montos_oc_asociado_ok df :
  Forall (λ col, col ∈ columns df)
         ["PRICE_OVERRIDE"; "IMPORTE_ASOCIADO"; "DIVISA"; "TASA"] →
  outcome (agregar_montos_oc_asociado df) =
  inr (assign "MONTO OC ASOCIADO USD" calcular_monto_oc_asociado_usd
         (assign "MONTO OC ASOCIADO" calcular_monto_oc_asociado df)).
Proof.
  intros Hcols. unfold agregar_montos_oc_asociado.
  rewrite outcome_bind; simpl. by rewrite (columnas_faltantes_nil _ _ Hcols).
Qed.

Lemma agregar_monto_real_deuda_ok df :
  Forall (λ col, col ∈ columns df) ["MONTO OC USD"; "MONTO OC ASOCIADO USD"] →
  outcome (agregar_monto_real_deuda df) =
  inr (assign "MONTO REAL DEUDA" calcular_monto_real_deuda df).
Proof.
  intros Hcols. unfold agregar_monto_real_deuda.
  rewrite outcome_bind; simpl. by rewrite (columnas_faltantes_nil _ _ Hcols).
Qed.

(** A row in dollars with an amount is its own conversion, whatever the
    column the amount is read from. *)
Lemma calcular_monto_usd_body_USD monto_col row :
  normalizar_divisa (row "DIVISA") = "USD" →
  isna (row monto_col) = false →
  calcular_monto_usd_body monto_col row = inr (row monto_col).
Proof.
  intros Hdivisa Hmonto. unfold calcular_monto_usd_body.
  rewrite Hmonto, Hdivisa. by rewrite decide_True.
Qed.

(** C3.  A row whose normalized currency is USD and whose order amount is
    not null has the order amount itself as its amount in USD, whatever its
    rate: on the row function, and on every row of the table the stage
    returns.  The normalized currency is USD for every text that is "USD" up
    to the case of its letters and to white space around it, the white space
    of Unicode included. *)
Theorem usd_never_divides :
  (∀ row : Row,
     normalizar_divisa (row "DIVISA") = "USD" →
     isna (row "MONTO OC") = false →
     calcular_monto_oc_usd row = row "MONTO OC") ∧
  (∀ df : DataFrame,
     Forall (λ col, col ∈ columns df) ["PRICE_OVERRIDE"; "IMPORTE"; "DIVISA"; "TASA"] →
     ∃ df' : DataFrame,
       outcome (agregar_montos_oc df) = inr df' ∧
       length (rows df') = length (rows df) ∧
       ∀ row' : Row, row' ∈ rows df' →
         normalizar_divisa (row' "DIVISA") = "USD" →
         isna (row' "MONTO OC") = false →
         row' "MONTO OC USD" = row' "MONTO OC") ∧
  (∀ ws1 s ws2 : string,
     strip ws1 = "" → strip ws2 = "" → upper s = "USD" →
     normalizar_divisa (Str (ws1 +:+ s +:+ ws2)) = "USD").
Proof.
  assert (∀ row : Row,
     normalizar_divisa (row "DIVISA") = "USD" →
     isna (row "MONTO OC") = false →
     calcular_monto_oc_usd row = row "MONTO OC") as Hrow.
  { intros row Hdivisa Hmonto.
    unfold calcular_monto_oc_usd, calcular_monto_oc_usd_body.
    by rewrite calcular_monto_usd_body_USD. }
  split; [done|]. split.
  - intros df Hcols. eexists. split; [by apply agregar_montos_oc_ok|].
    split; [by rewrite !rows_assign, !length_fmap|].
    intros row' Hin Hdivisa Hmonto.
    rewrite rows_assign in Hin. apply list_elem_of_fmap in Hin as (r1 & -> & _).
    simpl in *. rewrite fn_lookup_insert.
    rewrite !fn_lookup_insert_ne in Hdivisa, Hmonto |- * by done.
    by apply Hrow.
  - intros ws1 s ws2 Hws1 Hws2 Hs. unfold normalizar_divisa. simpl.
    rewrite upper_blancos, strip_blancos, Hs by done.
    by rewrite strip_ascii_ok.
Qed.

Lemma tasa_utilizable_None tasa :
  tasa_utilizable tasa = None ↔
  isna tasa = true ∨ to_numeric tasa = Num 0 ∨ isna (to_numeric tasa) = true.
Proof.
  unfold tasa_utilizable. split.
  - destruct tasa as [k|x|s|t]; simpl; auto.
    + case_decide; [subst; auto|done].
    + destruct (str_to_numeric s) as [x|]; simpl; [|by auto].
      case_decide; [subst; auto|done].
  - intros [Hna|[Hzero|Hna]].
    + by destruct tasa.
    + rewrite Hzero. by rewrite decide_True.
    + by destruct (to_numeric tasa).
Qed.

(** The conversion of a row in VES, COP or EUR. *)
Lemma calcular_monto_usd_body_local monto_col row :
  normalizar_divisa (row "DIVISA") ∈ ["VES"; "COP"; "EUR"] →
  calcular_monto_usd_body monto_col row =
  if isna (row monto_col) then inr None_
  else match tasa_utilizable (row "TASA") with
       | None => inr None_
       | Some x => py_truediv (row monto_col) (Num x)
       end.
Proof.
  intros Hdivisa. unfold calcular_monto_usd_body, tasa_utilizable.
  destruct (isna (row monto_col)); [done|].
  rewrite decide_False; last first.
  { intros Heq. rewrite Heq, !elem_of_cons, elem_of_nil in Hdivisa.
    by destruct Hdivisa as [?|[?|[?|[]]]]. }
  rewrite decide_True by done.
  destruct (row "TASA") as [k|x|s|t]; simpl; try done.
  - destruct (decide (x = 0%Qc)) as [->|Hx].
    + by rewrite bool_decide_eq_true_2.
    + by rewrite bool_decide_eq_false_2; simpl.
  - destruct (str_to_numeric s) as [x|]; simpl; [|done].
    destruct (decide (x = 0%Qc)) as [->|Hx].
    + by rewrite bool_decide_eq_true_2.
    + by rewrite bool_decide_eq_false_2.
Qed.

(** No row, of any currency, reaches the division with a zero divisor. *)
Lemma calcular_monto_usd_body_no_zero_division monto_col row :
  calcular_monto_usd_body monto_col row ≠ inl ZeroDivisionError.
Proof.
  unfold calcular_monto_usd_body.
  destruct (isna (row monto_col)); [done|].
  case_decide; [done|].
  assert (∀ tasa_num, isna tasa_num = false → eq_zero tasa_num = false →
            py_truediv (row monto_col) tasa_num ≠ inl ZeroDivisionError) as Hdiv.
  { intros [k|x|s|t] Hna Hzero; destruct (row monto_col); simpl in *; try done.
    by rewrite Hzero. }
  case_decide.
  - destruct (isna (row "TASA") || eq_zero (row "TASA")); [done|].
    destruct (isna (to_numeric (row "TASA"))) eqn:Hna; [done|].
    destruct (eq_zero (to_numeric (row "TASA"))) eqn:Hzero; [done|]. simpl.
    by apply Hdiv.
  - destruct (negb (isna (row "TASA")) && negb (eq_zero (row "TASA"))); [|done].
    destruct (isna (to_numeric (row "TASA"))) eqn:Hna; [done|].
    destruct (eq_zero (to_numeric (row "TASA"))) eqn:Hzero; [done|]. simpl.
    by apply Hdiv.
Qed.

(** C4.  In the order-amount and in the associated-amount stage alike, a row
    whose normalized currency is VES, COP or EUR has a null amount in USD
    when its rate is null, zero or not a number, and no exception is raised
    on the way; with any other rate the amount in USD is the local amount
    divided by the rate (and null when the local amount is null).  No row
    reaches the division with a zero divisor. *)
Theorem guarded_usd_conversion
    (monto_col : string) (body : Row → Exc cell) (calcular : Row → cell) (row : Row) :
  (monto_col, body, calcular) ∈
    [ ("MONTO OC", calcular_monto_oc_usd_body, calcular_monto_oc_usd);
      ("MONTO OC ASOCIADO", calcular_monto_oc_asociado_usd_body,
       calcular_monto_oc_asociado_usd) ] →
  normalizar_divisa (row "DIVISA") ∈ ["VES"; "COP"; "EUR"] →
  (isna (row "TASA") = true ∨ to_numeric (row "TASA") = Num 0 ∨
   isna (to_numeric (row "TASA")) = true →
   body row = inr None_ ∧ calcular row = None_) ∧
  (∀ x, to_numeric (row "TASA") = Num x → x ≠ 0%Qc →
     (∀ m, row monto_col = Num m →
           body row = inr (Num (m / x)) ∧ calcular row = Num (m / x)) ∧
     (isna (row monto_col) = true →
      body row = inr None_ ∧ calcular row = None_)) ∧
  body row ≠ inl ZeroDivisionError.
Proof.
  intros Hstage Hdivisa.
  assert (body = calcular_monto_usd_body monto_col ∧
          calcular = λ row, try_except (body row)) as [-> ->].
  { rewrite !elem_of_cons, elem_of_nil in Hstage.
    destruct Hstage as [[= -> -> ->]|[[= -> -> ->]|[]]]; done. }
  rewrite (calcular_monto_usd_body_local _ _ Hdivisa).
  split; [|split].
  - intros Hunusable. apply tasa_utilizable_None in Hunusable as ->.
    by destruct (isna (row monto_col)).
  - intros x Hnum Hx. unfold tasa_utilizable. rewrite Hnum, decide_False by done.
    split.
    + intros m ->; simpl. by rewrite bool_decide_eq_false_2.
    + by intros ->.
  - rewrite <-(calcular_monto_usd_body_local _ _ Hdivisa).
    apply calcular_monto_usd_body_no_zero_division.
Qed.

(** ** Stage 2: the fiscal year *)

Lemma agregar_ano_fiscal_ok df :
  "FECHA_ORDEN" ∈ columns df →
  outcome (agregar_ano_fiscal df) =
  inr (assign "AÑO FISCAL" (λ r, calcular_ano_fiscal (r "FECHA_ORDEN")) df).
Proof.
  intros Hcol. unfold agregar_ano_fiscal.
  rewrite outcome_bind; simpl. by rewrite has_column_true.
Qed.

(** C5.  The fiscal year is a function of the order date alone: null for a
    null date and for a date [pd.to_datetime] refuses; the text "nan-nan",
    and not null, for a date that is not null and that [pd.to_datetime]
    reads as [NaT], as it does the texts "NaT" and ""; for a date of year Y
    and month M, "Y-(Y+1)" when M > 8 and "(Y-1)-Y" when M <= 8, so that
    month 8 gives "(Y-1)-Y" and month 9 gives "Y-(Y+1)".  The stage writes
    this value in every row. *)
Theorem calcular_ano_fiscal_spec :
  (∀ fecha_orden : cell,
     (isna fecha_orden = true → calcular_ano_fiscal fecha_orden = None_) ∧
     (∀ e, to_datetime fecha_orden = inl e →
           calcular_ano_fiscal fecha_orden = None_) ∧
     (isna fecha_orden = false → to_datetime fecha_orden = inr None →
      calcular_ano_fiscal fecha_orden = Str "nan-nan") ∧
     (∀ t, to_datetime fecha_orden = inr (Some t) →
        (month t > 8 →
         calcular_ano_fiscal fecha_orden =
         Str (pretty (year t) +:+ "-" +:+ pretty (year t + 1))) ∧
        (month t ≤ 8 →
         calcular_ano_fiscal fecha_orden =
         Str (pretty (year t - 1) +:+ "-" +:+ pretty (year t))) ∧
        (month t = 8 →
         calcular_ano_fiscal fecha_orden =
         Str (pretty (year t - 1) +:+ "-" +:+ pretty (year t))) ∧
        (month t = 9 →
         calcular_ano_fiscal fecha_orden =
         Str (pretty (year t) +:+ "-" +:+ pretty (year t + 1))))) ∧
  (∀ df : DataFrame,
     "FECHA_ORDEN" ∈ columns df →
     ∃ df' : DataFrame,
       outcome (agregar_ano_fiscal df) = inr df' ∧
       Forall2 (λ r r' : Row,
                  r' "AÑO FISCAL" = calcular_ano_fiscal (r "FECHA_ORDEN"))
               (rows df) (rows df')).
Proof.
  split.
  - intros fecha_orden. unfold calcular_ano_fiscal, calcular_ano_fiscal_body.
    split; [by intros ->|]. split; [|split].
    + intros e ->. simpl. by destruct (isna fecha_orden).
    + by intros -> ->.
    + intros t Ht.
      assert (isna fecha_orden = false) as -> by by destruct fecha_orden.
      rewrite Ht; simpl.
      assert (month t > 8 →
              try_except
                (if bool_decide (month t > 8)
                 then eret (Str (pretty (year t) +:+ "-" +:+ pretty (year t + 1)))
                 else eret (Str (pretty (year t - 1) +:+ "-" +:+ pretty (year t))))
              = Str (pretty (year t) +:+ "-" +:+ pretty (year t + 1))) as Hgt
        by (intros; by rewrite bool_decide_eq_true_2).
      assert (month t ≤ 8 →
              try_except
                (if bool_decide (month t > 8)
                 then eret (Str (pretty (year t) +:+ "-" +:+ pretty (year t + 1)))
                 else eret (Str (pretty (year t - 1) +:+ "-" +:+ pretty (year t))))
              = Str (pretty (year t - 1) +:+ "-" +:+ pretty (year t))) as Hle
        by (intros; rewrite bool_decide_eq_false_2; [done|lia]).
      split; [exact Hgt|]. split; [exact Hle|].
      split; intros Hmes; [apply Hle|apply Hgt]; lia.
  - intros df Hcol. eexists. split; [by apply agregar_ano_fiscal_ok|].
    rewrite rows_assign. apply Forall2_fmap_r, Forall_Forall2_diag, Forall_forall.
    intros r _. simpl. by rewrite fn_lookup_insert.
Qed.

(** ** Text *)

Lemma append_cons (x : ascii) (a b : string) :
  String x a +:+ b = String x (a +:+ b).
Proof. done. Qed.

Lemma append_nil_l (b : string) : "" +:+ b = b.
Proof. done. Qed.

Lemma append_assoc (a b c : string) : (a +:+ b) +:+ c = a +:+ (b +:+ c).
Proof.
  induction a as [|x a IH]; [done|]. by rewrite !append_cons, IH.
Qed.

Lemma append_eq_nil (a b : string) : a +:+ b = "" → b = "".
Proof. by destruct a. Qed.

Lemma ascii_upper_isspace c : isspace c = true → ascii_upper c = c.
Proof. by destruct c as [[] [] [] [] [] [] [] []]. Qed.

Lemma isspace_ascii_upper c : isspace (ascii_upper c) = isspace c.
Proof. by destruct c as [[] [] [] [] [] [] [] []]. Qed.

Lemma ascii_upper_idemp c : ascii_upper (ascii_upper c) = ascii_upper c.
Proof. by destruct c as [[] [] [] [] [] [] [] []]. Qed.

Lemma upper_ascii_app (a b : string) : upper_ascii (a +:+ b) = upper_ascii a +:+ upper_ascii b.
Proof.
  induction a as [|x a IH]; [done|].
  rewrite append_cons; simpl. by rewrite IH, append_cons.
Qed.

Lemma upper_ascii_idemp (s : string) : upper_ascii (upper_ascii s) = upper_ascii s.
Proof.
  induction s as [|c s IH]; simpl; [done|]. by rewrite ascii_upper_idemp, IH.
Qed.

Lemma upper_ascii_espacios (ws : string) : todo_espacios ws = true → upper_ascii ws = ws.
Proof.
  induction ws as [|c ws IH]; simpl; [done|].
  intros [Hc Hws]%andb_prop. by rewrite ascii_upper_isspace, IH.
Qed.

Lemma lstrip_espacios_app (ws s : string) :
  todo_espacios ws = true → lstrip (ws +:+ s) = lstrip s.
Proof.
  induction ws as [|c ws IH]; [done|].
  rewrite append_cons; simpl.
  intros [Hc Hws]%andb_prop. rewrite Hc. by apply IH.
Qed.

Lemma rstrip_espacios (ws : string) : todo_espacios ws = true → rstrip ws = "".
Proof.
  induction ws as [|c ws IH]; simpl; [done|].
  intros [-> Hws]%andb_prop. by rewrite IH.
Qed.

Lemma rstrip_app_espacios (s ws : string) :
  todo_espacios ws = true → rstrip (s +:+ ws) = rstrip s.
Proof.
  intros Hws. induction s as [|c s IH].
  - by apply rstrip_espacios.
  - rewrite append_cons; simpl. by rewrite IH.
Qed.

Lemma rstrip_app_fixed (ws t : string) :
  rstrip t = t → t ≠ "" → rstrip (ws +:+ t) = ws +:+ t.
Proof.
  intros Ht Hne. induction ws as [|c ws IH]; [done|].
  rewrite append_cons; simpl.
  rewrite IH. destruct (ws +:+ t) eqn:Heq; [|done].
  by apply append_eq_nil in Heq.
Qed.

(** A text between two runs of white space strips to itself, provided it
    neither starts nor ends with white space. *)
Lemma strip_ascii_entre_espacios (ws1 t ws2 : string) :
  todo_espacios ws1 = true → todo_espacios ws2 = true →
  lstrip t = t → rstrip t = t → t ≠ "" →
  strip_ascii (ws1 +:+ t +:+ ws2) = t.
Proof.
  intros Hws1 Hws2 Hl Hr Hne. unfold strip_ascii.
  rewrite <-append_assoc, rstrip_app_espacios by done.
  rewrite rstrip_app_fixed by done.
  by rewrite lstrip_espacios_app.
Qed.

Lemma es_ascii_upper_ascii (s : string) : es_ascii (upper_ascii s) = es_ascii s.
Proof.
  induction s as [|c s IH]; simpl; [done|]. rewrite IH. f_equal.
  by destruct c as [[] [] [] [] [] [] [] []].
Qed.

Lemma es_ascii_app (a b : string) : es_ascii (a +:+ b) = es_ascii a && es_ascii b.
Proof.
  induction a as [|c a IH]; [done|].
  rewrite append_cons; simpl. by rewrite IH, andb_assoc.
Qed.

Lemma es_ascii_espacios (ws : string) : todo_espacios ws = true → es_ascii ws = true.
Proof.
  induction ws as [|c ws IH]; simpl; [done|].
  intros [Hc Hws]%andb_prop. rewrite (IH Hws), andb_true_r.
  by destruct c as [[] [] [] [] [] [] [] []].
Qed.

(** The normalization of an ASCII name is its ASCII normalization. *)
Lemma normalizar_ascii (s : string) :
  es_ascii s = true → strip (upper s) = strip_ascii (upper_ascii s).
Proof.
  intros Hs. rewrite (upper_ascii_ok s Hs).
  apply strip_ascii_ok. by rewrite es_ascii_upper_ascii.
Qed.

(** ASCII white space strips to nothing. *)
Lemma strip_espacios (ws : string) : todo_espacios ws = true → strip ws = "".
Proof.
  intros Hws. rewrite strip_ascii_ok by by apply es_ascii_espacios.
  unfold strip_ascii. by rewrite rstrip_espacios.
Qed.

(** ** Stage 1: the filter of closed orders *)

Lemma filtrar_cerrados_ok df :
  "ESTADO_CIERRE" ∈ columns df →
  outcome (filtrar_cerrados df) =
  inr {| columns := columns df;
         rows := filter (λ r, estado_normalizado r ≠ "CERRADO") (rows df) |}.
Proof.
  intros Hcol. unfold filtrar_cerrados. rewrite has_column_true by done.
  by rewrite outcome_bind.
Qed.



(** ** Stage 3: the rate, on a table without currency *)

Lemma construir_lookup_ok df_tasa :
  columns df_tasa ≠ [] → ∃ df_lookup, construir_lookup df_tasa = inr df_lookup.
Proof.
  intros Hcols. unfold construir_lookup, elegir_columna_fecha.
  destruct (buscar_columna posibles_fechas (columns df_tasa)); simpl; [eauto|].
  destruct (columns df_tasa); [done|]. simpl. eauto.
Qed.

Lemma agregar_columna_tasa_ok df_ordenes df_tasa df_lookup :
  construir_lookup df_tasa = inr df_lookup →
  "DIVISA" ∈ columns df_ordenes → "FECHA_ORDEN" ∈ columns df_ordenes →
  outcome (agregar_columna_tasa df_ordenes df_tasa) =
  inr (assign "TASA"
         (λ row, buscar_tasa_con_fallback df_lookup (row "FECHA_ORDEN") (row "DIVISA"))
         df_ordenes).
Proof.
  intros Hlookup Hdivisa Hfecha. unfold agregar_columna_tasa.
  rewrite outcome_bind; simpl. rewrite Hlookup.
  by rewrite !has_column_true.
Qed.

Lemma agregar_columna_area_ok df areas_dict :
  "SOLICITANTE" ∈ columns df →
  outcome (agregar_columna_area df areas_dict) =
  inr (assign "AREA"
         (λ r, if decide (areas_dict = ∅) then None_
               else buscar_area areas_dict (r "SOLICITANTE"))
         df).
Proof.
  intros Hcol. unfold agregar_columna_area.
  rewrite outcome_bind; simpl. rewrite has_column_true by done.
  by case_decide.
Qed.


(** ** Schema validation *)

Lemma lstrip_idemp (s : string) : lstrip (lstrip s) = lstrip s.
Proof.
  induction s as [|c s IH]; simpl; [done|].
  destruct (isspace c) eqn:Hc; [done|]. simpl. by rewrite Hc.
Qed.

Lemma rstrip_idemp (s : string) : rstrip (rstrip s) = rstrip s.
Proof.
  induction s as [|c s IH]; simpl; [done|].
  destruct (rstrip s) as [|d r] eqn:Hr.
  - destruct (isspace c) eqn:Hc; simpl; [done|]. by rewrite Hc.
  - change (rstrip (String c (String d r))) with
      (match rstrip (String d r) with
       | "" => if isspace c then "" else String c ""
       | r' => String c r'
       end).
    by rewrite IH.
Qed.

Lemma rstrip_lstrip_fixed (t : string) : rstrip t = t → rstrip (lstrip t) = lstrip t.
Proof.
  induction t as [|c t IH]; [done|].
  intros Ht. simpl lstrip. destruct (isspace c) eqn:Hc; [|done].
  apply IH. simpl in Ht. rewrite Hc in Ht.
  destruct (rstrip t); [done|]. by injection Ht.
Qed.

Lemma strip_ascii_idemp (s : string) : strip_ascii (strip_ascii s) = strip_ascii s.
Proof.
  unfold strip_ascii.
  by rewrite (rstrip_lstrip_fixed (rstrip s)), lstrip_idemp by apply rstrip_idemp.
Qed.

Lemma upper_ascii_lstrip (s : string) : upper_ascii (lstrip s) = lstrip (upper_ascii s).
Proof.
  induction s as [|c s IH]; simpl; [done|].
  rewrite isspace_ascii_upper. by destruct (isspace c).
Qed.

Lemma upper_ascii_rstrip (s : string) : upper_ascii (rstrip s) = rstrip (upper_ascii s).
Proof.
  induction s as [|c s IH]; simpl; [done|].
  rewrite <-IH, isspace_ascii_upper.
  destruct (rstrip s); simpl; [|done]. by destruct (isspace c).
Qed.

(** A normalized name is its own normalization. *)
Lemma normalizar_idemp (s : string) :
  strip (upper (strip (upper s))) = strip (upper s).
Proof. by rewrite (strip_upper (strip (upper s))), strip_idemp, strip_upper, upper_idemp. Qed.

Lemma conjunto_normalizado_normalizar df :
  conjunto_normalizado (columns (normalizar_columnas df))
  = conjunto_normalizado (columns df).
Proof.
  unfold conjunto_normalizado; simpl. rewrite <-list_fmap_compose. f_equal.
  apply list_fmap_ext. intros _ col _; simpl. apply normalizar_idemp.
Qed.

Lemma verificar_columnas_ok df :
  conjunto_normalizado (columns df) = conjunto_normalizado COLUMNAS_ESPERADAS →
  verificar_columnas df =
  ([Text "✓ Todas las columnas están presentes y correctas"], inr true).
Proof. intros Heq. unfold verificar_columnas. by rewrite decide_True. Qed.

Lemma verificar_columnas_mismatch df :
  conjunto_normalizado (columns df) ≠ conjunto_normalizado COLUMNAS_ESPERADAS →
  verificar_columnas df = (reporte_columnas (columns df), inr false).
Proof.
  intros Hne. unfold verificar_columnas, reporte_columnas.
  rewrite decide_False by done.
  by do 2 case_decide.
Qed.

(** C6, as the code has it.  When the normalized column names are the
    sixteen expected ones the check passes and the load returns a table,
    which is the table of the sheet under its normalized names when no two
    headers are the same name once normalized.  On any mismatch the check prints the missing
    and the unexpected columns, the load raises [ValueError] with the fixed
    text "El archivo no tiene las columnas esperadas", and the pipeline ends
    with that error having printed nothing but the report: no enrichment
    stage has started. *)
Theorem schema_validation (df_leido df_tasa : DataFrame) (areas_dict : gmap string string) :
  (conjunto_normalizado (columns df_leido) = conjunto_normalizado COLUMNAS_ESPERADAS →
   outcome (verificar_columnas df_leido) = inr true ∧
   (∃ df, outcome (leer_ordenes_compra df_leido) = inr df) ∧
   (nombres_distintos df_leido →
    outcome (leer_ordenes_compra df_leido) = inr (normalizar_columnas df_leido))) ∧
  (conjunto_normalizado (columns df_leido) ≠ conjunto_normalizado COLUMNAS_ESPERADAS →
   outcome (verificar_columnas df_leido) = inr false ∧
   stdout (verificar_columnas df_leido) = reporte_columnas (columns df_leido) ∧
   reporte_columnas (columns df_leido) ≠ [] ∧
   (∀ col, col ∈ conjunto_normalizado COLUMNAS_ESPERADAS →
           col ∉ conjunto_normalizado (columns df_leido) →
           ∃ m, m ∈ reporte_columnas (columns df_leido) ∧ nombra m col) ∧
   (∀ col, col ∈ conjunto_normalizado (columns df_leido) →
           col ∉ conjunto_normalizado COLUMNAS_ESPERADAS →
           ∃ m, m ∈ reporte_columnas (columns df_leido) ∧ nombra m col) ∧
   leer_ordenes_compra df_leido =
   (reporte_columnas (columns df_leido),
    inl (ValueError (Text "El archivo no tiene las columnas esperadas"))) ∧
   procesar_archivos df_leido df_tasa areas_dict =
   (reporte_columnas (columns df_leido),
    inl (ValueError (Text "El archivo no tiene las columnas esperadas")))).
Proof.
  split.
  - intros Heq. split; [by rewrite verificar_columnas_ok|].
    assert (outcome (leer_ordenes_compra df_leido) = inr (normalizar_columnas df_leido))
      as Hleer.
    { unfold leer_ordenes_compra.
      by rewrite verificar_columnas_ok by by rewrite conjunto_normalizado_normalizar. }
    split; [by eexists|done].
  - intros Hne.
    assert (leer_ordenes_compra df_leido =
            (reporte_columnas (columns df_leido),
             inl (ValueError (Text "El archivo no tiene las columnas esperadas"))))
      as Hleer.
    { unfold leer_ordenes_compra.
      rewrite verificar_columnas_mismatch by by rewrite conjunto_normalizado_normalizar.
      unfold reporte_columnas. rewrite conjunto_normalizado_normalizar.
      unfold mbind, M_bind, raise. simpl. by rewrite app_nil_r. }
    rewrite verificar_columnas_mismatch by done.
    split; [done|]. split; [done|].
    split; [|split; [|split; [|split; [done|]]]].
    + unfold reporte_columnas.
      destruct (decide (conjunto_normalizado COLUMNAS_ESPERADAS
                          ∖ conjunto_normalizado (columns df_leido) = ∅))
        as [Hfaltantes|]; [|done].
      destruct (decide (conjunto_normalizado (columns df_leido)
                          ∖ conjunto_normalizado COLUMNAS_ESPERADAS = ∅))
        as [Hextras|]; [|done].
      intros _. apply Hne. apply set_eq. intros col. split; intros Hin.
      * destruct (decide (col ∈ conjunto_normalizado COLUMNAS_ESPERADAS)); [done|].
        assert (col ∈ conjunto_normalizado (columns df_leido)
                      ∖ conjunto_normalizado COLUMNAS_ESPERADAS) as Hex
          by (apply elem_of_difference; split; assumption).
        rewrite Hextras in Hex. apply not_elem_of_empty in Hex. destruct Hex.
      * destruct (decide (col ∈ conjunto_normalizado (columns df_leido))); [done|].
        assert (col ∈ conjunto_normalizado COLUMNAS_ESPERADAS
                      ∖ conjunto_normalizado (columns df_leido)) as Hex
          by (apply elem_of_difference; split; assumption).
        rewrite Hfaltantes in Hex. apply not_elem_of_empty in Hex. destruct Hex.
    + intros col Hin Hnin. eexists (TextSet _ _). unfold reporte_columnas.
      split; [|right; apply elem_of_difference; split; eassumption].
      rewrite decide_False; [apply elem_of_app; left; apply list_elem_of_here|].
      intros Hempty.
      assert (col ∈ conjunto_normalizado COLUMNAS_ESPERADAS
                    ∖ conjunto_normalizado (columns df_leido)) as Hex
        by (apply elem_of_difference; split; assumption).
      rewrite Hempty in Hex. apply not_elem_of_empty in Hex. destruct Hex.
    + intros col Hin Hnin. eexists (TextSet _ _). unfold reporte_columnas.
      split; [|right; apply elem_of_difference; split; eassumption].
      rewrite (decide_False (P := _ ∖ conjunto_normalizado COLUMNAS_ESPERADAS = ∅));
        [apply elem_of_app; right; apply list_elem_of_here|].
      intros Hempty.
      assert (col ∈ conjunto_normalizado (columns df_leido)
                    ∖ conjunto_normalizado COLUMNAS_ESPERADAS) as Hex
        by (apply elem_of_difference; split; assumption).
      rewrite Hempty in Hex. apply not_elem_of_empty in Hex. destruct Hex.
    + unfold procesar_archivos. by rewrite Hleer.
Qed.

(** ** Stage 3: the lookup frame *)

Global Instance Timestamp_le_refl : Reflexive Timestamp_le.
Proof. intros []. unfold Timestamp_le; simpl. lia. Qed.

Global Instance Timestamp_le_trans : Transitive Timestamp_le.
Proof. intros [] [] []. unfold Timestamp_le; simpl. lia. Qed.

Global Instance Timestamp_le_total : Total Timestamp_le.
Proof. intros [] []. unfold Timestamp_le; simpl. lia. Qed.

Lemma fecha_le_trans a b c : fecha_le a b → fecha_le b c → fecha_le a c.
Proof.
  destruct a, b, c; simpl; try done. apply Timestamp_le_trans.
Qed.

Lemma fecha_le_total a b : fecha_le a b ∨ fecha_le b a.
Proof.
  destruct a, b; simpl; auto. apply Timestamp_le_total.
Qed.

Lemma elem_of_insertar_ordenado by_ (r x : Row) l :
  x ∈ insertar_ordenado by_ r l ↔ x = r ∨ x ∈ l.
Proof.
  induction l as [|r' l IH]; simpl.
  - rewrite list_elem_of_singleton, elem_of_nil. tauto.
  - case_decide; rewrite !elem_of_cons; [rewrite IH|]; tauto.
Qed.

Lemma insertar_ordenado_sorted by_ (r : Row) l :
  StronglySorted (λ a b : Row, fecha_le (a by_) (b by_)) l →
  StronglySorted (λ a b : Row, fecha_le (a by_) (b by_)) (insertar_ordenado by_ r l).
Proof.
  induction 1 as [|r' l Hsorted IH Hall]; simpl.
  - repeat constructor.
  - case_decide as Hle.
    + constructor; [done|]. apply Forall_forall. intros x Hx.
      apply elem_of_insertar_ordenado in Hx as [->|Hx]; [done|].
      by eapply Forall_forall in Hall.
    + assert (fecha_le (r by_) (r' by_)) as Hrr'
        by (destruct (fecha_le_total (r by_) (r' by_)); done).
      constructor; [by constructor|].
      constructor; [done|]. eapply Forall_impl; [exact Hall|].
      intros x Hx; simpl in *. by eapply fecha_le_trans.
Qed.

Lemma insertar_ordenado_perm by_ (r : Row) l : insertar_ordenado by_ r l ≡ₚ r :: l.
Proof.
  induction l as [|r' l IH]; simpl; [done|].
  case_decide; [|done]. rewrite IH. apply Permutation_swap.
Qed.

Lemma sort_values_estable_sorted by_ df :
  StronglySorted (λ a b : Row, fecha_le (a by_) (b by_))
                 (rows (sort_values_estable by_ df)).
Proof.
  unfold sort_values_estable; simpl.
  assert (∀ l acc,
            StronglySorted (λ a b : Row, fecha_le (a by_) (b by_)) acc →
            StronglySorted (λ a b : Row, fecha_le (a by_) (b by_))
              (foldl (λ l r, insertar_ordenado by_ r l) acc l)) as Hfold.
  { induction l as [|r l IH]; intros acc Hacc; simpl; [done|].
    by apply IH, insertar_ordenado_sorted. }
  apply Hfold. constructor.
Qed.

Lemma sort_values_estable_perm by_ df : rows (sort_values_estable by_ df) ≡ₚ rows df.
Proof.
  unfold sort_values_estable; simpl.
  assert (∀ l acc, foldl (λ l r, insertar_ordenado by_ r l) acc l ≡ₚ l ++ acc) as Hfold.
  { induction l as [|r l IH]; intros acc; simpl; [done|].
    rewrite IH, insertar_ordenado_perm. by rewrite Permutation_middle. }
  by rewrite Hfold, app_nil_r.
Qed.

Lemma StronglySorted_filter {A} (R : relation A) (P : A → Prop)
    `{∀ x, Decision (P x)} (l : list A) :
  StronglySorted R l → StronglySorted R (filter P l).
Proof.
  induction 1 as [|x l Hsorted IH Hall]; [constructor|].
  rewrite filter_cons. case_decide; [|done].
  constructor; [done|]. apply Forall_forall. intros y [_ Hy]%list_elem_of_filter.
  by eapply Forall_forall in Hall.
Qed.

Lemma elem_of_construir_tasas_lookup col columnas_tasa df (fila : TasaRow) :
  fila ∈ construir_tasas_lookup col columnas_tasa df →
  ∃ row : Row, row ∈ rows df ∧ row col = Date (fecha fila) ∧
               fecha_str fila = strftime_Ymd (fecha fila).
Proof.
  unfold construir_tasas_lookup. intros (row & Hrow & Hfila)%list_elem_of_omap.
  exists row. split; [done|].
  destruct (row col); try done. by injection Hfila as <-.
Qed.

Lemma construir_tasas_lookup_sorted col columnas_tasa cols (l : list Row) :
  StronglySorted (λ a b : Row, fecha_le (a col) (b col)) l →
  ordenada_por_fecha
    (construir_tasas_lookup col columnas_tasa {| columns := cols; rows := l |}).
Proof.
  unfold ordenada_por_fecha.
  induction 1 as [|row l Hsorted IH Hall]; [constructor|].
  unfold construir_tasas_lookup in *; simpl in *.
  destruct (row col) as [| | |t] eqn:Hrow; simpl; try done.
  constructor; [done|]. apply Forall_forall.
  intros fila (row' & Hin & Hfila)%list_elem_of_omap. simpl.
  eapply Forall_forall in Hall; [|done]. simpl in Hall.
  destruct (row' col); try done. by injection Hfila as <-.
Qed.

(** The column of the dates once read: every row has a timestamp or [NaT]
    in it, the cell [to_datetime_serie] gives for the row. *)
Lemma columna_asignar col (valores : list cell) df :
  length valores = length (rows df) →
  columna col (asignar col valores df) = valores.
Proof.
  unfold columna, asignar; simpl. generalize (rows df). clear df.
  induction valores as [|v valores IH]; intros [|r l] Hlen; try done.
  simpl. rewrite fn_lookup_insert. f_equal. apply IH. by injection Hlen.
Qed.

Lemma fechas_leidas col df :
  Forall (λ r : Row, es_fecha_o_NaT (r col))
         (rows (asignar col (to_datetime_serie (columna col df)) df)).
Proof.
  pose proof (to_datetime_serie_fechas (columna col df)) as Hfechas.
  unfold asignar; simpl. revert Hfechas.
  generalize (to_datetime_serie (columna col df)) as valores. generalize (rows df) as l.
  induction l as [|r l IH]; intros [|v valores] Hfechas; simpl; try by constructor.
  apply Forall_cons in Hfechas as [Hv Hfechas].
  constructor; [by rewrite fn_lookup_insert|by apply IH].
Qed.

(** The lookup frame of a rate table is in ascending order of its dates,
    and the text of every date is the one [strftime] gives. *)
Lemma construir_lookup_sorted df_tasa df_lookup :
  construir_lookup df_tasa = inr df_lookup →
  ordenada_por_fecha df_lookup ∧
  Forall (λ fila, fecha_str fila = strftime_Ymd (fecha fila)) df_lookup.
Proof.
  unfold construir_lookup.
  destruct (elegir_columna_fecha df_tasa) as [e|col]; simpl; [done|].
  intros [= <-]. split.
  - unfold limpiar_tasa, dropna.
    apply construir_tasas_lookup_sorted, StronglySorted_filter, sort_values_sorted.
    apply fechas_leidas.
  - apply Forall_forall. intros fila Hin.
    by apply elem_of_construir_tasas_lookup in Hin as (_ & _ & _ & ?).
Qed.

Lemma fecha_construir_tasas_lookup col columnas_tasa df :
  fecha <$> construir_tasas_lookup col columnas_tasa df
  = omap (λ r : Row, fecha_de_celda (r col)) (rows df).
Proof.
  unfold construir_tasas_lookup.
  induction (rows df) as [|row l IH]; simpl; [done|].
  destruct (row col); simpl; try exact IH. f_equal. exact IH.
Qed.

Lemma omap_filter_None {A B} (h : A → option B) (P : A → Prop)
    `{∀ x, Decision (P x)} (l : list A) :
  (∀ x, ¬ P x → h x = None) → omap h (filter P l) = omap h l.
Proof.
  intros Hnone. induction l as [|x l IH]; [done|].
  rewrite filter_cons. case_decide as HP; simpl.
  - destruct (h x); [f_equal|]; exact IH.
  - rewrite (Hnone x HP). exact IH.
Qed.

Lemma omap_columna {B} (h : cell → option B) col df :
  omap (λ r : Row, h (r col)) (rows df) = omap h (columna col df).
Proof.
  unfold columna. induction (rows df) as [|r l IH]; [done|].
  rewrite fmap_cons. simpl. destruct (h (r col)); [f_equal|]; exact IH.
Qed.

(** The rows of the rate table in whose date cell [pd.to_datetime] has read
    no date are left out of the lookup frame, and every other row is in it
    once. *)
Lemma construir_lookup_fechas df_tasa col df_lookup :
  elegir_columna_fecha df_tasa = inr col →
  construir_lookup df_tasa = inr df_lookup →
  fecha <$> df_lookup
  ≡ₚ omap fecha_de_celda (to_datetime_serie (columna col df_tasa)).
Proof.
  unfold construir_lookup. intros ->; simpl. intros [= <-].
  rewrite fecha_construir_tasas_lookup. unfold limpiar_tasa.
  change (rows (dropna col ?df)) with (filter (λ r : Row, isna (r col) = false) (rows df)).
  rewrite omap_filter_None; last first.
  { intros r Hna. destruct (r col); try done. }
  rewrite sort_values_perm by apply fechas_leidas.
  rewrite omap_columna, columna_asignar; [done|].
  rewrite to_datetime_serie_length. unfold columna. by rewrite length_fmap.
Qed.

(** ** Stage 3: the search in the lookup frame *)

Lemma elem_of_lookup_columns_fecha_str df_lookup :
  "fecha_str" ∈ lookup_columns df_lookup ↔ df_lookup ≠ [].
Proof.
  unfold lookup_columns. rewrite elem_of_remove_dups, list_elem_of_bind. split.
  - intros (fila & _ & Hin) ->. by apply elem_of_nil in Hin.
  - destruct df_lookup as [|fila l]; [done|]. intros _.
    exists fila. split; [|apply list_elem_of_here].
    apply list_elem_of_further, list_elem_of_here.
Qed.

Lemma tasa_de_notna col_tasa_key fila df_lookup :
  fila ∈ df_lookup → isna (tasa_de col_tasa_key fila) = false →
  col_tasa_key ∈ lookup_columns df_lookup.
Proof.
  intros Hin Hna. unfold lookup_columns.
  rewrite elem_of_remove_dups, list_elem_of_bind. exists fila. split; [|done].
  do 2 apply list_elem_of_further. unfold tasa_de in Hna.
  destruct (list_find _ (tasas fila)) as [[i [k v]]|] eqn:Hfind; [|done].
  apply list_find_Some in Hfind as (Hlookup & Hk & _); simpl in *. subst k.
  apply list_elem_of_fmap. exists (col_tasa_key, v). split; [done|].
  by eapply list_elem_of_lookup_2.
Qed.

(** The search, by its cases: the first row of the day of the order when
    its rate is not null; else the last row not later than the order when
    its rate is not null; else nothing. *)
Lemma buscar_en_lookup_cases df_lookup col_tasa_key fecha_dt :
  let exactas := filter (λ r, fecha_str r = strftime_Ymd fecha_dt) df_lookup in
  let anteriores := filter (λ r, Timestamp_le (fecha r) fecha_dt) df_lookup in
  try_except (buscar_en_lookup df_lookup col_tasa_key fecha_dt) =
  match head exactas with
  | Some fila =>
      if isna (tasa_de col_tasa_key fila) then
        match last anteriores with
        | Some fila' => if isna (tasa_de col_tasa_key fila') then None_
                        else tasa_de col_tasa_key fila'
        | None => None_
        end
      else tasa_de col_tasa_key fila
  | None =>
      match last anteriores with
      | Some fila' => if isna (tasa_de col_tasa_key fila') then None_
                      else tasa_de col_tasa_key fila'
      | None => None_
      end
  end.
Proof.
  intros exactas anteriores. unfold buscar_en_lookup.
  fold exactas. fold anteriores.
  destruct (decide ("fecha_str" ∈ lookup_columns df_lookup)) as [Hcol|Hcol].
  - assert (∀ fila, fila ∈ df_lookup →
              (if decide (col_tasa_key ∈ lookup_columns df_lookup)
               then (if negb (isna (tasa_de col_tasa_key fila))
                     then Some (tasa_de col_tasa_key fila) else None)
               else None)
              = if isna (tasa_de col_tasa_key fila) then None
                else Some (tasa_de col_tasa_key fila)) as Hexacta.
    { intros fila Hin. destruct (isna (tasa_de col_tasa_key fila)) eqn:Hna; simpl.
      - by case_decide.
      - rewrite decide_True; [done|]. by eapply tasa_de_notna. }
    assert (∀ fila, fila ∈ df_lookup →
              try_except
                (if decide (col_tasa_key ∈ lookup_columns df_lookup)
                 then (if negb (isna (tasa_de col_tasa_key fila))
                       then eret (tasa_de col_tasa_key fila) else eret None_)
                 else eret None_)
              = if isna (tasa_de col_tasa_key fila) then None_
                else tasa_de col_tasa_key fila) as Hanterior.
    { intros fila Hin. destruct (isna (tasa_de col_tasa_key fila)) eqn:Hna; simpl.
      - by case_decide.
      - rewrite decide_True; [done|]. by eapply tasa_de_notna. }
    assert (try_except
              match last anteriores with
              | Some fila_anterior =>
                  if decide (col_tasa_key ∈ lookup_columns df_lookup)
                  then (if negb (isna (tasa_de col_tasa_key fila_anterior))
                        then eret (tasa_de col_tasa_key fila_anterior) else eret None_)
                  else eret None_
              | None => eret None_
              end
            = match last anteriores with
              | Some fila' => if isna (tasa_de col_tasa_key fila') then None_
                              else tasa_de col_tasa_key fila'
              | None => None_
              end) as Hfallback.
    { destruct (last anteriores) as [fila'|] eqn:Hlast; [|done].
      apply Hanterior.
      apply last_Some in Hlast as [l' Hl'].
      assert (fila' ∈ anteriores) as Hin
        by (rewrite Hl'; apply elem_of_app; right; apply list_elem_of_here).
      by apply list_elem_of_filter in Hin as [_ ?]. }
    destruct exactas as [|fila rest] eqn:Hexactas; simpl; [exact Hfallback|].
    assert (fila ∈ df_lookup) as Hin.
    { assert (fila ∈ exactas) as Hin by (rewrite Hexactas; apply list_elem_of_here).
      by apply list_elem_of_filter in Hin as [_ ?]. }
    rewrite (Hexacta fila Hin).
    destruct (isna (tasa_de col_tasa_key fila)); [exact Hfallback|done].
  - assert (df_lookup = []) as ->.
    { destruct df_lookup; [done|]. exfalso. apply Hcol.
      by apply elem_of_lookup_columns_fecha_str. }
    done.
Qed.

Lemma to_datetime_Some_notna fecha_orden t :
  to_datetime fecha_orden = inr (Some t) → isna fecha_orden = false.
Proof. by destruct fecha_orden. Qed.

Lemma buscar_tasa_con_fallback_Some df_lookup fecha_orden divisa t col_tasa_key :
  to_datetime fecha_orden = inr (Some t) →
  elegir_col_tasa_key df_lookup (normalizar_divisa divisa) = Some col_tasa_key →
  buscar_tasa_con_fallback df_lookup fecha_orden divisa
  = try_except (buscar_en_lookup df_lookup col_tasa_key t).
Proof.
  intros Ht Hkey. unfold buscar_tasa_con_fallback, buscar_tasa_con_fallback_body.
  rewrite (to_datetime_Some_notna _ _ Ht), Ht; simpl. by rewrite Hkey.
Qed.

Lemma elem_of_head {A} (l : list A) x : head l = Some x → x ∈ l.
Proof. destruct l; [done|]. intros [= ->]. apply list_elem_of_here. Qed.

Lemma elem_of_last {A} (l : list A) x : last l = Some x → x ∈ l.
Proof.
  intros [l' ->]%last_Some. apply elem_of_app. right. apply list_elem_of_here.
Qed.

(** In a frame in ascending order the last row not later than [t] is the
    latest of the rows not later than [t]. *)
Lemma last_anterior_max df_lookup t fila :
  ordenada_por_fecha df_lookup →
  last (filter (λ r, Timestamp_le (fecha r) t) df_lookup) = Some fila →
  ∀ fila', fila' ∈ df_lookup → Timestamp_le (fecha fila') t →
           Timestamp_le (fecha fila') (fecha fila).
Proof.
  intros Hsorted (l1 & l2 & -> & Hl2)%last_filter_Some fila' Hin Hle.
  apply elem_of_app in Hin as [Hin|Hin].
  - eapply (StronglySorted_app_1_elem_of _ _ _ fila' fila Hsorted); [done|].
    apply list_elem_of_here.
  - apply elem_of_cons in Hin as [->|Hin]; [done|].
    eapply Forall_forall in Hl2; [|done]. done.
Qed.

(** ** The rate table of the example

    On names in ASCII the search of the columns is the one of the example
    reading, whatever [upper] does elsewhere. *)

Lemma buscar_columna_ascii (patrones cols : list string) :
  forallb es_ascii patrones = true → forallb es_ascii cols = true →
  buscar_columna patrones cols = buscar_columna (H := pandas_ejemplo) patrones cols.
Proof.
  intros Hp Hc. unfold buscar_columna. f_equal.
  induction cols as [|col cols IH]; [done|].
  cbn [forallb] in Hc. apply andb_true_iff in Hc as [Hcol Hc].
  assert (existsb (λ patron, contains (upper patron) (upper col)) patrones
          = existsb (λ patron, contains (upper (Pandas := pandas_ejemplo) patron)
                                        (upper (Pandas := pandas_ejemplo) col)) patrones)
    as Heq.
  { clear IH. induction patrones as [|p ps IHp]; [done|].
    cbn [forallb] in Hp. apply andb_true_iff in Hp as [Hp1 Hp].
    cbn [existsb]. rewrite IHp by done.
    by rewrite !upper_ascii_ok. }
  cbn [list_find]. rewrite Heq, (IH Hc). done.
Qed.

Lemma elegir_columna_fecha_tasa_ejemplo :
  elegir_columna_fecha tasa_ejemplo = inr "FECHA".
Proof.
  unfold elegir_columna_fecha, posibles_fechas.
  by rewrite buscar_columna_ascii.
Qed.

Lemma buscar_columnas_tasa_ascii (cols : list string) :
  forallb es_ascii cols = true →
  buscar_columnas_tasa cols = buscar_columnas_tasa (H := pandas_ejemplo) cols.
Proof.
  intros Hc. unfold buscar_columnas_tasa, tasas_buscadas.
  cbn [omap list_omap].
  by rewrite !buscar_columna_ascii.
Qed.

Lemma normalizar_divisa_ascii (s : string) :
  es_ascii s = true → normalizar_divisa (Str s) = strip_ascii (upper_ascii s).
Proof. intros Hs. unfold normalizar_divisa. simpl. by apply normalizar_ascii. Qed.

Lemma construir_lookup_tasa_ejemplo :
  construir_lookup tasa_ejemplo
  = inr [ {| fecha := mkTimestamp 2026 1 1 0; fecha_str := "2026-01-01";
             tasas := [("tasa_VES", numero 50)] |};
          {| fecha := mkTimestamp 2026 1 10 0; fecha_str := "2026-01-10";
             tasas := [("tasa_VES", numero 55)] |} ].
Proof.
  unfold construir_lookup. rewrite elegir_columna_fecha_tasa_ejemplo.
  cbn [ebind]. 
  rewrite buscar_columnas_tasa_ascii by done.
  change (buscar_columnas_tasa (H := pandas_ejemplo) (columns tasa_ejemplo))
    with [("VES", "VES/USD")].
  unfold limpiar_tasa.
  assert (to_datetime_serie ((λ r : Row, r "FECHA") <$> rows tasa_ejemplo)
          = [dia 2026 1 10; dia 2026 1 1]) as ->.
  { rewrite to_datetime_serie_coerce.
    - reflexivity.
    - cbn [rows tasa_ejemplo fmap list_fmap]. repeat (apply Forall_cons_2; [left; by eexists|]). apply Forall_nil_2. }
  set (df := asignar _ _ _).
  assert (Forall (λ r : Row, es_fecha_o_NaT (r "FECHA")) (rows df)) as Hfechas.
  { by repeat constructor. }
  pose proof (sort_values_columns "FECHA" df Hfechas) as Hcolumns.
  pose proof (sort_values_perm "FECHA" df Hfechas) as Hperm.
  pose proof (sort_values_sorted "FECHA" df Hfechas) as Hsorted.
  destruct (sort_values "FECHA" df) as [cols filas]. simpl in Hcolumns, Hperm, Hsorted.
  subst cols. symmetry in Hperm.
  apply Permutation_length_2_inv in Hperm as [->| ->].
  - exfalso. apply StronglySorted_inv in Hsorted as [_ Hle].
    apply Forall_inv in Hle. vm_compute in Hle. intuition discriminate.
  - reflexivity.
Qed.

Lemma buscar_tasa_con_fallback_tasa_ejemplo df_lookup :
  construir_lookup tasa_ejemplo = inr df_lookup →
  buscar_tasa_con_fallback df_lookup (dia 2026 1 5) (Str "VES") = numero 50 ∧
  buscar_tasa_con_fallback df_lookup (dia 2026 1 10) (Str "VES") = numero 55 ∧
  buscar_tasa_con_fallback df_lookup (dia 2025 12 1) (Str "VES") = None_.
Proof.
  rewrite construir_lookup_tasa_ejemplo. intros [= <-].
  assert (normalizar_divisa (Str "VES") = "VES") as Hdivisa
    by by rewrite normalizar_divisa_ascii.
  split; [|split].
  - rewrite (buscar_tasa_con_fallback_Some _ _ _ (mkTimestamp 2026 1 5 0) "tasa_VES");
      [done|done|by rewrite Hdivisa].
  - rewrite (buscar_tasa_con_fallback_Some _ _ _ (mkTimestamp 2026 1 10 0) "tasa_VES");
      [done|done|by rewrite Hdivisa].
  - rewrite (buscar_tasa_con_fallback_Some _ _ _ (mkTimestamp 2025 12 1 0) "tasa_VES");
      [done|done|by rewrite Hdivisa].
Qed.

(** C2, as the code has it.  The lookup frame of a rate table is in
    ascending order of its dates and holds the rows in whose date cell
    [pd.to_datetime], reading the column as a whole, has found a date, each
    once.  The rate of an order is null when its date is null,
    refused by [pd.to_datetime] or read as [NaT], or when no rate column
    answers for its currency.  Otherwise: when the first row of the frame of
    the same day as the order has a rate that is not null, that rate is the
    result (so in a frame with one row per day the row of the day of the
    order gives the rate); else the last row not later than the order, which
    is the latest of them, gives the rate when it is not null; else the
    result is null.  A rate that is returned is that of a row of the day of
    the order or of a row not later than the order.  With the rates 50 on
    2026-01-01 and 55 on 2026-01-10 of the bolivar, the rate is 50 on
    2026-01-05, 55 on 2026-01-10 and null on 2025-12-01. *)
Theorem rate_resolver :
  (∀ (df_tasa : DataFrame) (df_lookup : list TasaRow),
     construir_lookup df_tasa = inr df_lookup →
     (ordenada_por_fecha df_lookup ∧
      Forall (λ fila, fecha_str fila = strftime_Ymd (fecha fila)) df_lookup ∧
      ∀ col, elegir_columna_fecha df_tasa = inr col →
        fecha <$> df_lookup
        ≡ₚ omap fecha_de_celda (to_datetime_serie (columna col df_tasa))) ∧
     ∀ fecha_orden divisa : cell,
       let tasa := buscar_tasa_con_fallback df_lookup fecha_orden divisa in
       (isna fecha_orden = true → tasa = None_) ∧
       (∀ e, to_datetime fecha_orden = inl e → tasa = None_) ∧
       (to_datetime fecha_orden = inr None → tasa = None_) ∧
       (elegir_col_tasa_key df_lookup (normalizar_divisa divisa) = None →
        tasa = None_) ∧
       ∀ (t : Timestamp) (col_tasa_key : string),
         to_datetime fecha_orden = inr (Some t) →
         elegir_col_tasa_key df_lookup (normalizar_divisa divisa) = Some col_tasa_key →
         let exactas := filter (λ r, fecha_str r = strftime_Ymd t) df_lookup in
         let anteriores := filter (λ r, Timestamp_le (fecha r) t) df_lookup in
         (∀ fila, head exactas = Some fila →
                  isna (tasa_de col_tasa_key fila) = false →
                  tasa = tasa_de col_tasa_key fila) ∧
         (∀ fila, fila ∈ df_lookup → fecha_str fila = strftime_Ymd t →
                  (∀ fila', fila' ∈ df_lookup → fecha_str fila' = strftime_Ymd t →
                            fila' = fila) →
                  isna (tasa_de col_tasa_key fila) = false →
                  tasa = tasa_de col_tasa_key fila) ∧
         ((∀ fila, head exactas = Some fila →
                   isna (tasa_de col_tasa_key fila) = true) →
          (∀ fila, last anteriores = Some fila →
                   isna (tasa_de col_tasa_key fila) = false →
                   tasa = tasa_de col_tasa_key fila) ∧
          ((∀ fila, last anteriores = Some fila →
                    isna (tasa_de col_tasa_key fila) = true) →
           tasa = None_)) ∧
         (∀ fila, last anteriores = Some fila →
                  fila ∈ df_lookup ∧ Timestamp_le (fecha fila) t ∧
                  ∀ fila', fila' ∈ df_lookup → Timestamp_le (fecha fila') t →
                           Timestamp_le (fecha fila') (fecha fila)) ∧
         (isna tasa = false →
          ∃ fila, fila ∈ df_lookup ∧ tasa = tasa_de col_tasa_key fila ∧
                  (fecha_str fila = strftime_Ymd t ∨ Timestamp_le (fecha fila) t))) ∧
  (∃ df_lookup : list TasaRow,
     construir_lookup tasa_ejemplo = inr df_lookup ∧
     buscar_tasa_con_fallback df_lookup (dia 2026 1 5) (Str "VES") = numero 50 ∧
     buscar_tasa_con_fallback df_lookup (dia 2026 1 10) (Str "VES") = numero 55 ∧
     buscar_tasa_con_fallback df_lookup (dia 2025 12 1) (Str "VES") = None_).
Proof.
  split; [|eexists; split;
              [exact construir_lookup_tasa_ejemplo
              |exact (buscar_tasa_con_fallback_tasa_ejemplo _ construir_lookup_tasa_ejemplo)]].
  intros df_tasa df_lookup Hlookup.
  destruct (construir_lookup_sorted _ _ Hlookup) as [Hsorted Hstr].
  split.
  { split; [done|]. split; [done|]. intros col Hcol.
    by apply construir_lookup_fechas. }
  intros fecha_orden divisa tasa. subst tasa.
  split; [|split; [|split; [|split]]].
  - unfold buscar_tasa_con_fallback. by intros ->.
  - intros e He. unfold buscar_tasa_con_fallback, buscar_tasa_con_fallback_body.
    rewrite He. by destruct (isna fecha_orden).
  - intros Hnat. unfold buscar_tasa_con_fallback, buscar_tasa_con_fallback_body.
    rewrite Hnat. by destruct (isna fecha_orden).
  - intros Hkey. unfold buscar_tasa_con_fallback, buscar_tasa_con_fallback_body.
    destruct (isna fecha_orden); [done|].
    destruct (to_datetime fecha_orden) as [e|[t|]]; simpl; [done| |done].
    by rewrite Hkey.
  - intros t col_tasa_key Ht Hkey exactas anteriores.
    rewrite (buscar_tasa_con_fallback_Some _ _ _ _ _ Ht Hkey).
    rewrite buscar_en_lookup_cases. fold exactas. fold anteriores.
    assert (∀ fila, head exactas = Some fila →
                    isna (tasa_de col_tasa_key fila) = false →
                    match head exactas with
                    | Some fila =>
                        if isna (tasa_de col_tasa_key fila)
                        then match last anteriores with
                             | Some fila' =>
                                 if isna (tasa_de col_tasa_key fila') then None_
                                 else tasa_de col_tasa_key fila'
                             | None => None_
                             end
                        else tasa_de col_tasa_key fila
                    | None =>
                        match last anteriores with
                        | Some fila' =>
                            if isna (tasa_de col_tasa_key fila') then None_
                            else tasa_de col_tasa_key fila'
                        | None => None_
                        end
                    end = tasa_de col_tasa_key fila) as Hexacta.
    { intros fila -> Hna. by rewrite Hna. }
    split; [exact Hexacta|]. split; [|split; [|split]].
    + intros fila Hin Hdia Hunica Hna. apply Hexacta; [|done].
      assert (fila ∈ exactas) as Hex by by apply list_elem_of_filter.
      destruct exactas as [|fila0 rest] eqn:Hexactas; [by apply elem_of_nil in Hex|].
      simpl. f_equal. apply Hunica.
      * assert (fila0 ∈ exactas) as Hin0 by (rewrite Hexactas; apply list_elem_of_here).
        by apply list_elem_of_filter in Hin0 as [_ ?].
      * assert (fila0 ∈ exactas) as Hin0 by (rewrite Hexactas; apply list_elem_of_here).
        by apply list_elem_of_filter in Hin0 as [? _].
    + intros Hnull.
      assert (match head exactas with
              | Some fila =>
                  if isna (tasa_de col_tasa_key fila)
                  then match last anteriores with
                       | Some fila' =>
                           if isna (tasa_de col_tasa_key fila') then None_
                           else tasa_de col_tasa_key fila'
                       | None => None_
                       end
                  else tasa_de col_tasa_key fila
              | None =>
                  match last anteriores with
                  | Some fila' =>
                      if isna (tasa_de col_tasa_key fila') then None_
                      else tasa_de col_tasa_key fila'
                  | None => None_
                  end
              end
              = match last anteriores with
                | Some fila' =>
                    if isna (tasa_de col_tasa_key fila') then None_
                    else tasa_de col_tasa_key fila'
                | None => None_
                end) as ->.
      { destruct (head exactas) as [fila|]; [|done]. by rewrite (Hnull fila). }
      split.
      * intros fila -> Hna. by rewrite Hna.
      * intros Hnull'. destruct (last anteriores) as [fila|]; [|done].
        by rewrite (Hnull' fila).
    + intros fila Hlast. pose proof (elem_of_last _ _ Hlast) as Hin.
      apply list_elem_of_filter in Hin as [Hle Hin].
      split; [done|]. split; [done|]. by apply last_anterior_max.
    + intros Hna.
      destruct (head exactas) as [fila|] eqn:Hhead.
      * pose proof (elem_of_head _ _ Hhead) as [Hdia Hin]%list_elem_of_filter.
        destruct (isna (tasa_de col_tasa_key fila)) eqn:Hfila; [|by eauto 6].
        destruct (last anteriores) as [fila'|] eqn:Hlast; [|done].
        pose proof (elem_of_last _ _ Hlast) as [Hle Hin']%list_elem_of_filter.
        destruct (isna (tasa_de col_tasa_key fila')); [done|]. by eauto 6.
      * destruct (last anteriores) as [fila'|] eqn:Hlast; [|done].
        pose proof (elem_of_last _ _ Hlast) as [Hle Hin']%list_elem_of_filter.
        destruct (isna (tasa_de col_tasa_key fila')); [done|]. by eauto 6.
Qed.

(** ** The text of a date stands for its calendar day *)

Lemma append_inj_length (a1 a2 x y : string) :
  String.length a1 = String.length a2 → a1 +:+ x = a2 +:+ y → a1 = a2 ∧ x = y.
Proof.
  revert a2. induction a1 as [|c a1 IH]; intros [|d a2]; try done.
  rewrite !append_cons. intros [= Hlen] [= -> Happ].
  destruct (IH _ Hlen Happ) as [-> ->]. done.
Qed.

Lemma zfill_pretty_leer (width : nat) (first count : Z) :
  forallb (λ y, Nat.eqb (String.length (zfill width (pretty y))) width
                && bool_decide (leer_digitos 0 (zfill width (pretty y)) = Some y))
          (seqZ first count) = true →
  ∀ y, first ≤ y < first + count →
       String.length (zfill width (pretty y)) = width ∧
       leer_digitos 0 (zfill width (pretty y)) = Some y.
Proof.
  intros Hall y Hy. rewrite forallb_forall in Hall.
  specialize (Hall y). rewrite <-list_elem_of_In, elem_of_seqZ in Hall.
  apply andb_prop in Hall as [Hlen Hleer]; [|lia].
  split; [by apply Nat.eqb_eq|]. by apply bool_decide_eq_true in Hleer.
Qed.

Lemma zfill_4_leer y :
  1677 ≤ y < 1677 + 586 →
  String.length (zfill 4 (pretty y)) = 4%nat ∧
  leer_digitos 0 (zfill 4 (pretty y)) = Some y.
Proof. apply zfill_pretty_leer. by vm_compute. Qed.

Lemma zfill_2_leer y :
  0 ≤ y < 0 + 32 →
  String.length (zfill 2 (pretty y)) = 2%nat ∧
  leer_digitos 0 (zfill 2 (pretty y)) = Some y.
Proof. apply zfill_pretty_leer. by vm_compute. Qed.

(** Two dates have the same text exactly when they are the same day. *)
Lemma strftime_Ymd_mismo_dia (t u : Timestamp) :
  fecha_valida t → fecha_valida u →
  strftime_Ymd t = strftime_Ymd u ↔ mismo_dia t u.
Proof.
  intros (Hy & Hm & Hd) (Hy' & Hm' & Hd'). unfold strftime_Ymd, mismo_dia. split.
  - intros Heq.
    destruct (zfill_4_leer (year t)) as [Hlen1 Hleer1]; [lia|].
    destruct (zfill_4_leer (year u)) as [Hlen2 Hleer2]; [lia|].
    destruct (zfill_2_leer (month t)) as [Hlen3 Hleer3]; [lia|].
    destruct (zfill_2_leer (month u)) as [Hlen4 Hleer4]; [lia|].
    destruct (zfill_2_leer (day t)) as [_ Hleer5]; [lia|].
    destruct (zfill_2_leer (day u)) as [_ Hleer6]; [lia|].
    apply (append_inj_length (zfill 4 (pretty (year t))) (zfill 4 (pretty (year u))))
      in Heq as [Hyear [= Heq]]; [|congruence].
    apply (append_inj_length (zfill 2 (pretty (month t))) (zfill 2 (pretty (month u))))
      in Heq as [Hmonth [= Hday]]; [|congruence].
    rewrite !append_nil_l in Hday.
    rewrite Hyear in Hleer1. rewrite Hmonth in Hleer3. rewrite Hday in Hleer5.
    split; [congruence|]. split; congruence.
  - by intros (-> & -> & ->).
Qed.

(** ** The pipeline *)

Lemma outcome_bind_inr {A B} (c : M A) (k : A → M B) a :
  outcome c = inr a → outcome (c ≫= k) = outcome (k a).
Proof. intros Hc. by rewrite outcome_bind, Hc. Qed.

Lemma leer_ordenes_compra_ok df_leido :
  conjunto_normalizado (columns df_leido) = conjunto_normalizado COLUMNAS_ESPERADAS →
  outcome (leer_ordenes_compra df_leido) = inr (normalizar_columnas df_leido).
Proof.
  intros Heq. unfold leer_ordenes_compra.
  by rewrite verificar_columnas_ok by by rewrite conjunto_normalizado_normalizar.
Qed.

Lemma conjunto_normalizado_ascii (cols : list string) :
  forallb es_ascii cols = true →
  conjunto_normalizado cols = conjunto_normalizado (H := pandas_ejemplo) cols.
Proof.
  intros Hcols. unfold conjunto_normalizado. f_equal.
  induction cols as [|col cols IH]; [done|].
  cbn [forallb] in Hcols. apply andb_true_iff in Hcols as [Hcol Hcols].
  rewrite !fmap_cons, (IH Hcols). f_equal. by apply normalizar_ascii.
Qed.

Lemma conjunto_normalizado_esperadas :
  conjunto_normalizado COLUMNAS_ESPERADAS = list_to_set COLUMNAS_ESPERADAS.
Proof.
  rewrite conjunto_normalizado_ascii by done.
  apply (bool_decide_unpack _). vm_compute. exact I.
Qed.

(** After a load that passed the check the columns are the expected ones. *)
Lemma elem_of_columns_normalizar df_leido col :
  conjunto_normalizado (columns df_leido) = conjunto_normalizado COLUMNAS_ESPERADAS →
  col ∈ columns (normalizar_columnas df_leido) ↔ col ∈ COLUMNAS_ESPERADAS.
Proof.
  intros Heq.
  rewrite <-(elem_of_list_to_set (C := gset string) col COLUMNAS_ESPERADAS).
  rewrite <-conjunto_normalizado_esperadas, <-Heq.
  unfold conjunto_normalizado. by rewrite elem_of_list_to_set.
Qed.









(** ** The amounts are numbers or null *)

Lemma to_numeric_numerico c :
  isna (to_numeric c) = true ∨ ∃ x, to_numeric c = Num x.
Proof.
  destruct c as [k|x|s|t]; simpl; eauto.
  destruct (str_to_numeric s); eauto.
Qed.

Lemma calcular_monto_oc_body_numerico row :
  ∃ v, calcular_monto_oc_body row = inr v ∧ (isna v = true ∨ ∃ x, v = Num x).
Proof.
  unfold calcular_monto_oc_body.
  destruct (isna (row "PRICE_OVERRIDE") || isna (row "IMPORTE")); [by eauto|].
  destruct (to_numeric_numerico (row "PRICE_OVERRIDE")) as [->|[x ->]]; [by eauto|].
  destruct (to_numeric_numerico (row "IMPORTE")) as [->|[y ->]]; simpl; by eauto.
Qed.

Lemma calcular_monto_oc_asociado_body_numerico row :
  ∃ v, calcular_monto_oc_asociado_body row = inr v ∧
       (isna v = true ∨ ∃ x, v = Num x).
Proof.
  unfold calcular_monto_oc_asociado_body.
  destruct (isna (row "PRICE_OVERRIDE") || isna (row "IMPORTE_ASOCIADO")); [by eauto|].
  destruct (to_numeric_numerico (row "PRICE_OVERRIDE")) as [->|[x ->]]; [by eauto|].
  destruct (to_numeric_numerico (row "IMPORTE_ASOCIADO")) as [->|[y ->]];
    simpl; by eauto.
Qed.

Lemma calcular_monto_usd_body_numerico monto_col row :
  (isna (row monto_col) = true ∨ ∃ m, row monto_col = Num m) →
  ∃ v, calcular_monto_usd_body monto_col row = inr v ∧
       (isna v = true ∨ ∃ x, v = Num x).
Proof.
  intros Hmonto. unfold calcular_monto_usd_body.
  destruct Hmonto as [->|[m ->]]; [by eauto|]. simpl.
  assert (∀ tasa, isna (to_numeric tasa) = false → eq_zero (to_numeric tasa) = false →
            ∃ v, py_truediv (Num m) (to_numeric tasa) = inr v ∧
                 (isna v = true ∨ ∃ x, v = Num x)) as Hdiv.
  { intros tasa Hna Hzero.
    destruct (to_numeric_numerico tasa) as [Hna'|[x Hx]]; [congruence|].
    rewrite Hx in Hzero |- *. simpl in *. rewrite Hzero. by eauto. }
  case_decide; [by eauto|].
  case_decide.
  - destruct (isna (row "TASA") || eq_zero (row "TASA")); [by eauto|].
    destruct (isna (to_numeric (row "TASA"))) eqn:Hna; [by eauto|].
    destruct (eq_zero (to_numeric (row "TASA"))) eqn:Hzero; [by eauto|]. simpl.
    by apply Hdiv.
  - destruct (negb (isna (row "TASA")) && negb (eq_zero (row "TASA"))); [|by eauto].
    destruct (isna (to_numeric (row "TASA"))) eqn:Hna; [by eauto|].
    destruct (eq_zero (to_numeric (row "TASA"))) eqn:Hzero; [by eauto|]. simpl.
    by apply Hdiv.
Qed.

(** On a row with its derived cells the two amounts in USD are numbers or
    null, so that the net debt falls under one of the four cases of C1, and
    none of the amount computations has raised. *)
Lemma derivados_montos_numericos df_lookup areas_dict r :
  derivados df_lookup areas_dict r →
  (isna (r "MONTO OC USD") = true ∨ ∃ x, r "MONTO OC USD" = Num x) ∧
  (isna (r "MONTO OC ASOCIADO USD") = true ∨
   ∃ y, r "MONTO OC ASOCIADO USD" = Num y).
Proof.
  intros (_ & _ & _ & Hoc & Hocusd & Hasoc & Hasocusd & _). split.
  - rewrite Hocusd. unfold calcular_monto_oc_usd, calcular_monto_oc_usd_body.
    destruct (calcular_monto_usd_body_numerico "MONTO OC" r) as (v & -> & Hv); [|done].
    rewrite Hoc. unfold calcular_monto_oc.
    by destruct (calcular_monto_oc_body_numerico r) as (v & -> & Hv).
  - rewrite Hasocusd.
    unfold calcular_monto_oc_asociado_usd, calcular_monto_oc_asociado_usd_body.
    destruct (calcular_monto_usd_body_numerico "MONTO OC ASOCIADO" r)
      as (v & -> & Hv); [|done].
    rewrite Hasoc. unfold calcular_monto_oc_asociado.
    by destruct (calcular_monto_oc_asociado_body_numerico r) as (v & -> & Hv).
Qed.

(** ** The amounts, on every cell *)

Lemma tasa_utilizable_Some tasa x :
  tasa_utilizable tasa = Some x ↔ to_numeric tasa = Num x ∧ x ≠ 0%Qc.
Proof.
  unfold tasa_utilizable. destruct (to_numeric tasa) as [k|y|s|t]; try (split; [done|by intros [? _]]).
  case_decide as Hy; split.
  - done.
  - intros [[= ->] Hx]. done.
  - intros [= ->]. done.
  - intros [[= ->] _]. done.
Qed.

Lemma calcular_monto_usd_body_no_usd monto_col row :
  normalizar_divisa (row "DIVISA") ≠ "USD" →
  calcular_monto_usd_body monto_col row =
  if isna (row monto_col) then inr None_
  else match tasa_utilizable (row "TASA") with
       | None => inr None_
       | Some x => py_truediv (row monto_col) (Num x)
       end.
Proof.
  intros Hdivisa.
  destruct (decide (normalizar_divisa (row "DIVISA") ∈ ["VES"; "COP"; "EUR"])) as [Hlocal|Hotra].
  { by apply calcular_monto_usd_body_local. }
  unfold calcular_monto_usd_body, tasa_utilizable.
  destruct (isna (row monto_col)); [done|].
  rewrite decide_False by done. rewrite decide_False by done.
  destruct (row "TASA") as [k|x|s|t]; simpl; try done.
  - destruct (bool_decide (x = 0%Qc)) eqn:Hx; simpl.
    + apply bool_decide_eq_true in Hx. by rewrite decide_True.
    + apply bool_decide_eq_false in Hx. by rewrite decide_False.
  - destruct (str_to_numeric s) as [x|]; simpl; [|done].
    destruct (bool_decide (x = 0%Qc)) eqn:Hx; simpl.
    + apply bool_decide_eq_true in Hx. by rewrite decide_True.
    + apply bool_decide_eq_false in Hx. by rewrite decide_False.
Qed.

(** X1. [calcular_monto_oc] and [calcular_monto_oc_asociado] never raise,
    whatever the cells hold: the amount is the product of the price and the
    quantity when both cells are numbers, and null whenever [pd.to_numeric]
    reads no number in one of the two cells, as in a null cell and in a text
    that is no numeral. *)
Theorem calcular_monto_oc_producto (row : Row) :
  (∃ v, calcular_monto_oc_body row = inr v) ∧
  (∃ v, calcular_monto_oc_asociado_body row = inr v) ∧
  (∀ p i : Qc, row "PRICE_OVERRIDE" = Num p → row "IMPORTE" = Num i →
     calcular_monto_oc row = Num (p * i)) ∧
  (∀ p a : Qc, row "PRICE_OVERRIDE" = Num p → row "IMPORTE_ASOCIADO" = Num a →
     calcular_monto_oc_asociado row = Num (a * p)) ∧
  (isna (to_numeric (row "PRICE_OVERRIDE")) = true ∨
   isna (to_numeric (row "IMPORTE")) = true →
   calcular_monto_oc row = None_) ∧
  (isna (to_numeric (row "PRICE_OVERRIDE")) = true ∨
   isna (to_numeric (row "IMPORTE_ASOCIADO")) = true →
   calcular_monto_oc_asociado row = None_).
Proof.
  split; [|split; [|split; [|split; [|split]]]].
  - destruct (calcular_monto_oc_body_numerico row) as (v & Hv & _). by exists v.
  - destruct (calcular_monto_oc_asociado_body_numerico row) as (v & Hv & _). by exists v.
  - intros p i Hp Hi. unfold calcular_monto_oc, calcular_monto_oc_body.
    by rewrite Hp, Hi.
  - intros p a Hp Ha. unfold calcular_monto_oc_asociado, calcular_monto_oc_asociado_body.
    by rewrite Hp, Ha.
  - intros Hna. unfold calcular_monto_oc, calcular_monto_oc_body.
    destruct (isna (row "PRICE_OVERRIDE") || isna (row "IMPORTE")); [done|].
    destruct Hna as [-> | ->]; [done|]. by rewrite orb_true_r.
  - intros Hna. unfold calcular_monto_oc_asociado, calcular_monto_oc_asociado_body.
    destruct (isna (row "PRICE_OVERRIDE") || isna (row "IMPORTE_ASOCIADO")); [done|].
    destruct Hna as [-> | ->]; [done|]. by rewrite orb_true_r.
Qed.

(** X2. An order in any currency but USD is converted in one way: the amount
    divided by the rate when the amount is a number and the rate is usable,
    and null otherwise.  The list VES, COP, EUR of the code makes no
    difference, and a missing currency counts as one that is not USD. *)
Theorem conversion_de_toda_divisa_no_usd
    (monto_col : string) (calcular : Row → cell) (row : Row) :
  (monto_col, calcular) ∈
    [ ("MONTO OC", calcular_monto_oc_usd);
      ("MONTO OC ASOCIADO", calcular_monto_oc_asociado_usd) ] →
  normalizar_divisa (row "DIVISA") ≠ "USD" →
  calcular row = match row monto_col, tasa_utilizable (row "TASA") with
                 | Num m, Some x => Num (m / x)
                 | _, _ => None_
                 end.
Proof.
  intros Hcual Hdivisa.
  assert (calcular row = try_except (calcular_monto_usd_body monto_col row)) as ->.
  { apply elem_of_cons in Hcual as [[= -> ->]|Hcual]; [done|].
    apply elem_of_cons in Hcual as [[= -> ->]|Hcual]; [done|].
    by apply not_elem_of_nil in Hcual. }
  rewrite calcular_monto_usd_body_no_usd by done.
  destruct (tasa_utilizable (row "TASA")) as [x|] eqn:Htasa.
  - apply tasa_utilizable_Some in Htasa as [_ Hx].
    destruct (row monto_col) as [k|m|s|t]; simpl; try done.
    by rewrite bool_decide_eq_false_2.
  - by destruct (row monto_col).
Qed.

(** X3. [calcular_monto_real_deuda] never raises, whatever the two cells
    hold: unless both are null, each operand is the number [pd.to_numeric]
    reads in its cell, and zero when it reads none, so that a text that is
    no number counts as zero. *)
Theorem calcular_monto_real_deuda_total (row : Row) :
  let leer (c : cell) := match to_numeric c with Num x => x | _ => 0%Qc end in
  calcular_monto_real_deuda_body row =
  inr (if isna (row "MONTO OC USD") && isna (row "MONTO OC ASOCIADO USD") then None_
       else Num (leer (row "MONTO OC USD") - leer (row "MONTO OC ASOCIADO USD"))).
Proof.
  unfold calcular_monto_real_deuda_body.
  destruct (row "MONTO OC USD") as [k|x|s|t],
           (row "MONTO OC ASOCIADO USD") as [k'|y|s'|t'];
    simpl; try done;
    repeat match goal with
           | |- context [str_to_numeric ?s] => destruct (str_to_numeric s); simpl
           end; done.
Qed.
(** ** Stages 5 to 7 together *)

(** X4. The net debt from the cells of the sheet.  On a table with the five
    columns the stages read, stages 5, 6 and 7 succeed one after the other,
    and on every row whose price, quantity and associated quantity are
    numbers [p], [i] and [a] the net debt is [p * i - a * p] for an order in
    USD, [p * i / t - a * p / t] for an order in another currency whose rate
    [t] is usable, and null for an order in another currency without usable
    rate; with a null associated quantity zero is subtracted from the order
    amount.  The operations are those of the code, in its order. *)
Theorem deuda_neta_formula (df : DataFrame) :
  Forall (λ col, col ∈ columns df)
         ["PRICE_OVERRIDE"; "IMPORTE"; "IMPORTE_ASOCIADO"; "DIVISA"; "TASA"] →
  ∃ df5 df6 df7 : DataFrame,
    outcome (agregar_montos_oc df) = inr df5 ∧
    outcome (agregar_montos_oc_asociado df5) = inr df6 ∧
    outcome (agregar_monto_real_deuda df6) = inr df7 ∧
    Forall2 (λ r r' : Row,
       ∀ p i : Qc, r "PRICE_OVERRIDE" = Num p → r "IMPORTE" = Num i →
         (∀ a : Qc, r "IMPORTE_ASOCIADO" = Num a →
            (normalizar_divisa (r "DIVISA") = "USD" →
             r' "MONTO REAL DEUDA" = Num (p * i - a * p)) ∧
            (normalizar_divisa (r "DIVISA") ≠ "USD" →
             ∀ t, tasa_utilizable (r "TASA") = Some t →
                  r' "MONTO REAL DEUDA" = Num (p * i / t - a * p / t))) ∧
         (isna (r "IMPORTE_ASOCIADO") = true →
            (normalizar_divisa (r "DIVISA") = "USD" →
             r' "MONTO REAL DEUDA" = Num (p * i - 0)) ∧
            (normalizar_divisa (r "DIVISA") ≠ "USD" →
             ∀ t, tasa_utilizable (r "TASA") = Some t →
                  r' "MONTO REAL DEUDA" = Num (p * i / t - 0))) ∧
         (normalizar_divisa (r "DIVISA") ≠ "USD" →
          tasa_utilizable (r "TASA") = None →
          r' "MONTO REAL DEUDA" = None_))
      (rows df) (rows df7).
Proof.
  intros Hcols.
  rewrite !Forall_cons in Hcols.
  destruct Hcols as (Hprice & Himporte & Hasociado & Hdivisa & Htasa & _).
  set (df1 := assign "MONTO OC" calcular_monto_oc df).
  set (df5 := assign "MONTO OC USD" calcular_monto_oc_usd df1).
  set (df2 := assign "MONTO OC ASOCIADO" calcular_monto_oc_asociado df5).
  set (df6 := assign "MONTO OC ASOCIADO USD" calcular_monto_oc_asociado_usd df2).
  set (df7 := assign "MONTO REAL DEUDA" calcular_monto_real_deuda df6).
  assert (∀ col, col ∈ columns df → col ∈ columns df5) as H5.
  { intros col Hcol. unfold df5, df1. rewrite !elem_of_columns_assign. by left; left. }
  exists df5, df6, df7.
  split.
  { apply agregar_montos_oc_ok. rewrite !Forall_cons. by rewrite Forall_nil. }
  split.
  { apply agregar_montos_oc_asociado_ok. rewrite !Forall_cons, Forall_nil.
    repeat split; by apply H5. }
  split.
  { apply agregar_monto_real_deuda_ok. rewrite !Forall_cons, Forall_nil.
    unfold df6, df2, df5. rewrite !elem_of_columns_assign. tauto. }
  unfold df7, df6, df2, df5, df1. rewrite !rows_assign.
  rewrite <-!list_fmap_compose.
  apply Forall2_fmap_r, Forall_Forall2_diag, Forall_forall.
  intros r _. unfold compose.
  set (r1 := <["MONTO OC" := calcular_monto_oc r]> r).
  set (r2 := <["MONTO OC USD" := calcular_monto_oc_usd r1]> r1).
  set (r3 := <["MONTO OC ASOCIADO" := calcular_monto_oc_asociado r2]> r2).
  set (r4 := <["MONTO OC ASOCIADO USD" := calcular_monto_oc_asociado_usd r3]> r3).
  intros p i Hp Hi.
  rewrite fn_lookup_insert.
  assert (r1 "MONTO OC" = Num (p * i)) as Hoc.
  { unfold r1. rewrite fn_lookup_insert. unfold calcular_monto_oc, calcular_monto_oc_body.
    by rewrite Hp, Hi. }
  assert (r1 "DIVISA" = r "DIVISA") as Hd1 by done.
  assert (r1 "TASA" = r "TASA") as Ht1 by done.
  assert (r3 "DIVISA" = r "DIVISA") as Hd3 by done.
  assert (r3 "TASA" = r "TASA") as Ht3 by done.
  assert (r4 "MONTO OC USD" = calcular_monto_oc_usd r1) as Husd by done.
  assert (r4 "MONTO OC ASOCIADO USD" = calcular_monto_oc_asociado_usd r3) as Hausd by done.
  assert (r3 "MONTO OC ASOCIADO" = calcular_monto_oc_asociado r) as Hasoc by done.
  assert (calcular_monto_oc_usd r1 =
          if decide (normalizar_divisa (r "DIVISA") = "USD") then Num (p * i)
          else match tasa_utilizable (r "TASA") with
               | Some t => Num (p * i / t)
               | None => None_
               end) as Hocusd.
  { unfold calcular_monto_oc_usd, calcular_monto_oc_usd_body.
    case_decide as Hdiv.
    - rewrite calcular_monto_usd_body_USD; rewrite ?Hoc, ?Hd1; done.
    - rewrite calcular_monto_usd_body_no_usd by by rewrite Hd1.
      rewrite Hoc, Ht1. simpl.
      destruct (tasa_utilizable (r "TASA")) as [t|] eqn:Htasa'; [|done].
      apply tasa_utilizable_Some in Htasa' as [_ Hne].
      by rewrite bool_decide_eq_false_2. }
  unfold calcular_monto_real_deuda.
  split; [|split].
  - intros a Ha.
    assert (calcular_monto_oc_asociado_usd r3 =
            if decide (normalizar_divisa (r "DIVISA") = "USD") then Num (a * p)
            else match tasa_utilizable (r "TASA") with
                 | Some t => Num (a * p / t)
                 | None => None_
                 end) as Hasocusd.
    { unfold calcular_monto_oc_asociado_usd, calcular_monto_oc_asociado_usd_body.
      assert (r3 "MONTO OC ASOCIADO" = Num (a * p)) as Hm.
      { rewrite Hasoc. unfold calcular_monto_oc_asociado, calcular_monto_oc_asociado_body.
        by rewrite Hp, Ha. }
      case_decide as Hdiv.
      - rewrite calcular_monto_usd_body_USD; rewrite ?Hm, ?Hd3; done.
      - rewrite calcular_monto_usd_body_no_usd by by rewrite Hd3.
        rewrite Hm, Ht3. simpl.
        destruct (tasa_utilizable (r "TASA")) as [t|] eqn:Htasa'; [|done].
        apply tasa_utilizable_Some in Htasa' as [_ Hne].
        by rewrite bool_decide_eq_false_2. }
    unfold calcular_monto_real_deuda_body. rewrite Husd, Hausd, Hocusd, Hasocusd.
    split.
    + intros Hdiv. by rewrite !decide_True by done.
    + intros Hdiv t Ht. rewrite !decide_False by done. by rewrite Ht.
  - intros Ha.
    assert (calcular_monto_oc_asociado_usd r3 = None_) as Hasocusd.
    { unfold calcular_monto_oc_asociado_usd, calcular_monto_oc_asociado_usd_body,
        calcular_monto_usd_body.
      rewrite Hasoc. unfold calcular_monto_oc_asociado, calcular_monto_oc_asociado_body.
      rewrite Ha, orb_true_r. done. }
    unfold calcular_monto_real_deuda_body. rewrite Husd, Hausd, Hocusd, Hasocusd.
    split.
    + intros Hdiv. by rewrite !decide_True by done.
    + intros Hdiv t Ht. rewrite !decide_False by done. by rewrite Ht.
  - intros Hdiv Ht.
    assert (calcular_monto_oc_asociado_usd r3 = None_) as Hasocusd.
    { unfold calcular_monto_oc_asociado_usd, calcular_monto_oc_asociado_usd_body.
      rewrite calcular_monto_usd_body_no_usd by by rewrite Hd3.
      rewrite Ht3, Ht. by destruct (isna (r3 "MONTO OC ASOCIADO")). }
    unfold calcular_monto_real_deuda_body. rewrite Husd, Hausd, Hocusd, Hasocusd.
    rewrite decide_False by done. by rewrite Ht.
Qed.
(** ** The fiscal year names a period *)

Lemma pretty_length_4 (y : Z) :
  1676 ≤ y < 1676 + 588 → String.length (pretty y) = 4%nat.
Proof.
  intros Hy.
  assert (forallb (λ y, Nat.eqb (String.length (pretty y)) 4) (seqZ 1676 588) = true)
    as Htodos by (vm_compute; reflexivity).
  rewrite forallb_forall in Htodos.
  apply Nat.eqb_eq, Htodos, list_elem_of_In, elem_of_seqZ. lia.
Qed.

(** X5. Two orders bear the same fiscal year exactly when their dates fall
    in the same period from September to August: the label tells the
    periods apart. *)
Theorem calcular_ano_fiscal_periodo (fecha1 fecha2 : cell) (t1 t2 : Timestamp) :
  to_datetime fecha1 = inr (Some t1) → to_datetime fecha2 = inr (Some t2) →
  fecha_valida t1 → fecha_valida t2 →
  calcular_ano_fiscal fecha1 = calcular_ano_fiscal fecha2 ↔
  year t1 + (if bool_decide (month t1 > 8) then 1 else 0)
  = year t2 + (if bool_decide (month t2 > 8) then 1 else 0).
Proof.
  intros H1 H2 (Hy1 & _) (Hy2 & _).
  assert (∀ fecha t, to_datetime fecha = inr (Some t) →
            calcular_ano_fiscal fecha =
            Str (pretty (year t + (if bool_decide (month t > 8) then 1 else 0) - 1)
                 +:+ "-" +:+
                 pretty (year t + (if bool_decide (month t > 8) then 1 else 0))))
    as Hlabel.
  { intros fecha t Ht. unfold calcular_ano_fiscal, calcular_ano_fiscal_body.
    rewrite (to_datetime_Some_notna _ _ Ht), Ht. simpl.
    destruct (bool_decide (month t > 8)); simpl.
    - by replace (year t + 1 - 1) with (year t) by lia.
    - by rewrite Z.add_0_r. }
  rewrite (Hlabel _ _ H1), (Hlabel _ _ H2).
  set (e1 := year t1 + _). set (e2 := year t2 + _).
  assert (1677 ≤ e1 ≤ 2263) as He1
    by (unfold e1; destruct (bool_decide (month t1 > 8)); lia).
  assert (1677 ≤ e2 ≤ 2263) as He2
    by (unfold e2; destruct (bool_decide (month t2 > 8)); lia).
  split.
  - intros [= Heq].
    apply append_inj_length in Heq as [Heq _].
    + apply (inj pretty) in Heq. lia.
    + rewrite !pretty_length_4; [done|lia..].
  - by intros ->.
Qed.
(** ** Header detection *)

Lemma elem_of_valores_fila (fila : list cell) (col : string) :
  col ∈ valores_fila fila ↔ ∃ c, c ∈ fila ∧ strip (upper (py_str c)) = col.
Proof.
  unfold valores_fila. rewrite elem_of_list_to_set, list_elem_of_fmap.
  split; intros (c & ? & ?); exists c; by split.
Qed.

Lemma esperadas_en_fila (fila : list cell) :
  conjunto_normalizado COLUMNAS_ESPERADAS ⊆ valores_fila fila ↔
  ∀ col, col ∈ COLUMNAS_ESPERADAS → col ∈ valores_fila fila.
Proof.
  rewrite conjunto_normalizado_esperadas, elem_of_subseteq.
  split; intros Hsub col Hcol; apply Hsub.
  - by apply elem_of_list_to_set.
  - by apply elem_of_list_to_set in Hcol.
Qed.

Lemma size_valores_fila (fila : list cell) : (size (valores_fila fila) ≤ length fila)%nat.
Proof.
  unfold valores_fila. induction fila as [|c fila IH].
  - rewrite fmap_nil, list_to_set_nil, size_empty. done.
  - rewrite fmap_cons, list_to_set_cons, size_union_alt, size_singleton.
    etrans; [|apply le_n_S, IH].
    apply le_n_S, subseteq_size. apply subseteq_difference_l. done.
Qed.

(** X6. [detectar_cabezales] looks at the first [num_filas_revisar] rows
    only and takes the first of them in which every expected name is the
    text of some cell, case and surrounding blanks apart; other cells do not
    matter.  When none of these rows is such a row, whatever the rows further
    down hold, it answers row 0 with a warning. *)
Theorem detectar_cabezales_primera (df : list (list cell)) (num_filas_revisar : nat) :
  (∀ (i : nat) (fila : list cell),
     (i < num_filas_revisar)%nat → df !! i = Some fila →
     (∀ col, col ∈ COLUMNAS_ESPERADAS → col ∈ valores_fila fila) →
     (∀ (j : nat) (fila' : list cell),
        (j < i)%nat → df !! j = Some fila' →
        ∃ col, col ∈ COLUMNAS_ESPERADAS ∧ col ∉ valores_fila fila') →
     detectar_cabezales df num_filas_revisar =
     ([Text ("Cabezales detectados en la fila " +:+ pretty (S i))], inr i)) ∧
  ((∀ (i : nat) (fila : list cell),
      (i < num_filas_revisar)%nat → df !! i = Some fila →
      ∃ col, col ∈ COLUMNAS_ESPERADAS ∧ col ∉ valores_fila fila) →
   detectar_cabezales df num_filas_revisar =
   ([Text "⚠ No se detectaron cabezales automáticamente, usando la primera fila"],
    inr 0%nat)).
Proof.
  split.
  - intros i fila Hi Hfila Htodas Hantes. unfold detectar_cabezales.
    assert (list_find (λ fila, conjunto_normalizado COLUMNAS_ESPERADAS ⊆ valores_fila fila)
              (take num_filas_revisar df) = Some (i, fila)) as ->; [|done].
    apply list_find_Some. split; [|split].
    + by apply lookup_take_Some.
    + by apply esperadas_en_fila.
    + intros j fila' Hj Hji Hsub.
      apply lookup_take_Some in Hj as [Hj _].
      destruct (Hantes j fila' Hji Hj) as (col & Hcol & Hno).
      by apply Hno, (proj1 (esperadas_en_fila _) Hsub).
  - intros Hninguna. unfold detectar_cabezales.
    assert (list_find (λ fila, conjunto_normalizado COLUMNAS_ESPERADAS ⊆ valores_fila fila)
              (take num_filas_revisar df) = None) as ->; [|done].
    apply list_find_None, Forall_forall. intros fila Hin Hsub.
    apply list_elem_of_lookup_1 in Hin as [i Hi].
    apply lookup_take_Some in Hi as [Hi Hlt].
    destruct (Hninguna i fila Hlt Hi) as (col & Hcol & Hno).
    by apply Hno, (proj1 (esperadas_en_fila _) Hsub).
Qed.

(** X7. [detectar_cabezales_tasa] takes the first of the first
    [num_filas_revisar] rows that holds at least three of the seven names it
    knows, and reports the names found; when there is none it answers row 0
    with a warning.  A row of fewer than three cells never qualifies, so the
    header of a sheet of two columns, a date and one rate, is never
    detected. *)
Theorem detectar_cabezales_tasa_tres (df : list (list cell)) (num_filas_revisar : nat) :
  let coincidencias (fila : list cell) :=
    conjunto_normalizado columnas_esperadas_tasa ∩ valores_fila fila in
  (∀ (i : nat) (fila : list cell),
     (i < num_filas_revisar)%nat → df !! i = Some fila →
     (3 ≤ size (coincidencias fila))%nat →
     (∀ (j : nat) (fila' : list cell),
        (j < i)%nat → df !! j = Some fila' → (size (coincidencias fila') < 3)%nat) →
     detectar_cabezales_tasa df num_filas_revisar =
     ([Text ("Cabezales de Tasa detectados en la fila " +:+ pretty (S i));
       TextSet "  Columnas encontradas: " (coincidencias fila)], inr i)) ∧
  ((∀ (i : nat) (fila : list cell),
      (i < num_filas_revisar)%nat → df !! i = Some fila →
      (size (coincidencias fila) < 3)%nat) →
   detectar_cabezales_tasa df num_filas_revisar =
   ([Text "⚠ No se detectaron cabezales de Tasa automáticamente, usando la primera fila"],
    inr 0%nat)) ∧
  (∀ fila : list cell, (size (coincidencias fila) ≤ length fila)%nat) ∧
  ((∀ (i : nat) (fila : list cell),
      (i < num_filas_revisar)%nat → df !! i = Some fila → (length fila < 3)%nat) →
   detectar_cabezales_tasa df num_filas_revisar =
   ([Text "⚠ No se detectaron cabezales de Tasa automáticamente, usando la primera fila"],
    inr 0%nat)).
Proof.
  intros coincidencias.
  assert (∀ fila : list cell, (size (coincidencias fila) ≤ length fila)%nat) as Hsize.
  { intros fila. etrans; [|apply size_valores_fila].
    apply subseteq_size, intersection_subseteq_r. }
  assert ((∀ (i : nat) (fila : list cell),
             (i < num_filas_revisar)%nat → df !! i = Some fila →
             (size (coincidencias fila) < 3)%nat) →
          detectar_cabezales_tasa df num_filas_revisar =
          ([Text "⚠ No se detectaron cabezales de Tasa automáticamente, usando la primera fila"],
           inr 0%nat)) as Hninguna.
  { intros Hninguna. unfold detectar_cabezales_tasa.
    assert (list_find (λ fila, (3 ≤ size (coincidencias fila))%nat)
              (take num_filas_revisar df) = None) as Hfind.
    { apply list_find_None, Forall_forall. intros fila Hin Htres.
      apply list_elem_of_lookup_1 in Hin as [i Hi].
      apply lookup_take_Some in Hi as [Hi Hlt].
      specialize (Hninguna i fila Hlt Hi). lia. }
    unfold coincidencias in Hfind. by rewrite Hfind. }
  split; [|split; [done|split; [done|]]].
  - intros i fila Hi Hfila Htres Hantes. unfold detectar_cabezales_tasa.
    assert (list_find (λ fila, (3 ≤ size (coincidencias fila))%nat)
              (take num_filas_revisar df) = Some (i, fila)) as Hfind.
    { apply list_find_Some. split; [|split].
      + by apply lookup_take_Some.
      + done.
      + intros j fila' Hj Hji Htres'.
        apply lookup_take_Some in Hj as [Hj _].
        specialize (Hantes j fila' Hji Hj). lia. }
    unfold coincidencias in Hfind. by rewrite Hfind.
  - intros Hcortas. apply Hninguna. intros i fila Hi Hfila.
    specialize (Hcortas i fila Hi Hfila). specialize (Hsize fila). lia.
Qed.
(** ** The area directory *)

Lemma celda_limpia_strip (x : string) : celda_limpia x = strip x.
Proof.
  unfold celda_limpia. case_decide as Hx; [|done].
  subst x. by rewrite strip_ascii_ok.
Qed.

(** What one row of the sheet does to the directory. *)
Lemma agregar_area_cases (idx_s idx_a : nat) (areas_dict : gmap string string)
    (row : list string) :
  (∃ s a, row !! idx_s = Some s ∧ row !! idx_a = Some a ∧ strip s ≠ "" ∧ strip a ≠ "" ∧
          agregar_area idx_s idx_a areas_dict row = <[upper (strip s) := strip a]> areas_dict) ∨
  ((∀ s a, row !! idx_s = Some s → row !! idx_a = Some a → strip s = "" ∨ strip a = "") ∧
   agregar_area idx_s idx_a areas_dict row = areas_dict).
Proof.
  unfold agregar_area. case_decide as Hlen.
  - destruct (lookup_lt_is_Some_2 row idx_s) as [s Hs]; [lia|].
    destruct (lookup_lt_is_Some_2 row idx_a) as [a Ha]; [lia|].
    rewrite Hs, Ha. simpl. rewrite !celda_limpia_strip.
    case_decide as Hvalida.
    + left. exists s, a. by destruct Hvalida.
    + right. split; [|done]. intros s' a' [= <-] [= <-].
      destruct (decide (strip s = "")); [by left|].
      destruct (decide (strip a = "")); [by right|].
      destruct Hvalida. by split.
  - right. split; [|done]. intros s a Hs Ha.
    apply lookup_lt_Some in Hs, Ha. lia.
Qed.

Lemma foldl_agregar_area_normalizado (idx_s idx_a : nat) (filas : list (list string))
    (areas_dict : gmap string string) :
  (∀ k v, areas_dict !! k = Some v →
          k ≠ "" ∧ strip (upper k) = k ∧ v ≠ "" ∧ strip v = v) →
  ∀ k v, foldl (agregar_area idx_s idx_a) areas_dict filas !! k = Some v →
         k ≠ "" ∧ strip (upper k) = k ∧ v ≠ "" ∧ strip v = v.
Proof.
  revert areas_dict. induction filas as [|row filas IH]; intros areas_dict Hdict; [done|].
  simpl. apply IH. intros k v Hkv.
  destruct (agregar_area_cases idx_s idx_a areas_dict row)
    as [(s & a & _ & _ & Hs & Ha & Heq)|[_ Heq]]; rewrite Heq in Hkv; [|by apply Hdict].
  apply lookup_insert_Some in Hkv as [[<- <-]|[_ Hkv]]; [|by apply Hdict].
  split; [by intros ?%upper_eq_nil|].
  split; [by rewrite upper_idemp, strip_upper, strip_idemp|].
  split; [done|apply strip_idemp].
Qed.

Lemma foldl_agregar_area_lookup (idx_s idx_a : nat) (filas : list (list string))
    (areas_dict : gmap string string) (k : string) :
  (∀ row s a, row ∈ filas → row !! idx_s = Some s → row !! idx_a = Some a →
              upper (strip s) = k → strip a = "") →
  k ≠ "" →
  foldl (agregar_area idx_s idx_a) areas_dict filas !! k = areas_dict !! k.
Proof.
  intros Hfilas Hk. revert areas_dict Hfilas.
  induction filas as [|row filas IH]; intros areas_dict Hfilas; [done|].
  simpl. rewrite IH.
  - destruct (agregar_area_cases idx_s idx_a areas_dict row)
      as [(s & a & Hs & Ha & Hs' & Ha' & ->)|[_ ->]]; [|done].
    apply lookup_insert_ne. intros Heq.
    apply Ha', (Hfilas row s a); [apply list_elem_of_here|done..].
  - intros row' s a Hin. apply Hfilas. by apply list_elem_of_further.
Qed.

Lemma leer_areas_desde_sheets_cons (cabezales : list string)
    (filas : list (list string)) (idx_s idx_a : nat) :
  filas ≠ [] →
  buscar_indices ((λ h, strip (upper h)) <$> cabezales) = (Some idx_s, Some idx_a) →
  leer_areas_desde_sheets (cabezales :: filas) = foldl (agregar_area idx_s idx_a) ∅ filas.
Proof.
  intros Hfilas Hidx. unfold leer_areas_desde_sheets.
  rewrite decide_False by (destruct filas; [done|simpl; lia]).
  simpl. by rewrite Hidx.
Qed.

(** X8. Every entry of the directory [leer_areas_desde_sheets] builds is
    normalized: its key is not empty and is in upper case without blanks
    around it, its area is not empty and has no blanks around it.  So the
    lookup of stage 4 finds every entry, under any spelling of the requester
    that differs from the key by case and surrounding blanks only. *)
Theorem leer_areas_desde_sheets_normalizado
    (datos : list (list string)) (solicitante area : string) :
  leer_areas_desde_sheets datos !! solicitante = Some area →
  solicitante ≠ "" ∧ strip (upper solicitante) = solicitante ∧
  area ≠ "" ∧ strip area = area ∧
  ∀ texto : string, strip (upper texto) = solicitante →
    buscar_area (leer_areas_desde_sheets datos) (Str texto) = Str area.
Proof.
  intros Hentrada.
  assert (solicitante ≠ "" ∧ strip (upper solicitante) = solicitante ∧
          area ≠ "" ∧ strip area = area) as (? & ? & ? & ?).
  { revert Hentrada. unfold leer_areas_desde_sheets.
    case_decide; [done|].
    destruct (buscar_indices _) as [[idx_s|] [idx_a|]]; try done.
    by apply foldl_agregar_area_normalizado. }
  repeat (split; [done|]).
  intros texto Htexto. unfold buscar_area. simpl. by rewrite Htexto, Hentrada.
Qed.

(** X9. Of the rows of the sheet that name the same requester, case and
    surrounding blanks apart, and that have an area, the last one gives the
    area: looking up any spelling of the requester gives the area of that
    row without the blanks around it. *)
Theorem leer_areas_desde_sheets_ultima_fila
    (cabezales : list string) (filas1 filas2 : list (list string))
    (row : list string) (idx_s idx_a : nat) (s a : string) :
  buscar_indices ((λ h, strip (upper h)) <$> cabezales) = (Some idx_s, Some idx_a) →
  row !! idx_s = Some s → row !! idx_a = Some a →
  strip s ≠ "" → strip a ≠ "" →
  (∀ row' s' a', row' ∈ filas2 → row' !! idx_s = Some s' → row' !! idx_a = Some a' →
                 upper (strip s') = upper (strip s) → strip a' = "") →
  leer_areas_desde_sheets (cabezales :: filas1 ++ row :: filas2) !! upper (strip s)
  = Some (strip a) ∧
  ∀ texto : string, strip (upper texto) = upper (strip s) →
    buscar_area (leer_areas_desde_sheets (cabezales :: filas1 ++ row :: filas2))
                (Str texto) = Str (strip a).
Proof.
  intros Hidx Hs Ha Hs' Ha' Hdespues.
  assert (leer_areas_desde_sheets (cabezales :: filas1 ++ row :: filas2) !! upper (strip s)
          = Some (strip a)) as Hentrada.
  { rewrite (leer_areas_desde_sheets_cons _ _ idx_s idx_a); [|by destruct filas1|done].
    rewrite foldl_app. simpl.
    rewrite foldl_agregar_area_lookup; [|done|by intros ?%upper_eq_nil].
    destruct (agregar_area_cases idx_s idx_a (foldl (agregar_area idx_s idx_a) ∅ filas1) row)
      as [(s0 & a0 & Hs0 & Ha0 & _ & _ & ->)|[Hno _]].
    - rewrite Hs in Hs0. rewrite Ha in Ha0. injection Hs0 as <-. injection Ha0 as <-.
      apply lookup_insert_eq.
    - by destruct (Hno s a Hs Ha). }
  split; [done|].
  intros texto Htexto. unfold buscar_area. simpl. by rewrite Htexto, Hentrada.
Qed.
Lemma buscar_indices_snoc (headers : list string) (header : string) :
  buscar_indices (headers ++ [header]) =
  (if contains "SOLICITANTE" header then Some (length headers)
   else (buscar_indices headers).1,
   if contains "AREA" header then Some (length headers)
   else (buscar_indices headers).2).
Proof.
  unfold buscar_indices. rewrite imap_app, foldl_app. simpl.
  destruct (foldl _ _ _) as [col_solicitante_idx col_area_idx]. simpl.
  by rewrite Nat.add_0_r.
Qed.

Lemma buscar_indices_Some (headers : list string) :
  (∀ i, (buscar_indices headers).1 = Some i →
        ∃ header, headers !! i = Some header ∧ contains "SOLICITANTE" header = true) ∧
  (∀ i, (buscar_indices headers).2 = Some i →
        ∃ header, headers !! i = Some header ∧ contains "AREA" header = true).
Proof.
  induction headers as [|header headers [IHs IHa]] using rev_ind; [by split|].
  rewrite buscar_indices_snoc. simpl. split.
  - intros i Hi. destruct (contains "SOLICITANTE" header) eqn:Hcontiene.
    + injection Hi as <-. exists header. split; [|done].
      by rewrite lookup_app_r, Nat.sub_diag.
    + destruct (IHs i Hi) as (header' & Hheader' & Hcontiene').
      exists header'. split; [|done]. by apply lookup_app_l_Some.
  - intros i Hi. destruct (contains "AREA" header) eqn:Hcontiene.
    + injection Hi as <-. exists header. split; [|done].
      by rewrite lookup_app_r, Nat.sub_diag.
    + destruct (IHa i Hi) as (header' & Hheader' & Hcontiene').
      exists header'. split; [|done]. by apply lookup_app_l_Some.
Qed.

(** X10. Of several headers of the sheet that contain the word SOLICITANTE
    the last one gives the column of the requesters, and likewise for the
    word AREA; a word that no header contains leaves its column unset. *)
Theorem buscar_indices_ultimo (headers : list string) :
  let ultimo (palabra : string) (idx : option nat) :=
    match idx with
    | Some i =>
        (∃ header, headers !! i = Some header ∧ contains palabra header = true) ∧
        ∀ (j : nat) (header : string),
          (i < j)%nat → headers !! j = Some header → contains palabra header = false
    | None =>
        ∀ (j : nat) (header : string),
          headers !! j = Some header → contains palabra header = false
    end in
  ultimo "SOLICITANTE" (buscar_indices headers).1 ∧
  ultimo "AREA" (buscar_indices headers).2.
Proof.
  induction headers as [|header headers IH] using rev_ind; [by split|].
  rewrite buscar_indices_snoc. simpl in *.
  assert (∀ (palabra : string) (idx : option nat),
            match idx with
            | Some i =>
                (∃ header, headers !! i = Some header ∧ contains palabra header = true) ∧
                ∀ (j : nat) (header : string),
                  (i < j)%nat → headers !! j = Some header →
                  contains palabra header = false
            | None =>
                ∀ (j : nat) (header : string),
                  headers !! j = Some header → contains palabra header = false
            end →
            match (if contains palabra header then Some (length headers) else idx) with
            | Some i =>
                (∃ header0, (headers ++ [header]) !! i = Some header0 ∧
                            contains palabra header0 = true) ∧
                ∀ (j : nat) (header0 : string),
                  (i < j)%nat → (headers ++ [header]) !! j = Some header0 →
                  contains palabra header0 = false
            | None =>
                ∀ (j : nat) (header0 : string),
                  (headers ++ [header]) !! j = Some header0 →
                  contains palabra header0 = false
            end) as Hpaso.
  { intros palabra idx Hidx.
    destruct (contains palabra header) eqn:Hheader.
    - split.
      + exists header. split; [|done]. by rewrite lookup_app_r, Nat.sub_diag.
      + intros j header0 Hj Hlookup. apply lookup_lt_Some in Hlookup.
        rewrite length_app in Hlookup. simpl in Hlookup. lia.
    - assert (∀ (j : nat) (header0 : string),
                (headers ++ [header]) !! j = Some header0 →
                headers !! j = Some header0 ∨ header0 = header) as Hcasos.
      { intros j header0 Hlookup.
        apply lookup_app_Some in Hlookup as [Hlookup|[_ Hlookup]]; [by left|].
        right. apply list_lookup_singleton_Some in Hlookup as [_ <-]. done. }
      destruct idx as [i|].
      + destruct Hidx as [(header0 & Hi & Hcontiene) Hdespues]. split.
        * exists header0. split; [|done]. by apply lookup_app_l_Some.
        * intros j header1 Hj Hlookup.
          destruct (Hcasos _ _ Hlookup) as [Hlookup'| ->]; [|done].
          by apply (Hdespues j).
      + intros j header1 Hlookup.
        destruct (Hcasos _ _ Hlookup) as [Hlookup'| ->]; [|done].
        by apply (Hidx j). }
  destruct IH as [IHs IHa]. split; by apply Hpaso.
Qed.

(** X11. A sheet that gives no directory leaves every AREA of the report
    null.  The sheet gives the empty directory when it has fewer than two
    rows, or no header with the word SOLICITANTE, or none with the word
    AREA, case apart; stage 4 then warns and writes a null AREA in every
    row, the other cells untouched. *)
Theorem agregar_columna_area_sin_directorio
    (df : DataFrame) (datos : list (list string)) :
  "SOLICITANTE" ∈ columns df →
  (length datos < 2)%nat ∨
  (∀ cabezales header, head datos = Some cabezales → header ∈ cabezales →
                       contains "SOLICITANTE" (strip (upper header)) = false) ∨
  (∀ cabezales header, head datos = Some cabezales → header ∈ cabezales →
                       contains "AREA" (strip (upper header)) = false) →
  leer_areas_desde_sheets datos = ∅ ∧
  ∃ df' : DataFrame,
    outcome (agregar_columna_area df (leer_areas_desde_sheets datos)) = inr df' ∧
    Text "⚠ Advertencia: No se pudieron leer áreas desde Google Sheets"
      ∈ stdout (agregar_columna_area df (leer_areas_desde_sheets datos)) ∧
    Forall2 (λ r r' : Row, r' "AREA" = None_ ∧ ∀ col, col ≠ "AREA" → r' col = r col)
            (rows df) (rows df').
Proof.
  intros Hsolicitante Hsheet.
  assert (leer_areas_desde_sheets datos = ∅) as Hvacio.
  { unfold leer_areas_desde_sheets. case_decide as Hlen; [done|].
    destruct Hsheet as [Hlen'|Hsheet]; [lia|].
    destruct datos as [|cabezales filas]; [simpl in Hlen; lia|]. simpl.
    pose proof (buscar_indices_Some ((λ h, strip (upper h)) <$> cabezales)) as [Hs Ha].
    destruct (buscar_indices _) as [[idx_s|] [idx_a|]]; simpl in *; try done.
    exfalso.
    destruct Hsheet as [Hsheet|Hsheet].
    - destruct (Hs idx_s eq_refl) as (header & Hheader & Hcontiene).
      apply list_lookup_fmap_Some in Hheader as (header0 & -> & Hheader0).
      rewrite (Hsheet cabezales header0) in Hcontiene; [done..|].
      by eapply list_elem_of_lookup_2.
    - destruct (Ha idx_a eq_refl) as (header & Hheader & Hcontiene).
      apply list_lookup_fmap_Some in Hheader as (header0 & -> & Hheader0).
      rewrite (Hsheet cabezales header0) in Hcontiene; [done..|].
      by eapply list_elem_of_lookup_2. }
  split; [done|]. rewrite Hvacio.
  assert (agregar_columna_area df ∅ =
          ([Text "Agregando columna AREA...";
            Text "⚠ Advertencia: No se pudieron leer áreas desde Google Sheets"],
           inr (assign "AREA" (λ _, None_) df))) as ->.
  { unfold agregar_columna_area. rewrite has_column_true by done.
    by rewrite decide_True. }
  exists (assign "AREA" (λ _, None_) df). split; [done|]. split.
  - apply list_elem_of_further, list_elem_of_here.
  - rewrite rows_assign. apply Forall2_fmap_r, Forall_Forall2_diag, Forall_forall.
    intros r _. split; [by rewrite fn_lookup_insert|].
    intros col Hcol. by rewrite fn_lookup_insert_ne.
Qed.
(** ** Which column of the rate table answers *)

Lemma buscar_en_lookup_sin_columna (df_lookup : list TasaRow) (col_tasa_key : string)
    (fecha_dt : Timestamp) :
  col_tasa_key ∉ lookup_columns df_lookup →
  try_except (buscar_en_lookup df_lookup col_tasa_key fecha_dt) = None_.
Proof.
  intros Hcol. unfold buscar_en_lookup.
  case_decide; [|done]. cbv zeta.
  destruct (decide (col_tasa_key ∈ lookup_columns df_lookup)) as [?|_]; [done|].
  destruct (filter _ df_lookup) as [|fila filas]; simpl;
    by destruct (last (filter _ df_lookup)).
Qed.

Lemma buscar_tasa_con_fallback_col (df_lookup : list TasaRow) (fecha_orden divisa : cell) :
  buscar_tasa_con_fallback df_lookup fecha_orden divisa =
  match to_datetime fecha_orden with
  | inr (Some fecha_dt) =>
      if isna fecha_orden then None_
      else match elegir_col_tasa_key df_lookup (normalizar_divisa divisa) with
           | Some col_tasa_key =>
               try_except (buscar_en_lookup df_lookup col_tasa_key fecha_dt)
           | None => None_
           end
  | _ => None_
  end.
Proof.
  unfold buscar_tasa_con_fallback, buscar_tasa_con_fallback_body.
  destruct (isna fecha_orden); [by destruct (to_datetime fecha_orden) as [|[|]]|].
  destruct (to_datetime fecha_orden) as [e|[fecha_dt|]]; simpl; try done.
  by destruct (elegir_col_tasa_key _ _).
Qed.

(** X12. An order whose currency is none of VES, COP and EUR, an order in
    USD or without currency among them, takes the rate of the first rate
    column there is, in the order VES, COP, EUR, DEFAULT: with a VES column
    in the lookup frame its TASA is the one of an order in VES of the same
    date.  Without any of the four columns its TASA is null. *)
Theorem tasa_de_divisa_no_reconocida
    (df_lookup : list TasaRow) (fecha_orden divisa : cell) :
  normalizar_divisa divisa ∉ ["VES"; "COP"; "EUR"] →
  let tasa := buscar_tasa_con_fallback df_lookup fecha_orden divisa in
  let tasa_en (d : string) := buscar_tasa_con_fallback df_lookup fecha_orden (Str d) in
  ("tasa_VES" ∈ lookup_columns df_lookup → tasa = tasa_en "VES") ∧
  ("tasa_VES" ∉ lookup_columns df_lookup → "tasa_COP" ∈ lookup_columns df_lookup →
   tasa = tasa_en "COP") ∧
  ("tasa_VES" ∉ lookup_columns df_lookup → "tasa_COP" ∉ lookup_columns df_lookup →
   "tasa_EUR" ∈ lookup_columns df_lookup → tasa = tasa_en "EUR") ∧
  ("tasa_VES" ∉ lookup_columns df_lookup → "tasa_COP" ∉ lookup_columns df_lookup →
   "tasa_EUR" ∉ lookup_columns df_lookup →
   "tasa_DEFAULT" ∉ lookup_columns df_lookup → tasa = None_).
Proof.
  intros Hotra. simpl.
  rewrite !elem_of_cons, elem_of_nil in Hotra.
  assert (normalizar_divisa (Str "VES") = "VES") as Hves
    by by rewrite normalizar_divisa_ascii.
  assert (normalizar_divisa (Str "COP") = "COP") as Hcop
    by by rewrite normalizar_divisa_ascii.
  assert (normalizar_divisa (Str "EUR") = "EUR") as Heur
    by by rewrite normalizar_divisa_ascii.
  rewrite !buscar_tasa_con_fallback_col, Hves, Hcop, Heur.
  destruct (to_datetime fecha_orden) as [e|[fecha_dt|]]; [done| |done].
  destruct (isna fecha_orden); [done|].
  unfold elegir_col_tasa_key.
  rewrite !(decide_False (P := normalizar_divisa divisa = _)) by tauto.
  rewrite (decide_True (P := "VES" = "VES")) by done.
  rewrite (decide_False (P := "COP" = "VES")) by done.
  rewrite (decide_True (P := "COP" = "COP")) by done.
  rewrite (decide_False (P := "EUR" = "VES")) by done.
  rewrite (decide_False (P := "EUR" = "COP")) by done.
  rewrite (decide_True (P := "EUR" = "EUR")) by done.
  split; [|split; [|split]].
  - intros Hv. by repeat case_decide.
  - intros Hv Hc. by repeat case_decide.
  - intros Hv Hc He. by repeat case_decide.
  - intros Hv Hc He Hd. by repeat case_decide.
Qed.

Lemma elem_of_buscar_columnas_tasa (cols : list string) (divisa col : string) :
  (divisa, col) ∈ buscar_columnas_tasa cols →
  divisa = "DEFAULT" ∨
  ∃ patrones, (divisa, patrones) ∈ tasas_buscadas ∧
              buscar_columna patrones cols = Some col.
Proof.
  unfold buscar_columnas_tasa.
  assert ((divisa, col) ∈
            omap (λ '(divisa, patrones),
                    (λ col, (divisa, col)) <$> buscar_columna patrones cols)
                 tasas_buscadas →
          ∃ patrones, (divisa, patrones) ∈ tasas_buscadas ∧
                      buscar_columna patrones cols = Some col) as Homap.
  { intros Hin. apply list_elem_of_omap in Hin as ([divisa' patrones] & Hin & Hsome).
    destruct (buscar_columna patrones cols) as [col'|] eqn:Hcol; [|done].
    injection Hsome as <- <-. by exists patrones. }
  destruct (omap _ tasas_buscadas) as [|par pares] eqn:Hpares.
  - destruct (buscar_columna ["USD"; "TASA"; "CAMBIO"] cols) as [col'|].
    + intros Hin. apply list_elem_of_singleton in Hin as [= -> _]. by left.
    + by intros ?%not_elem_of_nil.
  - intros Hin. right. by apply Homap.
Qed.

Lemma elem_of_lookup_columns_construir col columnas_tasa df (key : string) :
  key ∈ lookup_columns (construir_tasas_lookup col columnas_tasa df) →
  key = "fecha" ∨ key = "fecha_str" ∨
  ∃ divisa col_tasa, (divisa, col_tasa) ∈ columnas_tasa ∧ key = "tasa_" +:+ divisa.
Proof.
  unfold lookup_columns. rewrite elem_of_remove_dups, list_elem_of_bind.
  intros (fila & Hkey & Hfila).
  apply elem_of_cons in Hkey as [->|Hkey]; [by left|].
  apply elem_of_cons in Hkey as [->|Hkey]; [by right; left|].
  right; right.
  unfold construir_tasas_lookup in Hfila.
  apply list_elem_of_omap in Hfila as (row & _ & Hfila).
  destruct (row col) as [| | |fecha_dt]; try done.
  injection Hfila as <-. simpl in Hkey.
  apply list_elem_of_fmap in Hkey as ([key' tasa] & -> & Hkey).
  apply list_elem_of_omap in Hkey as ([divisa col_tasa] & Hin & Hsome).
  case_match; [|done]. injection Hsome as <- _.
  by exists divisa, col_tasa.
Qed.

Lemma tasa_key_inj (d1 d2 : string) : "tasa_" +:+ d1 = "tasa_" +:+ d2 → d1 = d2.
Proof. intros Heq. by apply append_inj_length in Heq as [_ ?]. Qed.

(** X13. An order in VES, COP or EUR takes its rate from the column of its
    own currency only.  When no column of the rate table bears one of the
    names of that currency, the TASA of the order is null, whatever its date
    and whatever rates of other currencies the table holds. *)
Theorem tasa_sin_columna_de_la_divisa
    (df_tasa : DataFrame) (df_lookup : list TasaRow) (fecha_orden divisa : cell)
    (d : string) (patrones : list string) :
  construir_lookup df_tasa = inr df_lookup →
  (d, patrones) ∈ tasas_buscadas →
  normalizar_divisa divisa = d →
  buscar_columna patrones (columns df_tasa) = None →
  buscar_tasa_con_fallback df_lookup fecha_orden divisa = None_.
Proof.
  intros Hlookup Hd Hdivisa Hninguna.
  assert ("tasa_" +:+ d ∉ lookup_columns df_lookup) as Hcol.
  { intros Hin. unfold construir_lookup in Hlookup.
    destruct (elegir_columna_fecha df_tasa) as [e|col]; [done|]. simpl in Hlookup.
    injection Hlookup as <-.
    apply elem_of_lookup_columns_construir in Hin as [Hin|[Hin|Hin]].
    - unfold tasas_buscadas in Hd. rewrite !elem_of_cons, elem_of_nil in Hd.
      destruct Hd as [[= -> _]|[[= -> _]|[[= -> _]|[]]]]; done.
    - unfold tasas_buscadas in Hd. rewrite !elem_of_cons, elem_of_nil in Hd.
      destruct Hd as [[= -> _]|[[= -> _]|[[= -> _]|[]]]]; done.
    - destruct Hin as (d' & col_tasa & Hin & Heq).
      apply tasa_key_inj in Heq as <-.
      apply elem_of_buscar_columnas_tasa in Hin as [->|(patrones' & Hd' & Hsome)].
      + unfold tasas_buscadas in Hd. rewrite !elem_of_cons, elem_of_nil in Hd.
        destruct Hd as [[=]|[[=]|[[=]|[]]]].
      + assert (patrones' = patrones) as ->.
        { unfold tasas_buscadas in Hd, Hd'.
          rewrite !elem_of_cons, elem_of_nil in Hd, Hd'.
          destruct Hd as [[= -> ->]|[[= -> ->]|[[= -> ->]|[]]]];
            destruct Hd' as [[= ->]|[[= ->]|[[= ->]|[]]]]; done. }
        congruence. }
  rewrite buscar_tasa_con_fallback_col, Hdivisa.
  assert (elegir_col_tasa_key df_lookup d = Some ("tasa_" +:+ d)) as ->.
  { unfold tasas_buscadas in Hd. rewrite !elem_of_cons, elem_of_nil in Hd.
    destruct Hd as [[= -> _]|[[= -> _]|[[= -> _]|[]]]]; done. }
  destruct (to_datetime fecha_orden) as [e|[fecha_dt|]]; [done| |done].
  destruct (isna fecha_orden); [done|].
  by apply buscar_en_lookup_sin_columna.
Qed.

(** ** A rate table without a date *)



(** ** The order of the rows of the rate table *)

Lemma Timestamp_le_antisym (a b : Timestamp) :
  Timestamp_le a b → Timestamp_le b a → a = b.
Proof.
  destruct a, b. unfold Timestamp_le; simpl. intros Hab Hba. f_equal; lia.
Qed.

Lemma NoDup_fmap_eq {A B} (f : A → B) (l : list A) (x y : A) :
  NoDup (f <$> l) → x ∈ l → y ∈ l → f x = f y → x = y.
Proof.
  induction l as [|z l IH]; intros Hnodup Hx Hy Heq; [by apply not_elem_of_nil in Hx|].
  rewrite fmap_cons in Hnodup. apply NoDup_cons in Hnodup as [Hz Hnodup].
  apply elem_of_cons in Hx as [->|Hx], Hy as [->|Hy]; [done| | |by apply IH].
  - destruct Hz. rewrite Heq. apply list_elem_of_fmap. by exists y.
  - destruct Hz. rewrite <-Heq. apply list_elem_of_fmap. by exists x.
Qed.

Lemma construir_tasas_lookup_perm col columnas_tasa (df df' : DataFrame) :
  columns df' = columns df → rows df' ≡ₚ rows df →
  construir_tasas_lookup col columnas_tasa df'
  ≡ₚ construir_tasas_lookup col columnas_tasa df.
Proof.
  intros Hcolumns Hrows. unfold construir_tasas_lookup, has_column.
  rewrite Hcolumns. by apply omap_Permutation.
Qed.

(** A date cell that [pd.to_datetime] reads the same way in whatever column
    it stands: a timestamp, or a cell in which it reads no date. *)
Lemma celdas_sueltas_columna col (df : DataFrame) :
  Forall (λ r : Row, celda_suelta (r col)) (rows df) →
  Forall celda_suelta (columna col df).
Proof.
  intros Hdf. apply Forall_forall. intros c (r & -> & Hr)%list_elem_of_fmap.
  by eapply Forall_forall in Hdf.
Qed.

Lemma rows_asignar_fmap col (h : cell → cell) (df : DataFrame) :
  rows (asignar col (h <$> columna col df) df)
  = (λ r : Row, <[col := h (r col)]> r) <$> rows df.
Proof.
  unfold asignar, columna; simpl.
  induction (rows df) as [|r l IH]; [done|]. simpl. f_equal. exact IH.
Qed.

Lemma limpiar_tasa_perm col (df df' : DataFrame) :
  columns df' = columns df → rows df' ≡ₚ rows df →
  Forall (λ r : Row, celda_suelta (r col)) (rows df) →
  columns (limpiar_tasa col df') = columns (limpiar_tasa col df) ∧
  rows (limpiar_tasa col df') ≡ₚ rows (limpiar_tasa col df).
Proof.
  intros Hcolumns Hrows Hdf.
  assert (Forall (λ r : Row, celda_suelta (r col)) (rows df')) as Hdf'
    by by rewrite Hrows.
  unfold limpiar_tasa. split.
  - change (columns (dropna col ?df)) with (columns df).
    rewrite !sort_values_columns by apply fechas_leidas.
    unfold asignar, has_column; simpl. by rewrite Hcolumns.
  - change (rows (dropna col ?df))
      with (filter (λ r : Row, isna (r col) = false) (rows df)).
    apply filter_Permutation.
    rewrite !sort_values_perm by apply fechas_leidas.
    fold (columna col df) (columna col df').
    rewrite !to_datetime_serie_coerce by by apply celdas_sueltas_columna.
    rewrite !rows_asignar_fmap. by apply fmap_Permutation.
Qed.

(** X15. The rows of the rate table may come in any order.  When every
    cell of the date column is a timestamp or a cell in which
    [pd.to_datetime] reads no date, and no two rows bear the same timestamp,
    two rate tables with the same columns and the same rows, in whatever
    order, give the same lookup frame, and stage 3 gives the same table with
    one as with the other. *)
Theorem construir_lookup_orden_de_filas
    (df_tasa df_tasa' : DataFrame) (columna_fecha_tasa : string) :
  columns df_tasa' = columns df_tasa →
  rows df_tasa' ≡ₚ rows df_tasa →
  elegir_columna_fecha df_tasa = inr columna_fecha_tasa →
  Forall (λ r : Row, celda_suelta (r columna_fecha_tasa)) (rows df_tasa) →
  NoDup (omap (λ r : Row, fecha_de_celda (r columna_fecha_tasa)) (rows df_tasa)) →
  construir_lookup df_tasa' = construir_lookup df_tasa ∧
  ∀ df_ordenes : DataFrame,
    outcome (agregar_columna_tasa df_ordenes df_tasa')
    = outcome (agregar_columna_tasa df_ordenes df_tasa).
Proof.
  intros Hcolumns Hrows Hcol Hsueltas Hnodup.
  assert (elegir_columna_fecha df_tasa' = inr columna_fecha_tasa) as Hcol'.
  { unfold elegir_columna_fecha in *. by rewrite Hcolumns. }
  assert (construir_lookup df_tasa' = construir_lookup df_tasa) as Hlookup.
  { destruct (construir_lookup df_tasa) as [e|df_lookup] eqn:Hl.
    { unfold construir_lookup in Hl. by rewrite Hcol in Hl. }
    destruct (construir_lookup df_tasa') as [e|df_lookup'] eqn:Hl'.
    { unfold construir_lookup in Hl'. by rewrite Hcol' in Hl'. }
    f_equal.
    pose proof (construir_lookup_sorted _ _ Hl) as [Hsorted _].
    pose proof (construir_lookup_sorted _ _ Hl') as [Hsorted' _].
    pose proof (construir_lookup_fechas _ _ _ Hcol Hl) as Hfechas.
    rewrite to_datetime_serie_coerce in Hfechas by by apply celdas_sueltas_columna.
    assert (omap fecha_de_celda (to_datetime_coerce <$> columna columna_fecha_tasa df_tasa)
            = omap (λ r : Row, fecha_de_celda (r columna_fecha_tasa)) (rows df_tasa))
      as Hmismas.
    { unfold columna. clear -Hsueltas.
      induction Hsueltas as [|r l Hr _ IH]; [done|].
      rewrite !fmap_cons. simpl.
      destruct Hr as [[t Ht]| Hr].
      - rewrite Ht. simpl. f_equal. exact IH.
      - rewrite Hr. simpl.
        assert (fecha_de_celda (r columna_fecha_tasa) = None) as ->; [|exact IH].
        by destruct (r columna_fecha_tasa). }
    rewrite Hmismas in Hfechas.
    assert (NoDup (fecha <$> df_lookup)) as Hnodup' by by rewrite Hfechas.
    assert (df_lookup' ≡ₚ df_lookup) as Hperm.
    { unfold construir_lookup in Hl, Hl'. rewrite Hcol in Hl. rewrite Hcol' in Hl'.
      simpl in Hl, Hl'. injection Hl as <-. injection Hl' as <-.
      rewrite Hcolumns.
      destruct (limpiar_tasa_perm columna_fecha_tasa df_tasa df_tasa' Hcolumns Hrows
                  Hsueltas).
      by apply construir_tasas_lookup_perm. }
    apply (StronglySorted_unique_strong
             (λ a b : TasaRow, Timestamp_le (fecha a) (fecha b))); [|done..].
    intros x1 x2 Hx1 Hx2 H12 H21.
    apply (NoDup_fmap_eq fecha df_lookup); [done| |done|].
    - by rewrite <-Hperm.
    - by apply Timestamp_le_antisym. }
  split; [done|].
  intros df_ordenes. unfold agregar_columna_tasa. by rewrite Hlookup.
Qed.

(** ** The column of the dates *)

Lemma startswith_app (p q s : string) :
  startswith (p +:+ q) s = true → startswith p s = true.
Proof.
  revert s. induction p as [|a p IH]; intros s; [done|].
  rewrite append_cons. destruct s as [|b s]; simpl; [done|].
  intros [Hab Hps]%andb_true_iff. rewrite Hab. simpl. by apply IH.
Qed.

Lemma contains_app (p q s : string) :
  contains (p +:+ q) s = true → contains p s = true.
Proof.
  induction s as [|b s IH].
  - simpl. rewrite !orb_false_r. apply startswith_app.
  - simpl. intros [Hstart|Hresto]%orb_true_iff.
    + by rewrite (startswith_app _ _ _ Hstart).
    + rewrite (IH Hresto). apply orb_true_r.
Qed.

(** X16. The dates of the rate table are taken from the first column whose
    name contains FECHA or DATE, case apart: the two longer names the code
    also looks for change nothing.  Without such a column the first column
    is taken, and only a table without columns makes the choice fail. *)
Theorem elegir_columna_fecha_primera (df_tasa : DataFrame) :
  let es_fecha (col : string) :=
    contains "FECHA" (upper col) || contains "DATE" (upper col) in
  (∀ (i : nat) (col : string),
     columns df_tasa !! i = Some col → es_fecha col = true →
     (∀ (j : nat) (col' : string),
        (j < i)%nat → columns df_tasa !! j = Some col' → es_fecha col' = false) →
     elegir_columna_fecha df_tasa = inr col) ∧
  (∀ (col : string) (cols : list string),
     columns df_tasa = col :: cols →
     (∀ col', col' ∈ columns df_tasa → es_fecha col' = false) →
     elegir_columna_fecha df_tasa = inr col) ∧
  (columns df_tasa = [] ↔ elegir_columna_fecha df_tasa = inl IndexError).
Proof.
  intros es_fecha.
  assert (∀ col, existsb (λ patron, contains (upper patron) (upper col)) posibles_fechas
                 = es_fecha col) as Hpatrones.
  { intros col. unfold es_fecha.
    unfold posibles_fechas. cbn [existsb].
    rewrite !(upper_ascii_ok "FECHA"), !(upper_ascii_ok "DATE"),
      !(upper_ascii_ok "FECHA_CAMBIO"), !(upper_ascii_ok "FECHA_TASA") by done.
    change (upper_ascii "FECHA") with "FECHA".
    change (upper_ascii "DATE") with "DATE".
    change (upper_ascii "FECHA_CAMBIO") with "FECHA_CAMBIO".
    change (upper_ascii "FECHA_TASA") with "FECHA_TASA".
    destruct (contains "FECHA" (upper col)) eqn:Hfecha; [done|].
    destruct (contains "DATE" (upper col)) eqn:Hdate; [done|]. simpl.
    destruct (contains "FECHA_CAMBIO" (upper col)) eqn:Hcambio.
    { apply (contains_app "FECHA" "_CAMBIO") in Hcambio. congruence. }
    destruct (contains "FECHA_TASA" (upper col)) eqn:Htasa; [|done].
    apply (contains_app "FECHA" "_TASA") in Htasa. congruence. }
  unfold elegir_columna_fecha, buscar_columna.
  split; [|split].
  - intros i col Hi Hcol Hantes.
    assert (list_find
              (λ col, existsb (λ patron, contains (upper patron) (upper col))
                              posibles_fechas = true)
              (columns df_tasa) = Some (i, col)) as ->; [|done].
    apply list_find_Some. split; [done|]. split; [by rewrite Hpatrones|].
    intros j col' Hj Hji. rewrite Hpatrones, (Hantes j col' Hji Hj). done.
  - intros col cols Hcolumns Hninguna.
    assert (list_find
              (λ col, existsb (λ patron, contains (upper patron) (upper col))
                              posibles_fechas = true)
              (columns df_tasa) = None) as ->; [|by rewrite Hcolumns].
    apply list_find_None, Forall_forall. intros col' Hcol'.
    rewrite Hpatrones, (Hninguna col' Hcol'). done.
  - split.
    + intros ->. done.
    + destruct (list_find _ _) as [[i col]|]; [done|].
      by destruct (columns df_tasa).
Qed.
(** ** The pipeline, row by row *)

Lemma procesar_archivos_ok (df_leido df_tasa : DataFrame)
    (areas_dict : gmap string string) (df_lookup : list TasaRow) :
  conjunto_normalizado (columns df_leido) = conjunto_normalizado COLUMNAS_ESPERADAS →
  construir_lookup df_tasa = inr df_lookup →
  outcome (procesar_archivos df_leido df_tasa areas_dict) =
  inr (enriquecer df_lookup areas_dict
         {| columns := columns (normalizar_columnas df_leido);
            rows := filter (λ r, estado_normalizado r ≠ "CERRADO")
                           (rows (normalizar_columnas df_leido)) |},
       df_tasa).
Proof.
  intros Hschema Hlookup.
  pose proof (leer_ordenes_compra_ok _ Hschema) as Hleer.
  set (df_ordenes := normalizar_columnas df_leido) in *.
  assert (∀ col, col ∈ COLUMNAS_ESPERADAS → col ∈ columns df_ordenes) as Hcols.
  { intros col Hcol. by apply elem_of_columns_normalizar. }
  set (df_filtrado :=
         {| columns := columns df_ordenes;
            rows := filter (λ r, estado_normalizado r ≠ "CERRADO") (rows df_ordenes) |}).
  assert (en_lista : ∀ (col : string) (l : list string),
            bool_decide (col ∈ l) = true → col ∈ l)
    by (intros col l; apply bool_decide_eq_true).
  unfold enriquecer.
  set (f1 := λ r : Row, calcular_ano_fiscal (r "FECHA_ORDEN")).
  set (f2 := λ row : Row,
               buscar_tasa_con_fallback df_lookup (row "FECHA_ORDEN") (row "DIVISA")).
  set (f3 := λ r : Row, if decide (areas_dict = ∅) then None_
                        else buscar_area areas_dict (r "SOLICITANTE")).
  set (df1 := assign "AÑO FISCAL" f1 df_filtrado).
  set (df2 := assign "TASA" f2 df1).
  set (df3 := assign "AREA" f3 df2).
  set (df4 := assign "MONTO OC USD" calcular_monto_oc_usd
                (assign "MONTO OC" calcular_monto_oc df3)).
  set (df5 := assign "MONTO OC ASOCIADO USD" calcular_monto_oc_asociado_usd
                (assign "MONTO OC ASOCIADO" calcular_monto_oc_asociado df4)).
  set (df6 := assign "MONTO REAL DEUDA" calcular_monto_real_deuda df5).
  assert (∀ col, col ∈ COLUMNAS_ESPERADAS → col ∈ columns df3) as Hcols3.
  { intros col Hcol. unfold df3, df2, df1. rewrite !elem_of_columns_assign.
    left. left. left. by apply Hcols. }
  assert ("TASA" ∈ columns df3) as Htasa3.
  { unfold df3, df2. rewrite !elem_of_columns_assign. left. by right. }
  assert (∀ col, col ∈ columns df3 → col ∈ columns df4) as H34.
  { intros col Hcol. unfold df4. rewrite !elem_of_columns_assign. by left; left. }
  assert (∀ col, col ∈ columns df4 → col ∈ columns df5) as H45.
  { intros col Hcol. unfold df5. rewrite !elem_of_columns_assign. by left; left. }
  unfold procesar_archivos.
  rewrite (outcome_bind_inr _ _ _ Hleer).
  rewrite (outcome_bind_inr _ _ df_filtrado)
    by by apply filtrar_cerrados_ok, Hcols, en_lista.
  rewrite (outcome_bind_inr _ _ df1)
    by by apply agregar_ano_fiscal_ok, Hcols, en_lista.
  rewrite (outcome_bind_inr _ _ df2).
  2:{ apply agregar_columna_tasa_ok; [done|..];
      unfold df1; rewrite elem_of_columns_assign; left; by apply Hcols, en_lista. }
  rewrite (outcome_bind_inr _ _ df3).
  2:{ apply agregar_columna_area_ok. unfold df2, df1.
      rewrite !elem_of_columns_assign. left; left. by apply Hcols, en_lista. }
  rewrite (outcome_bind_inr _ _ df4).
  2:{ apply agregar_montos_oc_ok.
      repeat (apply Forall_cons; split;
              [first [by apply Hcols3, en_lista | exact Htasa3]|]).
      by apply Forall_nil. }
  rewrite (outcome_bind_inr _ _ df5).
  2:{ apply agregar_montos_oc_asociado_ok.
      repeat (apply Forall_cons; split;
              [apply H34; first [by apply Hcols3, en_lista | exact Htasa3]|]).
      by apply Forall_nil. }
  rewrite (outcome_bind_inr _ _ df6).
  2:{ apply agregar_monto_real_deuda_ok.
      apply Forall_cons; split.
      { apply H45. unfold df4. rewrite elem_of_columns_assign. by right. }
      apply Forall_cons; split; [|by apply Forall_nil].
      unfold df5. rewrite elem_of_columns_assign. by right. }
  done.
Qed.




(** A run on a sheet that fails the schema check, or with a rate table
    that gives no lookup frame, raises. *)
Lemma procesar_archivos_sin_esquema (df_leido df_tasa : DataFrame)
    (areas_dict : gmap string string) :
  conjunto_normalizado (columns df_leido) ≠ conjunto_normalizado COLUMNAS_ESPERADAS →
  outcome (procesar_archivos df_leido df_tasa areas_dict)
  = inl (ValueError (Text "El archivo no tiene las columnas esperadas")).
Proof.
  intros Hschema. unfold procesar_archivos, leer_ordenes_compra.
  rewrite !outcome_bind.
  rewrite verificar_columnas_mismatch; [done|].
  by rewrite conjunto_normalizado_normalizar.
Qed.

Lemma procesar_archivos_sin_lookup (df_leido df_tasa : DataFrame)
    (areas_dict : gmap string string) (e : py_exn) :
  conjunto_normalizado (columns df_leido) = conjunto_normalizado COLUMNAS_ESPERADAS →
  construir_lookup df_tasa = inl e →
  outcome (procesar_archivos df_leido df_tasa areas_dict) = inl e.
Proof.
  intros Hschema Hlookup.
  pose proof (leer_ordenes_compra_ok _ Hschema) as Hleer.
  set (df_ordenes := normalizar_columnas df_leido) in *.
  assert (∀ col, col ∈ COLUMNAS_ESPERADAS → col ∈ columns df_ordenes) as Hcols.
  { intros col Hcol. by apply elem_of_columns_normalizar. }
  assert (en_lista : ∀ (col : string) (l : list string),
            bool_decide (col ∈ l) = true → col ∈ l)
    by (intros col l; apply bool_decide_eq_true).
  set (df_filtrado :=
         {| columns := columns df_ordenes;
            rows := filter (λ r, estado_normalizado r ≠ "CERRADO") (rows df_ordenes) |}).
  set (df1 := assign "AÑO FISCAL" (λ r : Row, calcular_ano_fiscal (r "FECHA_ORDEN"))
                df_filtrado).
  unfold procesar_archivos.
  rewrite (outcome_bind_inr _ _ _ Hleer).
  rewrite (outcome_bind_inr _ _ df_filtrado)
    by by apply filtrar_cerrados_ok, Hcols, en_lista.
  rewrite (outcome_bind_inr _ _ df1)
    by by apply agregar_ano_fiscal_ok, Hcols, en_lista.
  rewrite outcome_bind.
  unfold agregar_columna_tasa. rewrite outcome_bind. simpl. by rewrite Hlookup.
Qed.



(** X19. The report is not a sheet of orders any more: whenever a run of
    the pipeline on a sheet without two headers that are the same name once
    normalized returns a table, that table has the eight derived columns,
    so the schema check refuses it and processing it again ends in the
    schema error. *)
Theorem procesar_archivos_no_reentrante
    (df_leido df_tasa df_tasa' df_final df_tasa_final : DataFrame)
    (areas_dict areas_dict' : gmap string string) :
  nombres_distintos df_leido →
  outcome (procesar_archivos df_leido df_tasa areas_dict)
  = inr (df_final, df_tasa_final) →
  (∀ col, col ∈ columnas_derivadas → col ∈ columns df_final) ∧
  outcome (verificar_columnas df_final) = inr false ∧
  outcome (procesar_archivos df_final df_tasa' areas_dict')
  = inl (ValueError (Text "El archivo no tiene las columnas esperadas")).
Proof.
  intros _ Hrun.
  destruct (decide (conjunto_normalizado (columns df_leido)
                    = conjunto_normalizado COLUMNAS_ESPERADAS)) as [Hschema|Hschema];
    [|by rewrite procesar_archivos_sin_esquema in Hrun].
  destruct (construir_lookup df_tasa) as [e|df_lookup] eqn:Hlookup;
    [by rewrite (procesar_archivos_sin_lookup _ _ _ e) in Hrun|].
  rewrite (procesar_archivos_ok _ _ _ df_lookup) in Hrun by done.
  injection Hrun as <- _.
  set (df_final := enriquecer _ _ _).
  assert (∀ col, col ∈ columnas_derivadas → col ∈ columns df_final) as Hderivadas.
  { intros col Hcol. unfold df_final, enriquecer. rewrite !elem_of_columns_assign.
    unfold columnas_derivadas in Hcol. rewrite !elem_of_cons, elem_of_nil in Hcol.
    tauto. }
  assert (conjunto_normalizado (columns df_final)
          ≠ conjunto_normalizado COLUMNAS_ESPERADAS) as Hmismatch.
  { intros Heq.
    assert ("TASA" ∈ conjunto_normalizado (columns df_final)) as Hin.
    { unfold conjunto_normalizado. apply elem_of_list_to_set, list_elem_of_fmap.
      exists "TASA". split; [by rewrite normalizar_ascii|].
      apply Hderivadas. by apply (bool_decide_unpack _). }
    rewrite Heq, conjunto_normalizado_esperadas in Hin.
    apply elem_of_list_to_set in Hin. revert Hin.
    by apply (bool_decide_unpack _). }
  split; [done|].
  split; [by rewrite verificar_columnas_mismatch|].
  by apply procesar_archivos_sin_esquema.
Qed.

End Properties.

(** * The example reading of pandas satisfies the laws *)

Lemma rstrip_eq_nil (ws : string) : rstrip ws = "" → todo_espacios ws = true.
Proof.
  induction ws as [|c ws IH]; simpl; [done|].
  destruct (rstrip ws) as [|d r]; [|done].
  destruct (isspace c); [|done]. intros _. by apply IH.
Qed.

Lemma lstrip_eq_nil (ws : string) : lstrip ws = "" → todo_espacios ws = true.
Proof.
  induction ws as [|c ws IH]; simpl; [done|].
  destruct (isspace c); [|done]. exact IH.
Qed.

Lemma strip_ascii_eq_nil (ws : string) : strip_ascii ws = "" → todo_espacios ws = true.
Proof.
  unfold strip_ascii. intros Hl%lstrip_eq_nil.
  apply rstrip_eq_nil. apply rstrip_espacios in Hl. by rewrite rstrip_idemp in Hl.
Qed.

Lemma todo_espacios_app (a b : string) :
  todo_espacios (a +:+ b) = todo_espacios a && todo_espacios b.
Proof.
  induction a as [|c a IH]; [done|].
  rewrite append_cons; simpl. by rewrite IH, andb_assoc.
Qed.

Lemma rstrip_app_l (ws s : string) :
  rstrip s ≠ "" → rstrip (ws +:+ s) = ws +:+ rstrip s.
Proof.
  intros Hs. induction ws as [|c ws IH]; [done|].
  rewrite !append_cons; simpl. rewrite IH.
  destruct ws as [|d ws]; [|done].
  rewrite append_nil_l. by destruct (rstrip s).
Qed.

Lemma strip_ascii_blancos (ws1 s ws2 : string) :
  todo_espacios ws1 = true → todo_espacios ws2 = true →
  strip_ascii (ws1 +:+ s +:+ ws2) = strip_ascii s.
Proof.
  intros Hws1 Hws2. unfold strip_ascii.
  rewrite <-append_assoc, rstrip_app_espacios by done.
  destruct (decide (rstrip s = "")) as [Hs|Hs].
  - rewrite Hs, rstrip_espacios; [done|].
    by rewrite todo_espacios_app, Hws1, (rstrip_eq_nil s).
  - by rewrite rstrip_app_l, lstrip_espacios_app.
Qed.

Global Existing Instance pandas_ejemplo.

Global Instance pandas_ejemplo_laws : PandasLaws (H := pandas_ejemplo).
Proof.
  split.
  - done.
  - done.
  - exact upper_ascii_idemp.
  - exact strip_ascii_idemp.
  - intros s. simpl. unfold strip_ascii.
    by rewrite <-upper_ascii_rstrip, <-upper_ascii_lstrip.
  - by intros [].
  - intros ws1 s ws2 Hws1%strip_ascii_eq_nil Hws2%strip_ascii_eq_nil. simpl.
    change (upper_ascii (ws1 +:+ s +:+ ws2) = ws1 +:+ upper_ascii s +:+ ws2).
    by rewrite !upper_ascii_app, (upper_ascii_espacios ws1), (upper_ascii_espacios ws2).
  - intros ws1 s ws2 Hws1%strip_ascii_eq_nil Hws2%strip_ascii_eq_nil.
    by apply strip_ascii_blancos.
  - intros cs. simpl. by rewrite length_fmap.
  - intros cs. simpl. apply Forall_fmap, Forall_forall. intros c _. simpl.
    by destruct c as [[]| | |].
  - intros cs Hcs. simpl. apply list_fmap_ext. intros i c Hc.
    eapply Forall_lookup_1 in Hcs; [|done].
    destruct Hcs as [[t ->]|Hc']; [done|].
    destruct c; try done.
  - done.
  - intros by_ df _. apply sort_values_estable_perm.
  - intros by_ df _. apply sort_values_estable_sorted.
Qed.


(** * The theorems on the example data *)

Lemma calcular_monto_real_deuda_null_rule_witness :
  calcular_monto_real_deuda (H := pandas_ejemplo) (fila_de []) = None_ ∧
  calcular_monto_real_deuda (H := pandas_ejemplo) fila_solo_oc = numero 7 ∧
  calcular_monto_real_deuda (H := pandas_ejemplo) fila_solo_asociado
  = Num (- Q2Qc (inject_Z 7)) ∧
  calcular_monto_real_deuda (H := pandas_ejemplo) fila_ambos
  = Num (Q2Qc (inject_Z 7) - Q2Qc (inject_Z 2)).
Proof.
  split; [|split; [|split]].
  - apply (calcular_monto_real_deuda_null_rule (H := pandas_ejemplo) (fila_de []));
      reflexivity.
  - apply (calcular_monto_real_deuda_null_rule (H := pandas_ejemplo) fila_solo_oc);
      reflexivity.
  - apply (calcular_monto_real_deuda_null_rule (H := pandas_ejemplo) fila_solo_asociado);
      reflexivity.
  - apply (calcular_monto_real_deuda_null_rule (H := pandas_ejemplo) fila_ambos);
      reflexivity.
Defined.

Lemma usd_never_divides_witness :
  calcular_monto_oc_usd (H := pandas_ejemplo) fila_usd = numero 30.
Proof.
  apply (proj1 (usd_never_divides (H := pandas_ejemplo)) fila_usd); reflexivity.
Defined.

Lemma guarded_usd_conversion_witness :
  calcular_monto_oc_usd (H := pandas_ejemplo) fila_ves
  = Num (Q2Qc (inject_Z 30) / Q2Qc (inject_Z 50)) ∧
  calcular_monto_oc_asociado_usd (H := pandas_ejemplo) (<["TASA" := Str "0"]> fila_ves)
  = None_.
Proof.
  split.
  - refine (proj2 (proj1 (proj1 (proj2 (guarded_usd_conversion (H := pandas_ejemplo)
      "MONTO OC" calcular_monto_oc_usd_body calcular_monto_oc_usd fila_ves _ _))
      (Q2Qc (inject_Z 50)) _ _) (Q2Qc (inject_Z 30)) _)).
    + apply list_elem_of_here.
    + vm_compute. apply list_elem_of_here.
    + reflexivity.
    + discriminate.
    + reflexivity.
  - refine (proj2 (proj1 (guarded_usd_conversion (H := pandas_ejemplo)
      "MONTO OC ASOCIADO" calcular_monto_oc_asociado_usd_body
      calcular_monto_oc_asociado_usd (<["TASA" := Str "0"]> fila_ves) _ _) _)).
    + apply list_elem_of_further, list_elem_of_here.
    + vm_compute. apply list_elem_of_here.
    + right; left. reflexivity.
Defined.

(** The last of August and the first of September, a text that is no date,
    a null date; and the text "NaT", which is not null and is read as [NaT]:
    its fiscal year is the text "nan-nan". *)
Lemma calcular_ano_fiscal_spec_witness :
  calcular_ano_fiscal (H := pandas_ejemplo) (dia 2026 8 31) = Str "2025-2026" ∧
  calcular_ano_fiscal (H := pandas_ejemplo) (dia 2026 9 1) = Str "2026-2027" ∧
  calcular_ano_fiscal (H := pandas_ejemplo) (Str "31 de agosto") = None_ ∧
  calcular_ano_fiscal (H := pandas_ejemplo) (Na NaT) = None_ ∧
  calcular_ano_fiscal (H := pandas_ejemplo) (Str "NaT") = Str "nan-nan".
Proof.
  pose proof (proj1 (calcular_ano_fiscal_spec (H := pandas_ejemplo))) as Hspec.
  split; [|split; [|split; [|split]]].
  - refine (proj1 (proj2 (proj2
      (proj2 (proj2 (proj2 (Hspec (dia 2026 8 31)))) (mkTimestamp 2026 8 31 0) _))) _);
      reflexivity.
  - refine (proj2 (proj2 (proj2
      (proj2 (proj2 (proj2 (Hspec (dia 2026 9 1)))) (mkTimestamp 2026 9 1 0) _))) _);
      reflexivity.
  - refine (proj1 (proj2 (Hspec (Str "31 de agosto"))) _ _). reflexivity.
  - apply (proj1 (Hspec (Na NaT))). reflexivity.
  - apply (proj1 (proj2 (proj2 (Hspec (Str "NaT"))))); reflexivity.
Defined.




Lemma schema_validation_witness :
  outcome (leer_ordenes_compra ordenes_ejemplo) = inr (normalizar_columnas ordenes_ejemplo) ∧
  outcome (procesar_archivos (H := pandas_ejemplo)
             ordenes_sin_fecha_cierre tasa_ejemplo areas_ejemplo)
  = inl (ValueError (Text "El archivo no tiene las columnas esperadas")) ∧
  stdout (procesar_archivos (H := pandas_ejemplo)
            ordenes_sin_fecha_cierre tasa_ejemplo areas_ejemplo)
  = reporte_columnas (columns ordenes_sin_fecha_cierre).
Proof.
  split.
  - apply (proj1 (schema_validation (H := pandas_ejemplo)
                    ordenes_ejemplo tasa_ejemplo areas_ejemplo)).
    + apply (bool_decide_unpack _). vm_compute. exact I.
    + apply (bool_decide_unpack _). vm_compute. exact I.
  - assert (conjunto_normalizado (columns ordenes_sin_fecha_cierre)
            ≠ conjunto_normalizado COLUMNAS_ESPERADAS) as Hne
      by (apply (bool_decide_unpack _); vm_compute; exact I).
    destruct (proj2 (schema_validation (H := pandas_ejemplo)
                ordenes_sin_fecha_cierre tasa_ejemplo areas_ejemplo) Hne)
      as (_ & _ & _ & _ & _ & _ & Hprocesar).
    rewrite Hprocesar. split; reflexivity.
Defined.

Lemma rate_resolver_witness :
  ∃ df_lookup : list TasaRow,
    construir_lookup (H := pandas_ejemplo) tasa_ejemplo = inr df_lookup ∧
    ordenada_por_fecha df_lookup ∧
    buscar_tasa_con_fallback (H := pandas_ejemplo) df_lookup (Str "ayer") (Str "VES")
    = None_.
Proof.
  eexists. split; [reflexivity|].
  destruct (proj1 (rate_resolver (H := pandas_ejemplo)) tasa_ejemplo _ eq_refl)
    as [(Hsorted & _) Hbuscar].
  split; [exact Hsorted|].
  refine (proj1 (proj2 (Hbuscar (Str "ayer") (Str "VES"))) _ _). reflexivity.
Defined.

(** The rate of a row of the very date of the order is not always the
    result: with three rows of the 10th of January of which only the second
    has a rate, and with a row at midnight without a rate before a row of the
    same day with one, the order of the 10th of January gets no rate. *)
Lemma rate_resolver_exact_row_ignored :
  (∃ (df_lookup : list TasaRow) (fila : TasaRow),
     construir_lookup (H := pandas_ejemplo) tasa_repetida = inr df_lookup ∧
     fila ∈ df_lookup ∧
     fecha fila = mkTimestamp 2026 1 10 0 ∧
     tasa_de "tasa_VES" fila = numero 55 ∧
     buscar_tasa_con_fallback (H := pandas_ejemplo) df_lookup (dia 2026 1 10) (Str "VES")
     = None_) ∧
  (∃ (df_lookup : list TasaRow) (fila : TasaRow),
     construir_lookup (H := pandas_ejemplo) tasa_con_hora = inr df_lookup ∧
     fila ∈ df_lookup ∧
     mismo_dia (fecha fila) (mkTimestamp 2026 1 10 0) ∧
     fecha_str fila = strftime_Ymd (mkTimestamp 2026 1 10 0) ∧
     tasa_de "tasa_VES" fila = numero 55 ∧
     buscar_tasa_con_fallback (H := pandas_ejemplo) df_lookup (dia 2026 1 10) (Str "VES")
     = None_).
Proof.
  split.
  - eexists _, {| fecha := mkTimestamp 2026 1 10 0; fecha_str := "2026-01-10";
                  tasas := [("tasa_VES", numero 55)] |}.
    split; [reflexivity|]. split; [|by vm_compute].
    apply list_elem_of_further, list_elem_of_here.
  - eexists _, {| fecha := mkTimestamp 2026 1 10 28800000000000;
                  fecha_str := "2026-01-10";
                  tasas := [("tasa_VES", numero 55)] |}.
    split; [reflexivity|]. split; [|by vm_compute].
    apply list_elem_of_further, list_elem_of_here.
Qed.

(** The error of a failed load does not name the columns: on a sheet
    without FECHA_CIERRE the load raises [ValueError] with a text in which
    FECHA_CIERRE does not occur. *)
Lemma schema_error_does_not_name_columns :
  conjunto_normalizado (columns ordenes_sin_fecha_cierre)
  ≠ conjunto_normalizado COLUMNAS_ESPERADAS ∧
  "FECHA_CIERRE" ∈ conjunto_normalizado COLUMNAS_ESPERADAS
                   ∖ conjunto_normalizado (columns ordenes_sin_fecha_cierre) ∧
  ¬ ∃ msg : message,
      outcome (leer_ordenes_compra ordenes_sin_fecha_cierre) = inl (ValueError msg) ∧
      nombra msg "FECHA_CIERRE".
Proof.
  split; [apply (bool_decide_unpack _); vm_compute; exact I|].
  split; [apply (bool_decide_unpack _); vm_compute; exact I|].
  intros (msg & Hout & Hnombra).
  assert (outcome (leer_ordenes_compra ordenes_sin_fecha_cierre)
          = inl (ValueError (Text "El archivo no tiene las columnas esperadas")))
    as Hleer by (vm_compute; reflexivity).
  rewrite Hleer in Hout. injection Hout as <-.
  clear -Hnombra. vm_compute in Hnombra. discriminate.
Qed.


(** The whole pipeline on the three orders: the closed one is gone; the
    order in bolivars of the 5th of January takes the rate 50 of the 1st and
    its area from the directory, and owes 2 * 100 / 50 - 2 * 50 / 50 = 2; the
    order in dollars keeps its amount 21 and, with no associated amount, owes
    all of it. *)
Example procesar_archivos_ejemplo :
  match outcome (procesar_archivos (H := pandas_ejemplo)
                   ordenes_ejemplo tasa_ejemplo areas_ejemplo) with
  | inr (df, _) =>
      (λ r : Row, (r "NUMERO_OC", r "AÑO FISCAL", r "AREA", valor (r "TASA"),
                   valor (r "MONTO OC USD"), valor (r "MONTO OC ASOCIADO USD"),
                   valor (r "MONTO REAL DEUDA")))
        <$> rows df
  | inl _ => []
  end
  = [ (Str "OC-1", Str "2025-2026", Str "FINANZAS", Some 50%Q,
       Some 4%Q, Some 2%Q, Some 2%Q);
      (Str "OC-3", Str "2026-2027", None_, Some 55%Q,
       Some 21%Q, None, Some 21%Q) ].
Proof. by vm_compute. Qed.



(** ** The further properties on the example data *)

(** An order in pounds and an order without currency are divided by the rate
    of the row like an order in bolivars. *)
Lemma conversion_de_toda_divisa_no_usd_witness :
  calcular_monto_oc_usd (H := pandas_ejemplo) (<["DIVISA" := Str "gbp"]> fila_ves)
  = Num (Q2Qc (inject_Z 30) / Q2Qc (inject_Z 50)) ∧
  calcular_monto_oc_asociado_usd (H := pandas_ejemplo) (<["DIVISA" := Na NaN]> fila_ves)
  = Num (Q2Qc (inject_Z 60) / Q2Qc (inject_Z 50)).
Proof.
  split.
  - rewrite (conversion_de_toda_divisa_no_usd (H := pandas_ejemplo)
               "MONTO OC" calcular_monto_oc_usd (<["DIVISA" := Str "gbp"]> fila_ves)).
    + reflexivity.
    + apply list_elem_of_here.
    + vm_compute. discriminate.
  - rewrite (conversion_de_toda_divisa_no_usd (H := pandas_ejemplo)
               "MONTO OC ASOCIADO" calcular_monto_oc_asociado_usd
               (<["DIVISA" := Na NaN]> fila_ves)).
    + reflexivity.
    + apply list_elem_of_further, list_elem_of_here.
    + vm_compute. discriminate.
Defined.

(** The order of 10 units at price 3 with 20 units associated, at 50
    bolivars per dollar, owes 3 * 10 / 50 - 20 * 3 / 50 dollars. *)
Lemma deuda_neta_formula_witness :
  ∃ (df7 : DataFrame) (r' : Row),
    rows df7 = [r'] ∧
    r' "MONTO REAL DEUDA"
    = Num (Q2Qc (inject_Z 3) * Q2Qc (inject_Z 10) / Q2Qc (inject_Z 50)
           - Q2Qc (inject_Z 20) * Q2Qc (inject_Z 3) / Q2Qc (inject_Z 50)).
Proof.
  destruct (deuda_neta_formula (H := pandas_ejemplo) montos_ejemplo)
    as (df5 & df6 & df7 & _ & _ & _ & Hrows).
  - apply (bool_decide_unpack _). vm_compute. exact I.
  - simpl in Hrows.
    apply Forall2_cons_inv_l in Hrows as (r' & l' & Hr & Hl & Heq).
    apply Forall2_nil_inv_l in Hl as ->.
    exists df7, r'. split; [exact Heq|].
    refine (proj2 (proj1 (Hr (Q2Qc (inject_Z 3)) (Q2Qc (inject_Z 10)) eq_refl eq_refl)
                     (Q2Qc (inject_Z 20)) eq_refl) _ (Q2Qc (inject_Z 50)) _).
    + vm_compute. discriminate.
    + reflexivity.
Defined.

(** The first of September 2025 and the last of August 2026 bear one fiscal
    year, the first of September 2026 another. *)
Lemma calcular_ano_fiscal_periodo_witness :
  calcular_ano_fiscal (H := pandas_ejemplo) (dia 2025 9 1)
  = calcular_ano_fiscal (H := pandas_ejemplo) (dia 2026 8 31) ∧
  calcular_ano_fiscal (H := pandas_ejemplo) (dia 2026 8 31)
  ≠ calcular_ano_fiscal (H := pandas_ejemplo) (dia 2026 9 1).
Proof.
  split.
  - apply (calcular_ano_fiscal_periodo (H := pandas_ejemplo)
             (dia 2025 9 1) (dia 2026 8 31) _ _ eq_refl eq_refl).
    + unfold fecha_valida; simpl; lia.
    + unfold fecha_valida; simpl; lia.
    + reflexivity.
  - intros Heq.
    apply (calcular_ano_fiscal_periodo (H := pandas_ejemplo)
             (dia 2026 8 31) (dia 2026 9 1) _ _ eq_refl eq_refl) in Heq.
    + discriminate.
    + unfold fecha_valida; simpl; lia.
    + unfold fecha_valida; simpl; lia.
Defined.

(** The header of [hoja_ejemplo] is found on its second row when five rows
    are looked at, and missed when one is. *)
Lemma detectar_cabezales_primera_witness :
  detectar_cabezales (H := pandas_ejemplo) hoja_ejemplo 5
  = ([Text "Cabezales detectados en la fila 2"], inr 1%nat) ∧
  detectar_cabezales (H := pandas_ejemplo) hoja_ejemplo 1
  = ([Text "⚠ No se detectaron cabezales automáticamente, usando la primera fila"],
     inr 0%nat).
Proof.
  split.
  - apply (proj1 (detectar_cabezales_primera (H := pandas_ejemplo) hoja_ejemplo 5)
             1%nat (Str <$> cabezales_ejemplo)).
    + lia.
    + reflexivity.
    + apply Forall_forall. apply (bool_decide_unpack _). vm_compute. exact I.
    + intros j fila' Hj Hfila. destruct j as [|j]; [|lia].
      injection Hfila as <-. exists "NUMERO_OC".
      split; apply (bool_decide_unpack _); vm_compute; exact I.
  - apply (proj2 (detectar_cabezales_primera (H := pandas_ejemplo) hoja_ejemplo 1)).
    intros i fila Hi Hfila. destruct i as [|i]; [|lia].
    injection Hfila as <-. exists "NUMERO_OC".
    split; apply (bool_decide_unpack _); vm_compute; exact I.
Defined.

(** The header of a rate sheet of two columns is not detected. *)
Lemma detectar_cabezales_tasa_tres_witness :
  detectar_cabezales_tasa (H := pandas_ejemplo) hoja_tasa_ejemplo 10
  = ([Text "⚠ No se detectaron cabezales de Tasa automáticamente, usando la primera fila"],
     inr 0%nat).
Proof.
  apply (proj2 (proj2 (proj2
           (detectar_cabezales_tasa_tres (H := pandas_ejemplo) hoja_tasa_ejemplo 10)))).
  intros i fila _ Hfila.
  destruct i as [|[|[|i]]]; try (injection Hfila as <-; simpl; lia).
  discriminate.
Defined.

(** The requester of the sheet is found under another spelling. *)
Lemma leer_areas_desde_sheets_normalizado_witness :
  buscar_area (H := pandas_ejemplo) (leer_areas_desde_sheets datos_areas_ejemplo)
              (Str " ana PEREZ")
  = Str "Compras".
Proof.
  refine (proj2 (proj2 (proj2 (proj2
            (leer_areas_desde_sheets_normalizado (H := pandas_ejemplo)
               datos_areas_ejemplo "ANA PEREZ" "Compras" _)))) " ana PEREZ" _).
  - vm_compute. reflexivity.
  - reflexivity.
Defined.

(** Of the two rows of Ana Perez the second gives the area. *)
Lemma leer_areas_desde_sheets_ultima_fila_witness :
  leer_areas_desde_sheets datos_areas_ejemplo !! "ANA PEREZ" = Some "Compras" ∧
  buscar_area (H := pandas_ejemplo) (leer_areas_desde_sheets datos_areas_ejemplo)
              (Str "ana perez")
  = Str "Compras".
Proof.
  destruct (leer_areas_desde_sheets_ultima_fila (H := pandas_ejemplo)
              ["Solicitante"; "Area"] [[" ana perez "; " Finanzas "]] [["LUIS"; ""]]
              ["Ana Perez"; "Compras"] 0 1 "Ana Perez" "Compras")
    as [Hentrada Hbuscar].
  - reflexivity.
  - reflexivity.
  - reflexivity.
  - vm_compute. discriminate.
  - vm_compute. discriminate.
  - intros row' s' a' Hin Hs' Ha' Heq.
    apply list_elem_of_singleton in Hin as ->.
    injection Hs' as <-. vm_compute in Heq. discriminate.
  - split; [exact Hentrada|]. apply Hbuscar. reflexivity.
Defined.

(** A sheet whose header does not name the requester leaves every AREA
    null. *)
Lemma agregar_columna_area_sin_directorio_witness :
  leer_areas_desde_sheets datos_sin_solicitante = ∅ ∧
  ∃ df' : DataFrame,
    outcome (agregar_columna_area (H := pandas_ejemplo)
               (normalizar_columnas ordenes_ejemplo)
               (leer_areas_desde_sheets datos_sin_solicitante)) = inr df' ∧
    Forall (λ r' : Row, r' "AREA" = None_) (rows df').
Proof.
  destruct (agregar_columna_area_sin_directorio (H := pandas_ejemplo)
              (normalizar_columnas ordenes_ejemplo) datos_sin_solicitante)
    as (Hvacio & df' & Hout & _ & Hrows).
  - apply (bool_decide_unpack _). vm_compute. exact I.
  - right; left. intros cabezales header Hhead Hin.
    injection Hhead as <-.
    apply elem_of_cons in Hin as [->|Hin]; [reflexivity|].
    apply list_elem_of_singleton in Hin as ->. reflexivity.
  - split; [exact Hvacio|]. exists df'. split; [exact Hout|].
    clear Hout. induction Hrows as [|r r' l l' [Harea _] _ IH]; constructor; assumption.
Defined.

(** An order in dollars gets the rate of the bolivar of its date. *)
Lemma tasa_de_divisa_no_reconocida_witness :
  ∃ df_lookup : list TasaRow,
    construir_lookup (H := pandas_ejemplo) tasa_ejemplo = inr df_lookup ∧
    buscar_tasa_con_fallback (H := pandas_ejemplo) df_lookup (dia 2026 1 5) (Str "usd")
    = buscar_tasa_con_fallback (H := pandas_ejemplo) df_lookup (dia 2026 1 5) (Str "VES").
Proof.
  assert (normalizar_divisa (H := pandas_ejemplo) (Str "usd") ∉ ["VES"; "COP"; "EUR"])
    as Hdivisa by (apply (bool_decide_unpack _); vm_compute; exact I).
  eexists. split; [reflexivity|].
  apply (proj1 (tasa_de_divisa_no_reconocida (H := pandas_ejemplo)
                  _ (dia 2026 1 5) (Str "usd") Hdivisa)).
  apply (bool_decide_unpack _). vm_compute. exact I.
Defined.

(** An order in Colombian pesos gets no rate from a table of bolivar
    rates. *)
Lemma tasa_sin_columna_de_la_divisa_witness :
  ∃ df_lookup : list TasaRow,
    construir_lookup (H := pandas_ejemplo) tasa_ejemplo = inr df_lookup ∧
    buscar_tasa_con_fallback (H := pandas_ejemplo) df_lookup (dia 2026 1 5) (Str " cop")
    = None_.
Proof.
  eexists. split; [reflexivity|].
  apply (tasa_sin_columna_de_la_divisa (H := pandas_ejemplo)
           tasa_ejemplo _ (dia 2026 1 5) (Str " cop") "COP" ["COP/USD"; "COP_USD"]).
  - reflexivity.
  - apply list_elem_of_further, list_elem_of_here.
  - reflexivity.
  - reflexivity.
Defined.


(** The rate table of the examples gives the same lookup frame in
    ascending and in descending order of its dates. *)
Lemma construir_lookup_orden_de_filas_witness :
  construir_lookup (H := pandas_ejemplo) tasa_ejemplo_ascendente
  = construir_lookup (H := pandas_ejemplo) tasa_ejemplo.
Proof.
  apply (construir_lookup_orden_de_filas (H := pandas_ejemplo)
           tasa_ejemplo tasa_ejemplo_ascendente "FECHA").
  - reflexivity.
  - apply Permutation_swap.
  - reflexivity.
  - cbn [rows tasa_ejemplo].
    repeat (apply Forall_cons_2; [left; by eexists|]). apply Forall_nil_2.
  - vm_compute. apply NoDup_cons. split; [|apply NoDup_singleton].
    intros Hin. apply list_elem_of_singleton in Hin. discriminate.
Defined.

(** The dates of [tasa_ejemplo] are taken from its column FECHA, and a
    rate table without columns has no column to take them from. *)
Lemma elegir_columna_fecha_primera_witness :
  elegir_columna_fecha (H := pandas_ejemplo) tasa_ejemplo = inr "FECHA" ∧
  elegir_columna_fecha (H := pandas_ejemplo) tasa_vacia = inl IndexError.
Proof.
  split.
  - apply (proj1 (elegir_columna_fecha_primera (H := pandas_ejemplo) tasa_ejemplo)
             0%nat "FECHA"); [reflexivity|reflexivity|].
    intros j col' Hj. lia.
  - apply (proj2 (proj2 (elegir_columna_fecha_primera (H := pandas_ejemplo) tasa_vacia))).
    reflexivity.
Defined.



(** The report of the example is refused as a sheet of orders. *)
Lemma procesar_archivos_no_reentrante_witness :
  ∃ df_final : DataFrame,
    outcome (procesar_archivos (H := pandas_ejemplo)
               ordenes_ejemplo tasa_ejemplo areas_ejemplo)
    = inr (df_final, tasa_ejemplo) ∧
    outcome (procesar_archivos (H := pandas_ejemplo) df_final tasa_ejemplo areas_ejemplo)
    = inl (ValueError (Text "El archivo no tiene las columnas esperadas")).
Proof.
  assert (∃ df_final : DataFrame,
            outcome (procesar_archivos (H := pandas_ejemplo)
                       ordenes_ejemplo tasa_ejemplo areas_ejemplo)
            = inr (df_final, tasa_ejemplo)) as [df_final Hout].
  { destruct (construir_lookup_ok (H := pandas_ejemplo) tasa_ejemplo)
      as [df_lookup Hlookup]; [discriminate|].
    eexists. apply (procesar_archivos_ok (H := pandas_ejemplo) _ _ _ df_lookup);
      [|exact Hlookup].
    apply (bool_decide_unpack _). vm_compute. exact I. }
  exists df_final. split; [exact Hout|].
  apply (procesar_archivos_no_reentrante (H := pandas_ejemplo)
           ordenes_ejemplo tasa_ejemplo tasa_ejemplo df_final tasa_ejemplo
           areas_ejemplo areas_ejemplo); [|exact Hout].
  apply (bool_decide_unpack _). vm_compute. exact I.
Defined.
